(** * The Reddit bot cycle: a shallow embedding of [src/models/reddit_bot.py]

    The development follows the class [RedditBot]: the policy filter
    ([_filter_post]), the matcher ([_select_product_for_post],
    [_select_persona]), the reply composer ([_generate_comment]), the
    submission gate ([_post_comment]) and the cycle ([monitor_subreddits]),
    together with the initialisation of the two clients and the daily reset.

    Python values are modelled as follows.
    - [str] is [string], for text all of whose characters are ASCII:
      [str.lower] and [str.strip] act on the ASCII letters and blanks,
      which is what Python does on such text.  What is proved of the case
      of letters is stated for ASCII text ([PyStr.is_ascii]).
    - [int] is [Z].  A number that the bot reads as a [float] or an
      [int] (the clock [time.time()], [created_utc],
      [max_post_age_hours]) is held as a rational ([Q]): an integer
      stands for itself, any other rational for the double nearest to
      it, which is the double itself when the rational is one.  The age
      of a post is computed from them in binary64, with the operations
      of [SpecFloat], as the source computes it.  The clock moves in
      [time.sleep] only.
    - The dictionaries [products], [personas] and [comment_templates] are
      association lists in insertion order: the order decides which
      maximum [max] returns and what [random.choice] indexes.  The
      credential table and the process environment are [gmap]s.
    - Exceptions are an explicit [Raise] outcome of a state monad; the
      state that was written before the exception is kept, as in Python.
    - Everything the bot does not own (the forum, the text generator, the
      random source, the local time zone) is a field of the record [Env].

    Around the class, the development covers the loading of the
    configuration ([_load_config_from_env], [_load_config_from_db]), the
    table of credentials of [src/models/database.py] with its import from
    and export to a file of [NAME=value] lines, the routes of
    [src/routes/api.py] that read and write the credentials, and the
    loop of [monitor_thread] in [src/main.py]. *)

From Stdlib Require Import ZArith QArith Qround Lqa String Ascii List Bool Lia.
From Stdlib Require SpecFloat.
From stdpp Require Import gmap strings.
Import ListNotations.

(** ** Python strings *)

Module PyStr.

Definition is_upper (c : ascii) : bool :=
  let n := nat_of_ascii c in (65 <=? n)%nat && (n <=? 90)%nat.

Definition lower_ascii (c : ascii) : ascii :=
  if is_upper c then ascii_of_nat (nat_of_ascii c + 32) else c.

(** [s.lower()], on ASCII text *)
Fixpoint lower (s : string) : string :=
  match s with
  | EmptyString => EmptyString
  | String c s' => String (lower_ascii c) (lower s')
  end.

(** [s.startswith(p)] *)
Fixpoint startswith (p s : string) : bool :=
  match p, s with
  | EmptyString, _ => true
  | String _ _, EmptyString => false
  | String a p', String b s' => if Ascii.eqb a b then startswith p' s' else false
  end.

(** [needle in hay] for two strings: the substring test. *)
Fixpoint contains (needle hay : string) : bool :=
  if startswith needle hay then true
  else match hay with
       | EmptyString => false
       | String _ hay' => contains needle hay'
       end.

(** The ASCII characters that [str.strip()] removes; outside of ASCII it
    removes others too, such as the no-break space. *)
Definition is_space (c : ascii) : bool :=
  let n := nat_of_ascii c in
  ((9 <=? n)%nat && (n <=? 13)%nat) || ((28 <=? n)%nat && (n <=? 32)%nat).

Fixpoint lstrip (s : string) : string :=
  match s with
  | EmptyString => EmptyString
  | String c s' => if is_space c then lstrip s' else s
  end.

Fixpoint rstrip (s : string) : string :=
  match s with
  | EmptyString => EmptyString
  | String c s' =>
      match rstrip s' with
      | EmptyString => if is_space c then EmptyString else String c EmptyString
      | r => String c r
      end
  end.

(** [s.strip()], on ASCII text *)
Definition strip (s : string) : string := rstrip (lstrip s).

(** Python truthiness of a string. *)
Definition truthy (s : string) : bool :=
  match s with EmptyString => false | _ => true end.

(** Truthiness of a value that is a string or [None]. *)
Definition truthy_opt (o : option string) : bool :=
  match o with Some s => truthy s | None => false end.

(** [a or b] on such values. *)
Definition or_else (a b : option string) : option string :=
  if truthy_opt a then a else b.

Fixpoint all_digits (s : string) : bool :=
  match s with
  | EmptyString => true
  | String c s' =>
      let n := nat_of_ascii c in
      (48 <=? n)%nat && (n <=? 57)%nat && all_digits s'
  end.

(** [s.isascii()]: the text on which [lower] and [strip] above are
    Python's. *)
Fixpoint is_ascii (s : string) : bool :=
  match s with
  | EmptyString => true
  | String c s' => (nat_of_ascii c <? 128)%nat && is_ascii s'
  end.

End PyStr.

(** ** Python outcomes and [str.format] *)

Module Py.

(** The exceptions the modelled code can meet.  [OtherError] stands for
    any exception raised inside an external call. *)
Inductive exn : Type :=
| KeyError (key : string)
| IndexError
| ValueError
| OverflowError
| OtherError (msg : string).

Inductive result (A : Type) : Type :=
| Ok (a : A)
| Raise (e : exn).

Arguments Ok {A} a.
Arguments Raise {A} e.

Definition is_ok {A} (r : result A) : bool :=
  match r with Ok _ => true | Raise _ => false end.

(** [kwargs[key]] of a keyword-argument list. *)
Fixpoint kw_lookup (kw : list (string * string)) (key : string) : option string :=
  match kw with
  | [] => None
  | (k, v) :: kw' => if String.eqb k key then Some v else kw_lookup kw' key
  end.

Definition emit (c : ascii) (r : option (result string)) : option (result string) :=
  match r with
  | Some (Ok s) => Some (Ok (String c s))
  | other => other
  end.

Definition emit_str (v : string) (r : option (result string)) : option (result string) :=
  match r with
  | Some (Ok s) => Some (Ok (v +:+ s))
  | other => other
  end.

(** Characters after which a replacement field is more than a plain
    name: conversion [!], format spec [:], index [[] and attribute [.]. *)
Definition field_special (c : ascii) : bool :=
  Ascii.eqb c "!" || Ascii.eqb c ":" || Ascii.eqb c "[" || Ascii.eqb c ".".

(** What [str.format] does with a completed plain field name when only
    keyword arguments were passed: an empty or numeric name indexes the
    empty positional tuple, any other name is looked up in [kwargs]. *)
Definition resolve_field (kw : list (string * string)) (fname : string)
  : result string :=
  if PyStr.all_digits fname then Raise IndexError
  else match kw_lookup kw fname with
       | Some v => Ok v
       | None => Raise (KeyError fname)
       end.

(** One left-to-right pass of [str.format].  [field] is [None] in
    literal text and [Some acc] inside a replacement field whose name
    read so far is [acc].  The first error met is the one raised.  The
    result is [None] when a field uses a conversion, a format spec, an
    index or an attribute: such templates are left to [format_other]
    of the environment. *)
Fixpoint format_from (kw : list (string * string)) (field : option string)
    (s : string) : option (result string) :=
  match field with
  | None =>
      match s with
      | EmptyString => Some (Ok EmptyString)
      | String c s' =>
          if Ascii.eqb c "{" then
            match s' with
            | String c' s'' =>
                if Ascii.eqb c' "{" then emit "{" (format_from kw None s'')
                else format_from kw (Some EmptyString) s'
            | EmptyString => Some (Raise ValueError)
            end
          else if Ascii.eqb c "}" then
            match s' with
            | String c' s'' =>
                if Ascii.eqb c' "}" then emit "}" (format_from kw None s'')
                else Some (Raise ValueError)
            | EmptyString => Some (Raise ValueError)
            end
          else emit c (format_from kw None s')
      end
  | Some acc =>
      match s with
      | EmptyString => Some (Raise ValueError)
      | String c s' =>
          if Ascii.eqb c "}" then
            match resolve_field kw acc with
            | Ok v => emit_str v (format_from kw None s')
            | Raise e => Some (Raise e)
            end
          else if Ascii.eqb c "{" then Some (Raise ValueError)
          else if field_special c then None
          else format_from kw (Some (acc +:+ String c EmptyString)) s'
      end
  end.

End Py.

(** ** Python floats *)

Module PyFloat.

(** A [float] is a binary64 number: 53 bits of precision, exponents
    below 1024, rounding to nearest, ties to even. *)
Definition float : Type := SpecFloat.spec_float.

(** [float(n)] for an integer [n]. *)
Definition of_Z (n : Z) : float := SpecFloat.binary_normalize 53 1024 n 0 false.

(** The double nearest to [n / d], rounded once. *)
Definition round_div (negative : bool) (n d : positive) : float :=
  let '(m, e, l) := SpecFloat.SFdiv_core_binary 53 1024 (Z.pos n) 0 (Z.pos d) 0 in
  SpecFloat.binary_round_aux 53 1024 negative m e l.

(** The double nearest to a rational; a rational that is a double is
    that double. *)
Definition of_Q (q : Q) : float :=
  match Qnum q with
  | Z0 => SpecFloat.S754_zero false
  | Z.pos n => round_div false n (Qden q)
  | Z.neg n => round_div true n (Qden q)
  end.

(** [x - y] and [x / y] *)
Definition sub (x y : float) : float := SpecFloat.SFsub 53 1024 x y.
Definition truediv (x y : float) : float := SpecFloat.SFdiv 53 1024 x y.

(** The number that a finite double denotes. *)
Definition to_Q (x : float) : Q :=
  match x with
  | SpecFloat.S754_finite negative m e =>
      let n := if negative then Z.neg m else Z.pos m in
      match e with
      | Z0 => inject_Z n
      | Z.pos p => inject_Z (n * 2 ^ Z.pos p)
      | Z.neg p => n # (2 ^ p)
      end
  | _ => 0
  end.

(** [int(x)] for a finite double: the integer part, towards zero. *)
Definition to_int (x : float) : Z :=
  Z.quot (Qnum (to_Q x)) (Z.pos (Qden (to_Q x))).

Definition is_integer (q : Q) : bool := (Qnum q mod Z.pos (Qden q) =? 0)%Z.

(** [x > n] for a double [x] and an [int] [n]: Python compares the two
    exactly, whatever the size of [n]. *)
Definition gt_int (x : float) (n : Z) : bool :=
  match x with
  | SpecFloat.S754_nan => false
  | SpecFloat.S754_infinity negative => negb negative
  | _ => negb (Qle_bool (to_Q x) (inject_Z n))
  end.

(** [x > y] for two doubles *)
Definition gt_float (x y : float) : bool :=
  match SpecFloat.SFcompare x y with
  | Some Gt => true
  | _ => false
  end.

(** [x > y] for a double [x] and a number [y] of the configuration, an
    [int] or a [float]. *)
Definition gt (x : float) (y : Q) : bool :=
  if is_integer y then gt_int x (Qnum y / Z.pos (Qden y))
  else gt_float x (of_Q y).

End PyFloat.

(** ** Data of the bot *)

Import Py.

(** A submission, with the attributes of it that the bot reads. *)
Record Post : Type := {
  post_id : string;
  title : string;
  selftext : string;
  score : Z;
  created_utc : Q;
  over_18 : bool;
  author : option string;
  permalink : string
}.

(** A value of the dictionary [products]. *)
Record Product : Type := {
  product_name : string;
  product_description : string;
  product_url : string;
  keywords : list string
}.

(** A value of the dictionary [personas]. *)
Record Persona : Type := {
  persona_name : string;
  tone : string;
  style : string
}.

(** The dictionary built by [_select_product_for_post]:
    [{"id": ..., "score": ..., **self.products[id]}]. *)
Record SelectedProduct : Type := {
  sel_id : string;
  sel_score : Z;
  sel_product : Product
}.

(** The dictionary returned by [_select_persona]; the default persona
    has no ["id"]. *)
Record SelectedPersona : Type := {
  sp_id : option string;
  sp_persona : Persona
}.

(** The reason of a rejection, with the values its message interpolates. *)
Inductive Reason : Type :=
| ScoreTooLow (post_score min_score : Z)
| TooOld (post_age_hours : PyFloat.float) (max_age_hours : Q)
| ForbiddenKeyword (keyword : string)
| MarkedNSFW.

(** The dictionary returned by [_filter_post]. *)
Record FilterResult : Type := {
  passed : bool;
  reason : option Reason
}.

Record BotConfig : Type := {
  subreddits : list string;
  active_hours_start : Z;
  active_hours_end : Z;
  min_post_score : Z;
  max_post_age_hours : Q;
  comment_rate_limit_seconds : Z;
  forbidden_keywords : list string;
  excluded_languages : list string;
  dry_run : bool
}.

Record Counters : Type := {
  comments_posted_today : Z;
  total_comments_posted : Z;
  last_comment_time : Z;
  posts_analyzed : Z;
  posts_filtered : Z;
  posts_selected : Z
}.

Record Catalog : Type := {
  products : list (string * Product);
  personas : list (string * Persona);
  comment_templates : list (string * string)
}.

(** [praw.Reddit(...)] *)
Record RedditClient : Type := {
  rc_client_id : string;
  rc_client_secret : string;
  rc_username : string;
  rc_password : string;
  rc_user_agent : string
}.

(** [openai.OpenAI(api_key=...)] *)
Record OpenAIClient : Type := { api_key : string }.

(** The attributes of a [RedditBot]; [credentials] is the table of the
    same name of [self.db]. *)
Record RedditBot : Type := {
  config : BotConfig;
  active : bool;
  counters : Counters;
  reddit : option RedditClient;
  openai_client : option OpenAIClient;
  openai_model : option string;
  catalog : Catalog;
  credentials : gmap string string
}.

(** The dictionary [stats] of one cycle. *)
Record Stats : Type := {
  st_subreddits_checked : Z;
  st_posts_analyzed : Z;
  st_posts_filtered : Z;
  st_posts_selected : Z;
  st_comments_posted : Z;
  st_timestamp : Q
}.

(** What [monitor_subreddits] returns: the error dictionary of the
    missing client, or [stats]. *)
Inductive CycleResult : Type :=
| ErrorSummary (error : string) (comments_posted : Z)
| StatsSummary (stats : Stats).

(** ** The world outside the bot *)

Inductive NetEvent : Type :=
| NetLogin (username : string)
| NetFetch (subreddit : string) (limit : nat)
| NetGenerate (model prompt : string)
| NetReply (pid : string) (text : string).

(** [clock] is what [time.time()] returns, [draws] counts the calls of
    [random.choice], [net] lists the network calls made so far. *)
Record World : Type := {
  clock : Q;
  draws : nat;
  net : list NetEvent
}.

(** The collaborators.  The network oracles are indexed by the number of
    network calls made before. *)
Record Env : Type := {
  local_hour : Q -> Z;
  random_index : nat -> nat;
  environ : gmap string string;
  user_me : nat -> RedditClient -> result string;
  subreddit_new : nat -> string -> result (list Post);
  chat_completion : nat -> string -> string -> result string;
  post_reply : nat -> Post -> string -> result string;
  format_other : string -> list (string * string) -> result string
}.

(** ** The state monad with exceptions *)

Record St : Type := {
  self : RedditBot;
  world : World;
  stats : Stats
}.

Definition M (A : Type) : Type := St -> result A * St.

#[export] Instance M_ret : MRet M := fun A a s => (Ok a, s).

#[export] Instance M_bind : MBind M := fun A B f m s =>
  match m s with
  | (Ok a, s') => f a s'
  | (Raise e, s') => (Raise e, s')
  end.

Definition raise {A} (e : exn) : M A := fun s => (Raise e, s).

(** [try: m except Exception as e: h e] *)
Definition try_except {A} (m : M A) (h : exn -> M A) : M A := fun s =>
  match m s with
  | (Ok a, s') => (Ok a, s')
  | (Raise e, s') => h e s'
  end.

Definition lift_result {A} (r : result A) : M A := fun s => (r, s).

Definition get_self : M RedditBot := fun s => (Ok (self s), s).
Definition get_world : M World := fun s => (Ok (world s), s).
Definition get_stats : M Stats := fun s => (Ok (stats s), s).

Definition modify_self (f : RedditBot -> RedditBot) : M unit := fun s =>
  (Ok tt, {| self := f (self s); world := world s; stats := stats s |}).

Definition modify_world (f : World -> World) : M unit := fun s =>
  (Ok tt, {| self := self s; world := f (world s); stats := stats s |}).

Definition modify_stats (f : Stats -> Stats) : M unit := fun s =>
  (Ok tt, {| self := self s; world := world s; stats := f (stats s) |}).

(** [for x in l: body x] *)
Fixpoint for_each {A} (body : A -> M unit) (l : list A) : M unit :=
  match l with
  | [] => mret tt
  | x :: l' => body x ;; for_each body l'
  end.

(** [int(x)] for a number [x] read as a [float], such as
    [int(time.time())]: the integer part, towards zero, of the double
    that [x] stands for. *)
Definition int_of (x : Q) : Z := PyFloat.to_int (PyFloat.of_Q x).

(** ** Dictionaries in insertion order *)

Fixpoint dict_get {V} (d : list (string * V)) (key : string) : option V :=
  match d with
  | [] => None
  | (k, v) :: d' => if String.eqb k key then Some v else dict_get d' key
  end.

(** [d[key] = v]: an existing key keeps its place, a new key goes last. *)
Fixpoint dict_set {V} (d : list (string * V)) (key : string) (v : V)
  : list (string * V) :=
  match d with
  | [] => [(key, v)]
  | (k, v') :: d' =>
      if String.eqb k key then (k, v) :: d' else (k, v') :: dict_set d' key v
  end.

(** [d[key]], which raises [KeyError] on a missing key. *)
Definition dict_getitem {V} (d : list (string * V)) (key : string) : result V :=
  match dict_get d key with
  | Some v => Ok v
  | None => Raise (KeyError key)
  end.

(** The loop of [max(iterable, key=keyf)] once the first element is
    taken: a later element replaces the current one only when its key is
    strictly greater. *)
Fixpoint max_loop (keyf : string -> Z) (best : string) (best_val : Z)
    (l : list string) : string :=
  match l with
  | [] => best
  | x :: l' =>
      if (best_val <? keyf x)%Z then max_loop keyf x (keyf x) l'
      else max_loop keyf best best_val l'
  end.

(** [max(d, key=d.get)] on a non-empty dictionary of integers. *)
Definition max_key (d : list (string * Z)) : result string :=
  let keyf := fun k => default 0%Z (dict_get d k) in
  match map fst d with
  | [] => Raise ValueError
  | k :: ks => Ok (max_loop keyf k (keyf k) ks)
  end.

(** ** Updating the attributes *)

Definition set_counters (f : Counters -> Counters) (b : RedditBot) : RedditBot :=
  {| config := config b; active := active b; counters := f (counters b);
     reddit := reddit b; openai_client := openai_client b;
     openai_model := openai_model b; catalog := catalog b;
     credentials := credentials b |}.

Definition set_reddit (r : option RedditClient) (b : RedditBot) : RedditBot :=
  {| config := config b; active := active b; counters := counters b;
     reddit := r; openai_client := openai_client b;
     openai_model := openai_model b; catalog := catalog b;
     credentials := credentials b |}.

Definition set_openai (c : option OpenAIClient) (m : option string)
    (b : RedditBot) : RedditBot :=
  {| config := config b; active := active b; counters := counters b;
     reddit := reddit b; openai_client := c;
     openai_model := m; catalog := catalog b;
     credentials := credentials b |}.

Definition set_active (a : bool) (b : RedditBot) : RedditBot :=
  {| config := config b; active := a; counters := counters b;
     reddit := reddit b; openai_client := openai_client b;
     openai_model := openai_model b; catalog := catalog b;
     credentials := credentials b |}.

Definition set_config (c : BotConfig) (b : RedditBot) : RedditBot :=
  {| config := c; active := active b; counters := counters b;
     reddit := reddit b; openai_client := openai_client b;
     openai_model := openai_model b; catalog := catalog b;
     credentials := credentials b |}.

Definition set_catalog (c : Catalog) (b : RedditBot) : RedditBot :=
  {| config := config b; active := active b; counters := counters b;
     reddit := reddit b; openai_client := openai_client b;
     openai_model := openai_model b; catalog := c;
     credentials := credentials b |}.

(** [self.db.save_credential(name, value)] *)
Definition save_credential (name value : string) (b : RedditBot) : RedditBot :=
  {| config := config b; active := active b; counters := counters b;
     reddit := reddit b; openai_client := openai_client b;
     openai_model := openai_model b; catalog := catalog b;
     credentials := <[name := value]> (credentials b) |}.

(** [self.posts_analyzed += 1] *)
Definition incr_posts_analyzed (c : Counters) : Counters :=
  {| comments_posted_today := comments_posted_today c;
     total_comments_posted := total_comments_posted c;
     last_comment_time := last_comment_time c;
     posts_analyzed := posts_analyzed c + 1;
     posts_filtered := posts_filtered c;
     posts_selected := posts_selected c |}.

(** [self.posts_filtered += 1] *)
Definition incr_posts_filtered (c : Counters) : Counters :=
  {| comments_posted_today := comments_posted_today c;
     total_comments_posted := total_comments_posted c;
     last_comment_time := last_comment_time c;
     posts_analyzed := posts_analyzed c;
     posts_filtered := posts_filtered c + 1;
     posts_selected := posts_selected c |}.

(** [self.posts_selected += 1] *)
Definition incr_posts_selected (c : Counters) : Counters :=
  {| comments_posted_today := comments_posted_today c;
     total_comments_posted := total_comments_posted c;
     last_comment_time := last_comment_time c;
     posts_analyzed := posts_analyzed c;
     posts_filtered := posts_filtered c;
     posts_selected := posts_selected c + 1 |}.

(** [self.comments_posted_today += 1] *)
Definition incr_comments_posted_today (c : Counters) : Counters :=
  {| comments_posted_today := comments_posted_today c + 1;
     total_comments_posted := total_comments_posted c;
     last_comment_time := last_comment_time c;
     posts_analyzed := posts_analyzed c;
     posts_filtered := posts_filtered c;
     posts_selected := posts_selected c |}.

(** [self.total_comments_posted += 1] *)
Definition incr_total_comments_posted (c : Counters) : Counters :=
  {| comments_posted_today := comments_posted_today c;
     total_comments_posted := total_comments_posted c + 1;
     last_comment_time := last_comment_time c;
     posts_analyzed := posts_analyzed c;
     posts_filtered := posts_filtered c;
     posts_selected := posts_selected c |}.

(** [self.last_comment_time = t] *)
Definition set_last_comment_time (t : Z) (c : Counters) : Counters :=
  {| comments_posted_today := comments_posted_today c;
     total_comments_posted := total_comments_posted c;
     last_comment_time := t;
     posts_analyzed := posts_analyzed c;
     posts_filtered := posts_filtered c;
     posts_selected := posts_selected c |}.

Definition stats_incr_subreddits_checked (t : Stats) : Stats :=
  {| st_subreddits_checked := st_subreddits_checked t + 1;
     st_posts_analyzed := st_posts_analyzed t;
     st_posts_filtered := st_posts_filtered t;
     st_posts_selected := st_posts_selected t;
     st_comments_posted := st_comments_posted t;
     st_timestamp := st_timestamp t |}.

Definition stats_incr_posts_analyzed (t : Stats) : Stats :=
  {| st_subreddits_checked := st_subreddits_checked t;
     st_posts_analyzed := st_posts_analyzed t + 1;
     st_posts_filtered := st_posts_filtered t;
     st_posts_selected := st_posts_selected t;
     st_comments_posted := st_comments_posted t;
     st_timestamp := st_timestamp t |}.

Definition stats_incr_posts_filtered (t : Stats) : Stats :=
  {| st_subreddits_checked := st_subreddits_checked t;
     st_posts_analyzed := st_posts_analyzed t;
     st_posts_filtered := st_posts_filtered t + 1;
     st_posts_selected := st_posts_selected t;
     st_comments_posted := st_comments_posted t;
     st_timestamp := st_timestamp t |}.

Definition stats_incr_posts_selected (t : Stats) : Stats :=
  {| st_subreddits_checked := st_subreddits_checked t;
     st_posts_analyzed := st_posts_analyzed t;
     st_posts_filtered := st_posts_filtered t;
     st_posts_selected := st_posts_selected t + 1;
     st_comments_posted := st_comments_posted t;
     st_timestamp := st_timestamp t |}.

Definition stats_incr_comments_posted (t : Stats) : Stats :=
  {| st_subreddits_checked := st_subreddits_checked t;
     st_posts_analyzed := st_posts_analyzed t;
     st_posts_filtered := st_posts_filtered t;
     st_posts_selected := st_posts_selected t;
     st_comments_posted := st_comments_posted t + 1;
     st_timestamp := st_timestamp t |}.

(** The fresh [stats] of a cycle. *)
Definition zero_stats (timestamp : Q) : Stats :=
  {| st_subreddits_checked := 0; st_posts_analyzed := 0;
     st_posts_filtered := 0; st_posts_selected := 0;
     st_comments_posted := 0; st_timestamp := timestamp |}.

(** ** The bot *)

Section Bot.

Variable E : Env.

(** *** Calls that leave the process *)

Definition record_net (ev : NetEvent) (w : World) : World :=
  {| clock := clock w; draws := draws w; net := net w ++ [ev] |}.

(** The greatest number of seconds that [time.sleep] can turn into its
    signed 64-bit count of nanoseconds. *)
Definition sleep_max : Z := 9223372036.

(** [time.sleep(seconds)] for an integer: a number of seconds beyond
    [sleep_max] in absolute value raises [OverflowError], a negative one
    raises [ValueError], otherwise the clock moves on by [seconds]. *)
Definition time_sleep (seconds : Z) : M unit :=
  if (sleep_max <? Z.abs seconds)%Z then raise OverflowError
  else if (seconds <? 0)%Z then raise ValueError
  else modify_world (fun w =>
         {| clock := (clock w + inject_Z seconds)%Q;
            draws := draws w; net := net w |}).

(** [random.choice(seq)] *)
Definition random_choice {A} (seq : list A) : M A := fun s =>
  match seq with
  | [] => (Raise IndexError, s)
  | d :: _ =>
      let w := world s in
      (Ok (nth (random_index E (draws w) mod length seq) seq d),
       {| self := self s;
          world := {| clock := clock w; draws := S (draws w); net := net w |};
          stats := stats s |})
  end.

(** [self.reddit.user.me().name] *)
Definition reddit_user_me (client : RedditClient) : M string := fun s =>
  let n := length (net (world s)) in
  (user_me E n client,
   {| self := self s;
      world := record_net (NetLogin (rc_username client)) (world s);
      stats := stats s |}).

(** The posts that [self.reddit.subreddit(name).new(limit=limit)] yields.
    The listing is read while the loop runs; since the handler around the
    loop only logs, a failure after some posts leaves the same state as a
    listing that ends there, so the oracle gives the posts or a failure. *)
Definition fetch_new (name : string) (limit : nat) : M (list Post) := fun s =>
  let n := length (net (world s)) in
  (match subreddit_new E n name with
   | Ok posts => Ok (firstn limit posts)
   | Raise e => Raise e
   end,
   {| self := self s;
      world := record_net (NetFetch name limit) (world s);
      stats := stats s |}).

(** [self.openai_client.chat.completions.create(...)], giving
    [response.choices[0].message.content]. *)
Definition chat_completions_create (model prompt : string) : M string := fun s =>
  let n := length (net (world s)) in
  (chat_completion E n model prompt,
   {| self := self s;
      world := record_net (NetGenerate model prompt) (world s);
      stats := stats s |}).

(** [post.reply(comment)], giving the id of the new comment. *)
Definition reply (post : Post) (comment : string) : M string := fun s =>
  let n := length (net (world s)) in
  (post_reply E n post comment,
   {| self := self s;
      world := record_net (NetReply (post_id post) comment) (world s);
      stats := stats s |}).

(** [template.format(product_name=..., product_url=...)] *)
Definition str_format (template : string) (kw : list (string * string))
  : result string :=
  match format_from kw None template with
  | Some r => r
  | None => format_other E template kw
  end.

(** *** Daily reset and active hours *)

Definition _reset_daily_counter : M unit :=
  modify_self (set_counters (fun c =>
    {| comments_posted_today := 0;
       total_comments_posted := total_comments_posted c;
       last_comment_time := last_comment_time c;
       posts_analyzed := 0;
       posts_filtered := 0;
       posts_selected := 0 |})).

Definition _is_active_hour : M bool :=
  b ← get_self;
  w ← get_world;
  let current_hour := local_hour E (clock w) in
  mret ((active_hours_start (config b) <=? current_hour)%Z
        && (current_hour <? active_hours_end (config b))%Z).

(** *** The policy filter *)

(** The loop over [self.forbidden_keywords]: the first keyword found in
    the content ends it. *)
Fixpoint forbidden_keyword_in (kws : list string) (post_content : string)
  : option string :=
  match kws with
  | [] => None
  | keyword :: kws' =>
      if PyStr.contains (PyStr.lower keyword) post_content then Some keyword
      else forbidden_keyword_in kws' post_content
  end.

(** [f"{post.title} {post.selftext}".lower()] *)
Definition post_content (post : Post) : string :=
  PyStr.lower (title post +:+ " " +:+ selftext post).

Definition rejected (r : Reason) : FilterResult :=
  {| passed := false; reason := Some r |}.

(** [(time.time() - post.created_utc) / 3600], computed in binary64. *)
Definition age_hours (now : Q) (post : Post) : PyFloat.float :=
  PyFloat.truediv (PyFloat.sub (PyFloat.of_Q now) (PyFloat.of_Q (created_utc post)))
                  (PyFloat.of_Z 3600).

(** [_filter_post] for the configuration [cfg] read from [self] and
    the value [now] of [time.time()]. *)
Definition filter_post (cfg : BotConfig) (now : Q) (post : Post) : FilterResult :=
  let result := {| passed := true; reason := None |} in
  if (score post <? min_post_score cfg)%Z then
    rejected (ScoreTooLow (score post) (min_post_score cfg))
  else
    let post_age_hours := age_hours now post in
    if PyFloat.gt post_age_hours (max_post_age_hours cfg) then
      rejected (TooOld post_age_hours (max_post_age_hours cfg))
    else
      match forbidden_keyword_in (forbidden_keywords cfg) (post_content post) with
      | Some keyword => rejected (ForbiddenKeyword keyword)
      | None => if over_18 post then rejected MarkedNSFW else result
      end.

Definition _filter_post (post : Post) : M FilterResult :=
  b ← get_self;
  w ← get_world;
  mret (filter_post (config b) (clock w) post).

(** *** The matcher *)

(** The inner loop: [score += 1] for every keyword found. *)
Fixpoint keyword_score (kws : list string) (content : string) (score : Z) : Z :=
  match kws with
  | [] => score
  | keyword :: kws' =>
      if PyStr.contains (PyStr.lower keyword) content
      then keyword_score kws' content (score + 1)
      else keyword_score kws' content score
  end.

(** The outer loop, filling [product_scores]. *)
Fixpoint score_products (items : list (string * Product)) (content : string)
    (product_scores : list (string * Z)) : list (string * Z) :=
  match items with
  | [] => product_scores
  | (product_id, product) :: items' =>
      let score := keyword_score (keywords product) content 0 in
      if (0 <? score)%Z
      then score_products items' content (dict_set product_scores product_id score)
      else score_products items' content product_scores
  end.

Definition select_product (prods : list (string * Product)) (post : Post)
  : result (option SelectedProduct) :=
  match prods with
  | [] => Ok None
  | _ =>
      let product_scores := score_products prods (post_content post) [] in
      match product_scores with
      | [] => Ok None
      | _ =>
          match max_key product_scores with
          | Raise e => Raise e
          | Ok best_product_id =>
              match dict_getitem product_scores best_product_id with
              | Raise e => Raise e
              | Ok best_score =>
                  match dict_getitem prods best_product_id with
                  | Raise e => Raise e
                  | Ok product =>
                      Ok (Some {| sel_id := best_product_id;
                                  sel_score := best_score;
                                  sel_product := product |})
                  end
              end
          end
      end
  end.

Definition _select_product_for_post (post : Post) : M (option SelectedProduct) :=
  b ← get_self;
  lift_result (select_product (products (catalog b)) post).

Definition default_persona : SelectedPersona :=
  {| sp_id := None;
     sp_persona := {| persona_name := "Assistant"; tone := "helpful";
                      style := "informative" |} |}.

Definition _select_persona : M SelectedPersona :=
  b ← get_self;
  match personas (catalog b) with
  | [] => mret default_persona
  | ps =>
      persona_id ← random_choice (map fst ps);
      data ← lift_result (dict_getitem ps persona_id);
      mret {| sp_id := Some persona_id; sp_persona := data |}
  end.

(** *** The reply composer *)

Definition nl : string := String (ascii_of_nat 10) EmptyString.

(** One line of the prompt literal, with its indentation. *)
Definition prompt_line (text : string) : string :=
  "            " +:+ text +:+ nl.

Definition build_prompt (post : Post) (product : SelectedProduct)
    (persona : SelectedPersona) : string :=
  nl
  +:+ prompt_line "You are a marketing assistant who responds to Reddit posts."
  +:+ prompt_line ""
  +:+ prompt_line "Post:"
  +:+ prompt_line ("Title: " +:+ title post)
  +:+ prompt_line ("Content: " +:+ selftext post)
  +:+ prompt_line ""
  +:+ prompt_line "Product to promote:"
  +:+ prompt_line ("Name: " +:+ product_name (sel_product product))
  +:+ prompt_line ("Description: " +:+ product_description (sel_product product))
  +:+ prompt_line ("URL: " +:+ product_url (sel_product product))
  +:+ prompt_line ""
  +:+ prompt_line "Your persona:"
  +:+ prompt_line ("Name: " +:+ persona_name (sp_persona persona))
  +:+ prompt_line ("Tone: " +:+ tone (sp_persona persona))
  +:+ prompt_line ("Style: " +:+ style (sp_persona persona))
  +:+ prompt_line ""
  +:+ prompt_line "Write a Reddit comment that:"
  +:+ prompt_line "1. Is relevant to the post"
  +:+ prompt_line "2. Subtly mentions the product as a solution"
  +:+ prompt_line "3. Includes the product URL"
  +:+ prompt_line "4. Uses the tone and style of the persona"
  +:+ prompt_line "5. Is natural and doesn't look like obvious advertising"
  +:+ prompt_line "6. Is concise (maximum 3 sentences)"
  +:+ prompt_line ""
  +:+ prompt_line "Comment:"
  +:+ "            ".

(** The template branch, written twice in the source (in the body of
    the [try] and in its handler): a random template id, the template,
    and [template.format] with the product's name and url. *)
Definition template_comment (product : SelectedProduct) : M string :=
  b ← get_self;
  let templates := comment_templates (catalog b) in
  template_id ← random_choice (map fst templates);
  template ← lift_result (dict_getitem templates template_id);
  lift_result
    (str_format template
       [("product_name", product_name (sel_product product));
        ("product_url", product_url (sel_product product))]).

Definition _generate_comment (post : Post) (product : SelectedProduct)
    (persona : SelectedPersona) : M string :=
  try_except
    (b ← get_self;
     match openai_model b, openai_client b with
     | Some model, Some _ =>
         if PyStr.truthy model then
           let prompt := build_prompt post product persona in
           content ← chat_completions_create model prompt;
           mret (PyStr.strip content)
         else template_comment product
     | _, _ => template_comment product
     end)
    (fun _ => template_comment product).

(** *** The submission gate *)

Definition _post_comment (post : Post) (comment : string) : M bool :=
  try_except
    (b ← get_self;
     if dry_run (config b) then mret true
     else
       match reddit b with
       | None => mret false
       | Some _ =>
           _ ← reply post comment;
           mret true
       end)
    (fun _ => mret false).

(** *** The cycle *)

(** The block run when [_post_comment] returned [True]. *)
Definition record_and_pace : M unit :=
  modify_stats stats_incr_comments_posted;;
  modify_self (set_counters incr_comments_posted_today);;
  modify_self (set_counters incr_total_comments_posted);;
  w ← get_world;
  modify_self (set_counters (set_last_comment_time (int_of (clock w))));;
  b ← get_self;
  time_sleep (comment_rate_limit_seconds (config b)).

(** The body of the loop over the posts of one subreddit. *)
Definition process_post (post : Post) : M unit :=
  modify_stats stats_incr_posts_analyzed;;
  modify_self (set_counters incr_posts_analyzed);;
  filter_result ← _filter_post post;
  if negb (passed filter_result) then
    modify_stats stats_incr_posts_filtered;;
    modify_self (set_counters incr_posts_filtered)
  else
    product ← _select_product_for_post post;
    match product with
    | None => mret tt
    | Some product =>
        modify_stats stats_incr_posts_selected;;
        modify_self (set_counters incr_posts_selected);;
        persona ← _select_persona;
        comment ← _generate_comment post product persona;
        posted ← _post_comment post comment;
        if (posted : bool) then record_and_pace else mret tt
    end.

(** The body of the loop over [self.subreddits], with its own handler. *)
Definition process_subreddit (subreddit_name : string) : M unit :=
  try_except
    (modify_stats stats_incr_subreddits_checked;;
     posts ← fetch_new subreddit_name 20;
     for_each process_post posts)
    (fun _ => mret tt).

(** [return stats] *)
Definition return_stats : M CycleResult :=
  t ← get_stats;
  mret (StatsSummary t).

Definition monitor_subreddits : M CycleResult :=
  b ← get_self;
  match reddit b with
  | None => mret (ErrorSummary "Client Reddit non initialisé" 0)
  | Some _ =>
      w ← get_world;
      modify_stats (fun _ => zero_stats (clock w));;
      if negb (active b) then return_stats
      else
        in_hours ← _is_active_hour;
        if negb in_hours then return_stats
        else
          try_except
            (for_each process_subreddit (subreddits (config b)))
            (fun _ => mret tt);;
          return_stats
  end.

(** *** Initialisation of the two clients *)

(** [self.db.get_credential(name)] *)
Definition get_credential (name : string) : M (option string) :=
  b ← get_self;
  mret (credentials b !! name).

(** [os.getenv(name)] *)
Definition os_getenv (name : string) : option string := environ E !! name.

(** [value] when it is truthy, [os.getenv(name)] otherwise. *)
Definition or_getenv (value : option string) (name : string) : option string :=
  if negb (PyStr.truthy_opt value) then os_getenv name else value.

Definition _init_reddit_client : M unit :=
  try_except
    (client_id ← get_credential "reddit_client_id";
     client_secret ← get_credential "reddit_client_secret";
     username ← get_credential "reddit_username";
     password ← get_credential "reddit_password";
     stored_agent ← get_credential "reddit_user_agent";
     let user_agent := PyStr.or_else stored_agent (Some "RedditBot/1.0") in
     let client_id := or_getenv client_id "REDDIT_CLIENT_ID" in
     let client_secret := or_getenv client_secret "REDDIT_CLIENT_SECRET" in
     let username := or_getenv username "REDDIT_USERNAME" in
     let password := or_getenv password "REDDIT_PASSWORD" in
     let user_agent :=
       if negb (PyStr.truthy_opt user_agent)
       then Some (default "RedditBot/1.0" (os_getenv "REDDIT_USER_AGENT"))
       else user_agent in
     if PyStr.truthy_opt client_id && PyStr.truthy_opt client_secret
        && PyStr.truthy_opt username && PyStr.truthy_opt password
     then
       let client :=
         {| rc_client_id := default "" client_id;
            rc_client_secret := default "" client_secret;
            rc_username := default "" username;
            rc_password := default "" password;
            rc_user_agent := default "" user_agent |} in
       modify_self (set_reddit (Some client));;
       _ ← reddit_user_me client;
       modify_self (save_credential "reddit_client_id" (rc_client_id client));;
       modify_self (save_credential "reddit_client_secret" (rc_client_secret client));;
       modify_self (save_credential "reddit_username" (rc_username client));;
       modify_self (save_credential "reddit_password" (rc_password client));;
       modify_self (save_credential "reddit_user_agent" (rc_user_agent client))
     else modify_self (set_reddit None))
    (fun _ => modify_self (set_reddit None)).

Definition _init_openai_client : M unit :=
  try_except
    (stored_key ← get_credential "openai_api_key";
     stored_model ← get_credential "openai_model";
     let model := PyStr.or_else stored_model (Some "gpt-4o-mini") in
     let key := or_getenv stored_key "OPENAI_API_KEY" in
     let model :=
       if negb (PyStr.truthy_opt model)
       then Some (default "gpt-4o-mini" (os_getenv "OPENAI_MODEL"))
       else model in
     if PyStr.truthy_opt key then
       modify_self (set_openai (Some {| api_key := default "" key |}) model);;
       modify_self (save_credential "openai_api_key" (default "" key));;
       modify_self (save_credential "openai_model" (default "" model))
     else modify_self (set_openai None None))
    (fun _ => modify_self (set_openai None None)).

Definition reload_credentials : M unit :=
  _init_reddit_client;;
  _init_openai_client.

(** *** The control surface *)

(** [start_bot] and [stop_bot] of the API. *)
Definition start_bot : M unit := modify_self (set_active true).
Definition stop_bot : M unit := modify_self (set_active false).

(** [reload_config]: the stored configuration and catalogue are read
    from tables that the model does not hold, so what was read is an
    argument; no counter is written. *)
Definition reload_config (stored : BotConfig) (loaded : Catalog) : M unit :=
  modify_self (set_config stored);;
  modify_self (set_catalog loaded).

End Bot.

(** The dictionary [config] posted to the API: each key may be absent. *)
Record ConfigPatch : Type := {
  patch_subreddits : option (list string);
  patch_active_hours_start : option Z;
  patch_active_hours_end : option Z;
  patch_min_post_score : option Z;
  patch_max_post_age_hours : option Q;
  patch_comment_rate_limit_seconds : option Z;
  patch_forbidden_keywords : option (list string);
  patch_dry_run : option bool
}.

(** [update_config] of the API: [config.get(key, bot.key)] for each key. *)
Definition update_config (p : ConfigPatch) : M unit :=
  modify_self (fun b =>
    let c := config b in
    set_config
      {| subreddits := default (subreddits c) (patch_subreddits p);
         active_hours_start := default (active_hours_start c) (patch_active_hours_start p);
         active_hours_end := default (active_hours_end c) (patch_active_hours_end p);
         min_post_score := default (min_post_score c) (patch_min_post_score p);
         max_post_age_hours := default (max_post_age_hours c) (patch_max_post_age_hours p);
         comment_rate_limit_seconds :=
           default (comment_rate_limit_seconds c) (patch_comment_rate_limit_seconds p);
         forbidden_keywords := default (forbidden_keywords c) (patch_forbidden_keywords p);
         excluded_languages := excluded_languages c;
         dry_run := default (dry_run c) (patch_dry_run p) |} b).

(** The parameters and the state that [__init__] sets before it loads
    anything. *)
Definition default_config : BotConfig :=
  {| subreddits := ["python"; "programming"; "technology"];
     active_hours_start := 9;
     active_hours_end := 22;
     min_post_score := 5;
     max_post_age_hours := 12;
     comment_rate_limit_seconds := 300;
     forbidden_keywords := ["nsfw"; "politics"; "religion"];
     excluded_languages := ["arabic"; "russian"];
     dry_run := true |}.

Definition zero_counters : Counters :=
  {| comments_posted_today := 0; total_comments_posted := 0;
     last_comment_time := 0; posts_analyzed := 0; posts_filtered := 0;
     posts_selected := 0 |}.

(** The bot as [__init__] leaves it before the clients are initialised:
    [cfg] is the configuration after [_load_config_from_db], [cat] what
    [_load_products_and_personas] loads (run last in the source, it
    writes neither the clients nor the counters), [creds] the stored
    credentials. *)
Definition new_bot (cfg : BotConfig) (cat : Catalog) (creds : gmap string string)
  : RedditBot :=
  {| config := cfg; active := false; counters := zero_counters;
     reddit := None; openai_client := None; openai_model := None;
     catalog := cat; credentials := creds |}.

Definition run {A} (m : M A) (s : St) : result A * St := m s.

Definition init_state (cfg : BotConfig) (cat : Catalog)
    (creds : gmap string string) (w : World) : St :=
  {| self := new_bot cfg cat creds; world := w; stats := zero_stats 0 |}.

(** [RedditBot()] *)
Definition RedditBot_init (E : Env) (cfg : BotConfig) (cat : Catalog)
    (creds : gmap string string) (w : World) : result unit * St :=
  run (_init_reddit_client E;; _init_openai_client E) (init_state cfg cat creds w).

(** The operations that the scheduler, the monitoring thread and the
    API apply to the one bot. *)
Inductive Op : Type :=
| OpCycle
| OpResetDaily
| OpStart
| OpStop
| OpUpdateConfig (p : ConfigPatch)
| OpReloadCredentials
| OpReloadConfig (stored : BotConfig) (loaded : Catalog).

Definition apply_op (E : Env) (op : Op) : M unit :=
  match op with
  | OpCycle => _ ← monitor_subreddits E; mret tt
  | OpResetDaily => _reset_daily_counter
  | OpStart => start_bot
  | OpStop => stop_bot
  | OpUpdateConfig p => update_config p
  | OpReloadCredentials => reload_credentials E
  | OpReloadConfig stored loaded => reload_config stored loaded
  end.

(** The bots that can exist: the one [RedditBot()] builds, and any bot
    obtained from one by an operation, in any world and environment. *)
Inductive reachable : RedditBot -> Prop :=
| reach_init E cfg cat creds w :
    reachable (self (snd (RedditBot_init E cfg cat creds w)))
| reach_op E op b w t :
    reachable b ->
    reachable (self (snd (run (apply_op E op) {| self := b; world := w; stats := t |}))).

(** ** Notions used to state the properties *)

(** The four checks of the policy filter, in the order of the specification. *)
Inductive Rule : Type := RuleScore | RuleAge | RuleKeyword | RuleNSFW.



(** [text] holds [keyword] as a substring, up to the case of letters. *)
Definition occurs_ignoring_case (keyword text : string) : Prop :=
  exists a k b, text = a +:+ k +:+ b /\ PyStr.lower k = PyStr.lower keyword.

(** The text the filter and the matcher search: title, a space, body. *)
Definition title_and_body (post : Post) : string :=
  title post +:+ " " +:+ selftext post.

(** Each check on its own, as the specification words it. *)
Definition rule_fails (cfg : BotConfig) (now : Q) (post : Post) (r : Rule) : Prop :=
  match r with
  | RuleScore => (score post < min_post_score cfg)%Z
  | RuleAge => PyFloat.gt (age_hours now post) (max_post_age_hours cfg) = true
  | RuleKeyword =>
      exists keyword, In keyword (forbidden_keywords cfg)
                      /\ occurs_ignoring_case keyword (title_and_body post)
  | RuleNSFW => over_18 post = true
  end.

(** [k] is the first keyword of [kws] that occurs in [text]. *)
Definition first_match (kws : list string) (text k : string) : Prop :=
  exists before after,
    kws = before ++ k :: after
    /\ occurs_ignoring_case k text
    /\ forall k', In k' before -> ~ occurs_ignoring_case k' text.

(** The entries of [kws] that occur in [text], in the order of [kws]. *)
Fixpoint matching_keywords (kws : list string) (text : string) : list string :=
  match kws with
  | [] => []
  | k :: kws' =>
      if PyStr.contains (PyStr.lower k) (PyStr.lower text)
      then k :: matching_keywords kws' text
      else matching_keywords kws' text
  end.

(** The number of keywords of [product] that occur in the text of
    [post], each entry of the list counted once. *)
Definition match_count (product : Product) (post : Post) : Z :=
  Z.of_nat (length (matching_keywords (keywords product) (title_and_body post))).

(** The dictionary [product_scores] as the specification describes it:
    the products with a positive count, in the order of the catalogue. *)
Fixpoint positive_scores (items : list (string * Product)) (post : Post)
  : list (string * Z) :=
  match items with
  | [] => []
  | (product_id, product) :: items' =>
      if (0 <? match_count product post)%Z
      then (product_id, match_count product post) :: positive_scores items' post
      else positive_scores items' post
  end.

(** [m] keeps the relation [R] between the state it starts in and the
    state it ends in, whether it returns or raises. *)
Definition stable (R : St -> St -> Prop) {A} (m : M A) : Prop :=
  forall s, R s (snd (run m s)).

(** What the cycle never writes. *)
Definition base_view (s : St) :=
  (config (self s), active (self s), reddit (self s), openai_client (self s),
   openai_model (self s), catalog (self s), credentials (self s)).

(** What only a successful submission writes or moves. *)
Definition quiet_view (s : St) :=
  (base_view s,
   comments_posted_today (counters (self s)),
   total_comments_posted (counters (self s)),
   last_comment_time (counters (self s)),
   st_comments_posted (stats s),
   clock (world s)).

Definition quiet (s s' : St) : Prop := quiet_view s' = quiet_view s.

(** [time.sleep] accepts the delay, and the time that a call with the
    delay takes: none when the call raises. *)
Definition sleeps (seconds : Z) : bool :=
  (0 <=? seconds)%Z && (seconds <=? sleep_max)%Z.

Definition pacing_delay (seconds : Z) : Z := if sleeps seconds then seconds else 0%Z.

(** What a call of [time.sleep] with the delay gives. *)
Definition sleep_outcome (seconds : Z) : result unit :=
  if (sleep_max <? Z.abs seconds)%Z then Raise OverflowError
  else if (seconds <? 0)%Z then Raise ValueError
  else Ok tt.

(** Between [s] and [s'], [d] submissions were recorded and paced. *)
Definition paced_by (d : Z) (s s' : St) : Prop :=
  base_view s' = base_view s
  /\ st_comments_posted (stats s') = (st_comments_posted (stats s) + d)%Z
  /\ comments_posted_today (counters (self s'))
     = (comments_posted_today (counters (self s)) + d)%Z
  /\ total_comments_posted (counters (self s'))
     = (total_comments_posted (counters (self s)) + d)%Z
  /\ (clock (world s')
      == clock (world s)
         + inject_Z (d * pacing_delay (comment_rate_limit_seconds (config (self s)))))%Q.

Definition paced (s s' : St) : Prop := exists d, (0 <= d)%Z /\ paced_by d s s'.

(** The counters of comments are what they were. *)
Definition same_counters (s s' : St) : Prop := counters (self s') = counters (self s).

(** The invariant of the two counters of comments. *)
Definition counters_inv (b : RedditBot) : Prop :=
  (0 <= comments_posted_today (counters b))%Z
  /\ (comments_posted_today (counters b) <= total_comments_posted (counters b))%Z.

(** The state in which [record_and_pace] leaves [s]. *)
Definition recorded (s : St) : St :=
  let pacing := comment_rate_limit_seconds (config (self s)) in
  {| self :=
       set_counters
         (fun c =>
            set_last_comment_time (int_of (clock (world s)))
              (incr_total_comments_posted (incr_comments_posted_today c)))
         (self s);
     world :=
       if sleeps pacing
       then {| clock := (clock (world s) + inject_Z pacing)%Q;
               draws := draws (world s); net := net (world s) |}
       else world s;
     stats := stats_incr_comments_posted (stats s) |}.

(** The claim that an invocation of the cycle is a no-op with a
    zero-stats summary. *)
Definition zero_stats_noop (E : Env) (s : St) : Prop :=
  exists timestamp,
    fst (run (monitor_subreddits E) s) = Ok (StatsSummary (zero_stats timestamp))
    /\ self (snd (run (monitor_subreddits E) s)) = self s
    /\ world (snd (run (monitor_subreddits E) s)) = world s.

(** The bot is stopped, or the local hour is outside the active hours. *)
Definition idle (E : Env) (s : St) : Prop :=
  active (self s) = false
  \/ ~ (active_hours_start (config (self s)) <= local_hour E (clock (world s))
        < active_hours_end (config (self s)))%Z.

(** The stored or environment value of a credential, and its absence. *)
Definition credential (E : Env) (b : RedditBot) (stored_name env_name : string)
  : option string :=
  or_getenv E (credentials b !! stored_name) env_name.

Definition missing (E : Env) (b : RedditBot) (stored_name env_name : string) : Prop :=
  PyStr.truthy_opt (credential E b stored_name env_name) = false.

(** The state in which the cycle starts its loop: [stats] is fresh. *)
Definition cycle_start (s : St) : St :=
  {| self := self s; world := world s; stats := zero_stats (clock (world s)) |}.

(** The loop over the subreddits with its outer handler. *)
Definition cycle_loop (E : Env) (s : St) : M unit :=
  try_except (for_each (process_subreddit E) (subreddits (config (self s))))
             (fun _ => mret tt).

(** The local hour is inside the active hours. *)
Definition in_active_hours (E : Env) (s : St) : bool :=
  (active_hours_start (config (self s)) <=? local_hour E (clock (world s)))%Z
  && (local_hour E (clock (world s)) <? active_hours_end (config (self s)))%Z.

(** The number of comments a summary reports. *)
Definition summary_comments (r : CycleResult) : Z :=
  match r with
  | ErrorSummary _ n => n
  | StatsSummary t => st_comments_posted t
  end.

(** The list of network calls is what it was. *)
Definition same_net (s s' : St) : Prop := net (world s') = net (world s).

(** The world after one random draw, and a state in another world. *)
Definition tick_draw (w : World) : World :=
  {| clock := clock w; draws := S (draws w); net := net w |}.

Definition with_world (s : St) (w : World) : St :=
  {| self := self s; world := w; stats := stats s |}.

(** ** Sample data *)

Definition politics_post : Post :=
  {| post_id := "p1"; title := "Weekend POLITICS thread"; selftext := "";
     score := 10; created_utc := 3600; over_18 := false;
     author := Some "someone"; permalink := "/r/python/p1" |}.

(** The scenario of the specification: one product with the keyword
    [sleep], one post that asks for a sleep fix. *)
Definition sleep_product : Product :=
  {| product_name := "Resonant Console";
     product_description := "Core frequency programming console";
     product_url := "https://qilifestore.com/collections/qi-coils/products/resonant-console";
     keywords := ["sleep"] |}.

Definition demo_post : Post :=
  {| post_id := "t3_demo"; title := "need a sleep fix"; selftext := "";
     score := 10; created_utc := 0; over_18 := false;
     author := Some "asker"; permalink := "/r/demo/t3_demo" |}.

(** The templates that [_load_products_and_personas] installs when the
    table is empty and no [comment_templates.json] exists. *)
Definition default_comment_templates : list (string * string) :=
  [("default", "I found a solution to this problem! {product_name} really helped me. You can find it here: {product_url}");
   ("question", "Have you tried {product_name}? It's exactly what you need for this case. Here's the link: {product_url}");
   ("experience", "I had the same problem and {product_name} solved it. I highly recommend it: {product_url}");
   ("solution", "I solved my problem with {product_name}. It's really a powerful tool: {product_url}");
   ("recommendation", "I strongly recommend {product_name} to solve this problem: {product_url}");
   ("testimonial", "I was very satisfied with using {product_name}. It's exactly what I needed: {product_url}");
   ("comparison", "I compared {product_name} with other products and it's the best: {product_url}");
   ("alternative", "If you can't use {product_name}, you can try {alternative_product_name}: {alternative_product_url}")].

(** The personas installed in the same way. *)
Definition default_personas : list (string * Persona) :=
  [("helpful", {| persona_name := "Health Enthusiast";
                  tone := "Enthusiastic, supportive, personal";
                  style := "informative" |});
   ("enthusiastic", {| persona_name := "Wellness Professional";
                       tone := "Informative, authoritative, helpful";
                       style := "energetic" |});
   ("expert", {| persona_name := "Curious Explorer";
                 tone := "Curious, open-minded, conversationa";
                 style := "detailed" |})].

Definition demo_catalog : Catalog :=
  {| products := [("product1", sleep_product)];
     personas := default_personas;
     comment_templates := default_comment_templates |}.

Definition demo_config : BotConfig :=
  {| subreddits := ["demo"];
     active_hours_start := 9;
     active_hours_end := 22;
     min_post_score := 5;
     max_post_age_hours := 12;
     comment_rate_limit_seconds := 300;
     forbidden_keywords := [];
     excluded_languages := [];
     dry_run := true |}.

Definition demo_client : RedditClient :=
  {| rc_client_id := "id"; rc_client_secret := "secret";
     rc_username := "bot"; rc_password := "pw";
     rc_user_agent := "RedditBot/1.0" |}.

(** A bot with a forum client and no text generator, started. *)
Definition demo_bot : RedditBot :=
  {| config := demo_config; active := true; counters := zero_counters;
     reddit := Some demo_client; openai_client := None; openai_model := None;
     catalog := demo_catalog; credentials := ∅ |}.

(** An environment in which it is ten o'clock, the forum answers, the
    generator fails, and the random source always returns [r]. *)
Definition demo_env (r : nat) : Env :=
  {| local_hour := fun _ => 10%Z;
     random_index := fun _ => r;
     environ := ∅;
     user_me := fun _ c => Ok (rc_username c);
     subreddit_new := fun _ name =>
       if String.eqb name "demo" then Ok [demo_post] else Ok [];
     chat_completion := fun _ _ _ => Raise (OtherError "APIConnectionError");
     post_reply := fun _ _ _ => Ok "c1";
     format_other := fun _ _ => Raise ValueError |}.

Definition demo_world : World := {| clock := 3600; draws := 0; net := [] |}.

Definition demo_state : St :=
  {| self := demo_bot; world := demo_world; stats := zero_stats 0 |}.

(** The same bot stopped, and the same bot stopped without a client. *)
Definition stopped_state : St :=
  {| self := set_active false demo_bot; world := demo_world; stats := zero_stats 0 |}.

Definition offline_state : St :=
  {| self := set_active false (set_reddit None demo_bot);
     world := demo_world; stats := zero_stats 0 |}.

Definition demo_selection : SelectedProduct :=
  {| sel_id := "product1"; sel_score := 1; sel_product := sleep_product |}.

(** The demo bot after a failed load of the catalogue, which leaves the
    three dictionaries empty. *)
Definition empty_catalog_state : St :=
  {| self := set_catalog {| products := []; personas := []; comment_templates := [] |}
               demo_bot;
     world := demo_world; stats := zero_stats 0 |}.

(** ** Bookkeeping of a cycle *)

(** A step that touches neither the bot nor [stats] nor the clock: it
    may draw random numbers and call the network. *)
Definition only_io (s s' : St) : Prop :=
  self s' = self s /\ stats s' = stats s /\ clock (world s') = clock (world s).

(** The network calls the bot [b] may make in a cycle: listings always,
    a text generation only with a generator client and its model, a reply
    only outside dry-run mode and with a forum client, a login never. *)
Definition permitted (b : RedditBot) (ev : NetEvent) : Prop :=
  match ev with
  | NetLogin _ => False
  | NetFetch _ limit => limit = 20
  | NetGenerate model _ =>
      openai_client b <> None /\ openai_model b = Some model
      /\ PyStr.truthy model = true
  | NetReply _ _ => dry_run (config b) = false /\ reddit b <> None
  end.

(** Between [s] and [s'] the bot kept what a cycle never writes, and
    the network calls made are all permitted. *)
Definition net_ok (s s' : St) : Prop :=
  base_view s' = base_view s
  /\ exists evs, net (world s') = net (world s) ++ evs
                 /\ Forall (permitted (self s)) evs.

(** The growth of the five counts of [stats]. *)
Record Ledger : Type := {
  d_checked : Z;
  d_analyzed : Z;
  d_filtered : Z;
  d_selected : Z;
  d_comments : Z
}.

Definition ledger_add (a b : Ledger) : Ledger :=
  {| d_checked := d_checked a + d_checked b;
     d_analyzed := d_analyzed a + d_analyzed b;
     d_filtered := d_filtered a + d_filtered b;
     d_selected := d_selected a + d_selected b;
     d_comments := d_comments a + d_comments b |}.

(** Between [s] and [s'] the counts of [stats] grew by [d], and the
    counters of the bot grew by the same numbers. *)
Definition ledger (d : Ledger) (s s' : St) : Prop :=
  st_subreddits_checked (stats s') = (st_subreddits_checked (stats s) + d_checked d)%Z
  /\ st_posts_analyzed (stats s') = (st_posts_analyzed (stats s) + d_analyzed d)%Z
  /\ st_posts_filtered (stats s') = (st_posts_filtered (stats s) + d_filtered d)%Z
  /\ st_posts_selected (stats s') = (st_posts_selected (stats s) + d_selected d)%Z
  /\ st_comments_posted (stats s') = (st_comments_posted (stats s) + d_comments d)%Z
  /\ posts_analyzed (counters (self s'))
     = (posts_analyzed (counters (self s)) + d_analyzed d)%Z
  /\ posts_filtered (counters (self s'))
     = (posts_filtered (counters (self s)) + d_filtered d)%Z
  /\ posts_selected (counters (self s'))
     = (posts_selected (counters (self s)) + d_selected d)%Z
  /\ comments_posted_today (counters (self s'))
     = (comments_posted_today (counters (self s)) + d_comments d)%Z
  /\ total_comments_posted (counters (self s'))
     = (total_comments_posted (counters (self s)) + d_comments d)%Z.

(** The counts fit together: a comment needs a selected post, and a
    post is filtered or selected at most once. *)
Definition balanced (d : Ledger) : Prop :=
  (0 <= d_comments d <= d_selected d)%Z
  /\ (0 <= d_filtered d)%Z
  /\ (d_filtered d + d_selected d <= d_analyzed d)%Z.

(** The state after the two increments that open the work on a post,
    after those of a rejection, and after those of a selection. *)
Definition after_analyzed (s : St) : St :=
  {| self := set_counters incr_posts_analyzed (self s);
     world := world s;
     stats := stats_incr_posts_analyzed (stats s) |}.

Definition after_filtered (s : St) : St :=
  {| self := set_counters incr_posts_filtered (self s);
     world := world s;
     stats := stats_incr_posts_filtered (stats s) |}.

Definition after_selected (s : St) : St :=
  {| self := set_counters incr_posts_selected (self s);
     world := world s;
     stats := stats_incr_posts_selected (stats s) |}.


(** The bot is started, has a forum client, and the hour is active. *)
Definition running (E : Env) (s : St) : Prop :=
  reddit (self s) <> None /\ active (self s) = true /\ in_active_hours E s = true.

(** A step of [only_io] whose network calls are all permitted. *)
Definition io_ok (s s' : St) : Prop :=
  only_io s s'
  /\ exists evs, net (world s') = net (world s) ++ evs
                 /\ Forall (permitted (self s)) evs.

(** ** More sample data *)

(** A configuration whose list of forbidden keywords ends with the empty
    string, as a trailing comma in [FORBIDDEN_KEYWORDS] produces. *)
Definition trailing_comma_config : BotConfig :=
  {| subreddits := ["demo"];
     active_hours_start := 9;
     active_hours_end := 22;
     min_post_score := 5;
     max_post_age_hours := 12;
     comment_rate_limit_seconds := 300;
     forbidden_keywords := ["nsfw"; ""];
     excluded_languages := [];
     dry_run := true |}.

(** Two products that both count one keyword in [demo_post]. *)
Definition fix_product : Product :=
  {| product_name := "Qi Coil Mini";
     product_description := "Compact frequency device";
     product_url := "https://qilifestore.com/collections/qi-coils/products/qi-coil-mini";
     keywords := ["fix"; "tension"] |}.

Definition tied_products : list (string * Product) :=
  [("product1", sleep_product); ("product2", fix_product)].

(** A product whose keywords hold the empty string. *)
Definition catch_all_product : Product :=
  {| product_name := "Resonant Console";
     product_description := "Console";
     product_url := "https://qilifestore.com/collections/qi-coils/products/resonant-console";
     keywords := ["frequency"; ""] |}.

(** The demo bot with active hours from 22 to 6. *)
Definition overnight_state : St :=
  {| self :=
       set_config
         {| subreddits := ["demo"];
            active_hours_start := 22;
            active_hours_end := 6;
            min_post_score := 5;
            max_post_age_hours := 12;
            comment_rate_limit_seconds := 300;
            forbidden_keywords := [];
            excluded_languages := [];
            dry_run := true |}
         demo_bot;
     world := demo_world; stats := zero_stats 0 |}.

(** ** Templates that [str.format] can fill *)

(** What remains of an outcome of [format_from] when the text is
    forgotten: outside the fragment, filled, or the exception raised. *)
Definition outcome_shape (r : option (result string)) : option (option exn) :=
  match r with
  | None => None
  | Some (Ok _) => Some None
  | Some (Raise e) => Some (Some e)
  end.

(** The template is well formed and names no field but [product_name]
    and [product_url], the two that [_generate_comment] passes. *)
Definition plain_template (template : string) : bool :=
  match format_from [("product_name", EmptyString); ("product_url", EmptyString)]
          None template with
  | Some (Ok _) => true
  | _ => false
  end.

(** The templates that [create_sample_data] of [main.py] writes to
    [comment_templates.json]. *)
Definition sample_comment_templates : list (string * string) :=
  [("default", "J'ai trouvé une solution à ce problème ! {product_name} m'a vraiment aidé. Vous pouvez le trouver ici : {product_url}");
   ("question", "Avez-vous essayé {product_name} ? C'est exactement ce qu'il vous faut pour ce cas. Voici le lien : {product_url}");
   ("experience", "J'ai eu le même problème et {product_name} l'a résolu. Je vous le recommande fortement : {product_url}")].

Definition sample_templates_state : St :=
  {| self :=
       set_catalog {| products := [("product1", sleep_product)];
                      personas := default_personas;
                      comment_templates := sample_comment_templates |}
         demo_bot;
     world := demo_world; stats := zero_stats 0 |}.

(** ** Credentials as the initialisers read them *)

(** The client that [_init_reddit_client] builds when nothing is missing:
    each of the four credentials from the table or else the environment,
    the user agent from the table or else the fixed default. *)
Definition reddit_client_of (E : Env) (b : RedditBot) : RedditClient :=
  {| rc_client_id :=
       default EmptyString (credential E b "reddit_client_id" "REDDIT_CLIENT_ID");
     rc_client_secret :=
       default EmptyString (credential E b "reddit_client_secret" "REDDIT_CLIENT_SECRET");
     rc_username :=
       default EmptyString (credential E b "reddit_username" "REDDIT_USERNAME");
     rc_password :=
       default EmptyString (credential E b "reddit_password" "REDDIT_PASSWORD");
     rc_user_agent :=
       default EmptyString
         (PyStr.or_else (credentials b !! "reddit_user_agent") (Some "RedditBot/1.0")) |}.

(** The table after the five credentials of a client are saved. *)
Definition with_saved_client (c : RedditClient) (b : RedditBot) : RedditBot :=
  save_credential "reddit_user_agent" (rc_user_agent c)
    (save_credential "reddit_password" (rc_password c)
       (save_credential "reddit_username" (rc_username c)
          (save_credential "reddit_client_secret" (rc_client_secret c)
             (save_credential "reddit_client_id" (rc_client_id c) b)))).

(** None of the four forum credentials is missing. *)
Definition forum_credentials_present (E : Env) (b : RedditBot) : Prop :=
  PyStr.truthy_opt (credential E b "reddit_client_id" "REDDIT_CLIENT_ID") = true
  /\ PyStr.truthy_opt (credential E b "reddit_client_secret" "REDDIT_CLIENT_SECRET") = true
  /\ PyStr.truthy_opt (credential E b "reddit_username" "REDDIT_USERNAME") = true
  /\ PyStr.truthy_opt (credential E b "reddit_password" "REDDIT_PASSWORD") = true.

(** An environment that holds the four forum credentials, and a bot that
    has none stored. *)
Definition env_with_credentials (login : result string) : Env :=
  {| local_hour := fun _ => 10%Z;
     random_index := fun _ => 0;
     environ :=
       <["REDDIT_CLIENT_ID" := "id"]>
         (<["REDDIT_CLIENT_SECRET" := "secret"]>
            (<["REDDIT_USERNAME" := "bot"]>
               (<["REDDIT_PASSWORD" := "pw"]>
                  (<["REDDIT_USER_AGENT" := "Custom/2.0"]>
                     (<["OPENAI_MODEL" := "gpt-4"]> ∅)))));
     user_me := fun _ _ => login;
     subreddit_new := fun _ _ => Ok [];
     chat_completion := fun _ _ _ => Raise (OtherError "APIConnectionError");
     post_reply := fun _ _ _ => Ok "c1";
     format_other := fun _ _ => Raise ValueError |}.

Definition fresh_state : St :=
  init_state default_config demo_catalog ∅ demo_world.

(** Two environments that the initialisers cannot tell apart: the same
    login oracle and the same values of the five variables that hold a
    credential. *)
Definition credential_variables : list string :=
  ["REDDIT_CLIENT_ID"; "REDDIT_CLIENT_SECRET"; "REDDIT_USERNAME";
   "REDDIT_PASSWORD"; "OPENAI_API_KEY"].

Definition same_credential_sources (E E' : Env) : Prop :=
  user_me E = user_me E'
  /\ Forall (fun k => environ E !! k = environ E' !! k) credential_variables.

(** The environment above without the two optional variables. *)
Definition env_without_optional (login : result string) : Env :=
  {| local_hour := fun _ => 10%Z;
     random_index := fun _ => 0;
     environ :=
       <["REDDIT_CLIENT_ID" := "id"]>
         (<["REDDIT_CLIENT_SECRET" := "secret"]>
            (<["REDDIT_USERNAME" := "bot"]>
               (<["REDDIT_PASSWORD" := "pw"]> ∅)));
     user_me := fun _ _ => login;
     subreddit_new := fun _ _ => Ok [];
     chat_completion := fun _ _ _ => Raise (OtherError "APIConnectionError");
     post_reply := fun _ _ _ => Ok "c1";
     format_other := fun _ _ => Raise ValueError |}.

(** The model name that [_init_openai_client] uses. *)
Definition openai_model_of (b : RedditBot) : string :=
  default EmptyString
    (PyStr.or_else (credentials b !! "openai_model") (Some "gpt-4o-mini")).

(** A bot whose table holds a key for the text generator. *)
Definition keyed_state : St :=
  init_state default_config demo_catalog (<["openai_api_key" := "sk-1"]> ∅) demo_world.

(** ** More of Python's strings and text files *)

Module PyText.

Definition is_lower (c : ascii) : bool :=
  let n := nat_of_ascii c in (97 <=? n)%nat && (n <=? 122)%nat.

Definition upper_ascii (c : ascii) : ascii :=
  if is_lower c then ascii_of_nat (nat_of_ascii c - 32) else c.

(** [s.upper()] *)
Fixpoint upper (s : string) : string :=
  match s with
  | EmptyString => EmptyString
  | String c s' => String (upper_ascii c) (upper s')
  end.

(** [s.split(sep, 1)] for a separator of one character: the text before
    the first separator and the text after it, or the whole text alone
    when there is no separator. *)
Fixpoint split_once (sep : ascii) (s : string) : list string :=
  match s with
  | EmptyString => [EmptyString]
  | String c s' =>
      if Ascii.eqb c sep then [EmptyString; s']
      else match split_once sep s' with
           | [] => [String c EmptyString]
           | x :: rest => String c x :: rest
           end
  end.

(** [s.split(sep)] for a separator of one character. *)
Fixpoint split (sep : ascii) (s : string) : list string :=
  match s with
  | EmptyString => [EmptyString]
  | String c s' =>
      if Ascii.eqb c sep then EmptyString :: split sep s'
      else match split sep s' with
           | [] => [String c EmptyString]
           | x :: rest => String c x :: rest
           end
  end.

Definition LF : ascii := "010"%char.
Definition CR : ascii := "013"%char.

(** What a file opened in text mode gives to the reader: a carriage
    return, with the line feed that may follow it, is read as one line
    feed. *)
Fixpoint universal_newlines (s : string) : string :=
  match s with
  | EmptyString => EmptyString
  | String c s' =>
      if Ascii.eqb c CR then
        match s' with
        | String c' s'' =>
            if Ascii.eqb c' LF then String LF (universal_newlines s'')
            else String LF (universal_newlines s')
        | EmptyString => String LF EmptyString
        end
      else String c (universal_newlines s')
  end.

(** [for line in f]: the lines of a text, each with the line feed that
    ends it. *)
Fixpoint lines (s : string) : list string :=
  match s with
  | EmptyString => []
  | String c s' =>
      if Ascii.eqb c LF then String c EmptyString :: lines s'
      else match lines s' with
           | [] => [String c EmptyString]
           | l :: ls => String c l :: ls
           end
  end.

End PyText.

(** ** The table of credentials ([src/models/database.py]) *)

Module Database.

(** The columns [name] and [value] of the rows of the table
    [credentials], in the order of insertion.  The column [name] is
    declared [UNIQUE].  The database file is taken to be reachable: the
    only failure of a statement is the one the constraint causes. *)
Definition Table : Type := list (string * string).

(** [SELECT ... FROM credentials WHERE name = ?] and [fetchone()] *)
Fixpoint select_one (name : string) (t : Table) : option string :=
  match t with
  | [] => None
  | (n, v) :: t' => if String.eqb n name then Some v else select_one name t'
  end.

(** [UPDATE credentials SET value = ? WHERE name = ?] *)
Definition update (name value : string) (t : Table) : Table :=
  map (fun row => if String.eqb (fst row) name then (fst row, value) else row) t.

(** [INSERT INTO credentials (name, value) VALUES (?, ?)], which the
    constraint on [name] makes fail when a row has this name. *)
Definition insert (name value : string) (t : Table) : result Table :=
  if existsb (fun row => String.eqb (fst row) name) t
  then Raise (OtherError "IntegrityError")
  else Ok (t ++ [(name, value)]).

(** [DELETE FROM credentials WHERE name = ?] *)
Definition delete (name : string) (t : Table) : Table :=
  List.filter (fun row => negb (String.eqb (fst row) name)) t.

(** [save_credential(name, value)]: what it returns and the table after
    it.  A failed statement is not committed. *)
Definition save_credential (name value : string) (t : Table) : bool * Table :=
  match select_one name t with
  | Some _ => (true, update name value t)
  | None =>
      match insert name value t with
      | Ok t' => (true, t')
      | Raise _ => (false, t)
      end
  end.

(** [get_credential(name)] *)
Definition get_credential (name : string) (t : Table) : option string :=
  select_one name t.

(** [get_all_credentials()]: the dictionary
    [{name: value for name, value in results}]. *)
Definition get_all_credentials (t : Table) : list (string * string) :=
  fold_left (fun d row => dict_set d (fst row) (snd row)) t [].

(** [delete_credential(name)] *)
Definition delete_credential (name : string) (t : Table) : bool * Table :=
  (true, delete name t).

(** The body of the loop of [import_from_json_files] over the lines of
    [.env]; unpacking the two parts of the line raises when there are
    not two. *)
Definition import_line (line : string) (t : Table) : result Table :=
  let line := PyStr.strip line in
  if PyStr.truthy line && negb (PyStr.startswith "#" line) && PyStr.contains "=" line
  then
    match PyText.split_once "=" line with
    | [key; value] =>
        let key := PyStr.strip key in
        let value := PyStr.strip value in
        if PyStr.truthy key && PyStr.truthy value
        then Ok (snd (save_credential (PyStr.lower key) value t))
        else Ok t
    | _ => Raise ValueError
    end
  else Ok t.

Fixpoint import_lines (lines : list string) (t : Table) : bool * Table :=
  match lines with
  | [] => (true, t)
  | line :: rest =>
      match import_line line t with
      | Ok t' => import_lines rest t'
      | Raise _ => (false, t)
      end
  end.

(** [import_from_json_files()], the part that reads the credentials:
    [text] is what the file [.env] holds. *)
Definition import_env (text : string) (t : Table) : bool * Table :=
  import_lines (PyText.lines (PyText.universal_newlines text)) t.

(** The line that [export_to_json_files] writes for a credential. *)
Definition export_line (key value : string) : string :=
  PyText.upper key +:+ "=" +:+ value +:+ String PyText.LF EmptyString.

(** [export_to_json_files()], the text it writes to [.env.export]. *)
Definition export_env (t : Table) : string :=
  fold_right (fun row text => export_line (fst row) (snd row) +:+ text)
             EmptyString (get_all_credentials t).

End Database.

(** The rows of a table obey the constraint on [name]. *)
Definition unique_names (t : Database.Table) : Prop := NoDup (map fst t).

(** The table as the bot sees it through [get_credential]. *)
Definition table_view (t : Database.Table) : gmap string string := list_to_map t.

Definition sample_table : Database.Table :=
  [("reddit_username", "bot"); ("openai_model", "gpt-4")].

(** A text without line feed and carriage return. *)
Fixpoint one_line (s : string) : bool :=
  match s with
  | EmptyString => true
  | String c s' =>
      negb (Ascii.eqb c PyText.LF) && negb (Ascii.eqb c PyText.CR) && one_line s'
  end.

(** A text that is not empty and has no blank at either end. *)
Definition trimmed (s : string) : bool :=
  PyStr.truthy s && String.eqb (PyStr.lstrip s) s && String.eqb (PyStr.rstrip s) s.

(** The names and the values that survive the way through a file of
    [NAME=value] lines: a name in lower case, without [=] and not
    beginning with [#]; both on one line and trimmed, and in ASCII
    text. *)
Definition exportable_name (k : string) : bool :=
  trimmed k && one_line k && String.eqb (PyStr.lower k) k
  && negb (PyStr.contains "=" k) && negb (PyStr.startswith "#" k).

Definition exportable_value (v : string) : bool := trimmed v && one_line v.

Definition exportable (t : Database.Table) : Prop :=
  unique_names t
  /\ Forall (fun row => exportable_name (fst row) = true
                        /\ exportable_value (snd row) = true) t
  /\ Forall (fun row => PyStr.is_ascii (fst row) = true
                        /\ PyStr.is_ascii (snd row) = true) t.

(** ** Loading the configuration *)

Module PyInt.

Definition digit_value (c : ascii) : option Z :=
  let n := nat_of_ascii c in
  if (48 <=? n)%nat && (n <=? 57)%nat then Some (Z.of_nat (n - 48)) else None.

(** The digits of a literal, in which single underscores may stand
    between two digits; [after_digit] tells whether the character before
    was a digit. *)
Fixpoint digits_from (acc : Z) (after_digit : bool) (s : string) : option Z :=
  match s with
  | EmptyString => if after_digit then Some acc else None
  | String c s' =>
      match digit_value c with
      | Some d => digits_from (10 * acc + d) true s'
      | None =>
          if Ascii.eqb c "_" && after_digit then digits_from acc false s' else None
      end
  end.

(** [int(s)] for a string: blanks around the literal are dropped, a sign
    may come first.  The bound that recent interpreters put on the
    number of digits is left out. *)
Definition of_str (s : string) : result Z :=
  let literal := PyStr.strip s in
  let unsigned (body : string) (sign : Z) : result Z :=
    match digits_from 0 false body with
    | Some n => Ok (sign * n)%Z
    | None => Raise ValueError
    end in
  match literal with
  | EmptyString => Raise ValueError
  | String c body =>
      if Ascii.eqb c "-" then unsigned body (-1)%Z
      else if Ascii.eqb c "+" then unsigned body 1%Z
      else unsigned literal 1%Z
  end.

End PyInt.

Definition with_subreddits (v : list string) (c : BotConfig) : BotConfig :=
  {| subreddits := v;
     active_hours_start := active_hours_start c;
     active_hours_end := active_hours_end c;
     min_post_score := min_post_score c;
     max_post_age_hours := max_post_age_hours c;
     comment_rate_limit_seconds := comment_rate_limit_seconds c;
     forbidden_keywords := forbidden_keywords c;
     excluded_languages := excluded_languages c;
     dry_run := dry_run c |}.

Definition with_active_hours_start (v : Z) (c : BotConfig) : BotConfig :=
  {| subreddits := subreddits c;
     active_hours_start := v;
     active_hours_end := active_hours_end c;
     min_post_score := min_post_score c;
     max_post_age_hours := max_post_age_hours c;
     comment_rate_limit_seconds := comment_rate_limit_seconds c;
     forbidden_keywords := forbidden_keywords c;
     excluded_languages := excluded_languages c;
     dry_run := dry_run c |}.

Definition with_active_hours_end (v : Z) (c : BotConfig) : BotConfig :=
  {| subreddits := subreddits c;
     active_hours_start := active_hours_start c;
     active_hours_end := v;
     min_post_score := min_post_score c;
     max_post_age_hours := max_post_age_hours c;
     comment_rate_limit_seconds := comment_rate_limit_seconds c;
     forbidden_keywords := forbidden_keywords c;
     excluded_languages := excluded_languages c;
     dry_run := dry_run c |}.

Definition with_min_post_score (v : Z) (c : BotConfig) : BotConfig :=
  {| subreddits := subreddits c;
     active_hours_start := active_hours_start c;
     active_hours_end := active_hours_end c;
     min_post_score := v;
     max_post_age_hours := max_post_age_hours c;
     comment_rate_limit_seconds := comment_rate_limit_seconds c;
     forbidden_keywords := forbidden_keywords c;
     excluded_languages := excluded_languages c;
     dry_run := dry_run c |}.

Definition with_max_post_age_hours (v : Z) (c : BotConfig) : BotConfig :=
  {| subreddits := subreddits c;
     active_hours_start := active_hours_start c;
     active_hours_end := active_hours_end c;
     min_post_score := min_post_score c;
     max_post_age_hours := inject_Z v;
     comment_rate_limit_seconds := comment_rate_limit_seconds c;
     forbidden_keywords := forbidden_keywords c;
     excluded_languages := excluded_languages c;
     dry_run := dry_run c |}.

Definition with_comment_rate_limit_seconds (v : Z) (c : BotConfig) : BotConfig :=
  {| subreddits := subreddits c;
     active_hours_start := active_hours_start c;
     active_hours_end := active_hours_end c;
     min_post_score := min_post_score c;
     max_post_age_hours := max_post_age_hours c;
     comment_rate_limit_seconds := v;
     forbidden_keywords := forbidden_keywords c;
     excluded_languages := excluded_languages c;
     dry_run := dry_run c |}.

Definition with_forbidden_keywords (v : list string) (c : BotConfig) : BotConfig :=
  {| subreddits := subreddits c;
     active_hours_start := active_hours_start c;
     active_hours_end := active_hours_end c;
     min_post_score := min_post_score c;
     max_post_age_hours := max_post_age_hours c;
     comment_rate_limit_seconds := comment_rate_limit_seconds c;
     forbidden_keywords := v;
     excluded_languages := excluded_languages c;
     dry_run := dry_run c |}.

Definition with_excluded_languages (v : list string) (c : BotConfig) : BotConfig :=
  {| subreddits := subreddits c;
     active_hours_start := active_hours_start c;
     active_hours_end := active_hours_end c;
     min_post_score := min_post_score c;
     max_post_age_hours := max_post_age_hours c;
     comment_rate_limit_seconds := comment_rate_limit_seconds c;
     forbidden_keywords := forbidden_keywords c;
     excluded_languages := v;
     dry_run := dry_run c |}.

Definition with_dry_run (v : bool) (c : BotConfig) : BotConfig :=
  {| subreddits := subreddits c;
     active_hours_start := active_hours_start c;
     active_hours_end := active_hours_end c;
     min_post_score := min_post_score c;
     max_post_age_hours := max_post_age_hours c;
     comment_rate_limit_seconds := comment_rate_limit_seconds c;
     forbidden_keywords := forbidden_keywords c;
     excluded_languages := excluded_languages c;
     dry_run := v |}.

Section ConfigLoading.

Variable E : Env.

Definition modify_config (f : BotConfig -> BotConfig) : M unit :=
  modify_self (fun b => set_config (f (config b)) b).

(** [value = os.getenv(name)] and [if value: self.attr = value.split(",")] *)
Definition load_list (name : string)
    (store : list string -> BotConfig -> BotConfig) : M unit :=
  match os_getenv E name with
  | Some value =>
      if PyStr.truthy value then modify_config (store (PyText.split "," value))
      else mret tt
  | None => mret tt
  end.

(** [value = os.getenv(name)] and [if value: self.attr = int(value)] *)
Definition load_int (name : string) (store : Z -> BotConfig -> BotConfig) : M unit :=
  match os_getenv E name with
  | Some value =>
      if PyStr.truthy value then
        n ← lift_result (PyInt.of_str value);
        modify_config (store n)
      else mret tt
  | None => mret tt
  end.

(** [value = os.getenv("DRY_RUN")] and
    [if value is not None: self.dry_run = value.lower() == "true"] *)
Definition load_dry_run : M unit :=
  match os_getenv E "DRY_RUN" with
  | Some value => modify_config (with_dry_run (String.eqb (PyStr.lower value) "true"))
  | None => mret tt
  end.

Definition _load_config_from_env : M unit :=
  try_except
    (load_list "SUBREDDITS" with_subreddits;;
     load_int "ACTIVE_HOURS_START" with_active_hours_start;;
     load_int "ACTIVE_HOURS_END" with_active_hours_end;;
     load_int "MIN_POST_SCORE" with_min_post_score;;
     load_int "MAX_POST_AGE_HOURS" with_max_post_age_hours;;
     load_int "COMMENT_RATE_LIMIT_SECONDS" with_comment_rate_limit_seconds;;
     load_list "FORBIDDEN_KEYWORDS" with_forbidden_keywords;;
     load_list "EXCLUDED_LANGUAGES" with_excluded_languages;;
     load_dry_run)
    (fun _ => mret tt).

(** [_load_config_from_db]: [stored] is what [db.get_config("bot_config")]
    returns when it is a dictionary that is not empty, and [None] for
    anything else: a falsy value sends the loader to the environment by
    the [else] branch, another value by the handler, since its first
    [config.get] raises before anything is written. *)
Definition _load_config_from_db (stored : option ConfigPatch) : M unit :=
  try_except
    (match stored with
     | Some p => update_config p
     | None => _load_config_from_env
     end)
    (fun _ => _load_config_from_env).

End ConfigLoading.

(** *** Notions on the loading *)

(** The variables read with [int], in the order of the source, each
    with the attribute it sets. *)
Definition integer_settings : list (string * (Z -> BotConfig -> BotConfig)) :=
  [("ACTIVE_HOURS_START", with_active_hours_start);
   ("ACTIVE_HOURS_END", with_active_hours_end);
   ("MIN_POST_SCORE", with_min_post_score);
   ("MAX_POST_AGE_HOURS", with_max_post_age_hours);
   ("COMMENT_RATE_LIMIT_SECONDS", with_comment_rate_limit_seconds)].

Definition integer_variables : list string := map fst integer_settings.

(** The variable is unset, empty, or holds an integer literal. *)
Definition well_formed (E : Env) (name : string) : bool :=
  match environ E !! name with
  | Some value => negb (PyStr.truthy value) || is_ok (PyInt.of_str value)
  | None => true
  end.

Definition integers_well_formed (E : Env) : bool :=
  forallb (well_formed E) integer_variables.

(** The state with another configuration. *)
Definition put_config (c : BotConfig) (s : St) : St :=
  {| self := set_config c (self s); world := world s; stats := stats s |}.

(** What one statement of the loader makes of the configuration. *)
Definition list_step (E : Env) (name : string)
    (store : list string -> BotConfig -> BotConfig) (c : BotConfig)
  : result BotConfig :=
  match environ E !! name with
  | Some value => if PyStr.truthy value then Ok (store (PyText.split "," value) c) else Ok c
  | None => Ok c
  end.

Definition int_step (E : Env) (name : string)
    (store : Z -> BotConfig -> BotConfig) (c : BotConfig) : result BotConfig :=
  match environ E !! name with
  | Some value =>
      if PyStr.truthy value then
        match PyInt.of_str value with
        | Ok n => Ok (store n c)
        | Raise e => Raise e
        end
      else Ok c
  | None => Ok c
  end.

Definition dry_run_step (E : Env) (c : BotConfig) : result BotConfig :=
  match environ E !! "DRY_RUN" with
  | Some value => Ok (with_dry_run (String.eqb (PyStr.lower value) "true") c)
  | None => Ok c
  end.

(** The statements one after the other, up to the first that raises. *)
Fixpoint run_steps (steps : list (BotConfig -> result BotConfig)) (c : BotConfig)
  : bool * BotConfig :=
  match steps with
  | [] => (true, c)
  | step :: rest =>
      match step c with
      | Ok c' => run_steps rest c'
      | Raise _ => (false, c)
      end
  end.

Definition integer_steps (E : Env) : list (BotConfig -> result BotConfig) :=
  map (fun setting => int_step E (fst setting) (snd setting)) integer_settings.

Definition env_steps (E : Env) : list (BotConfig -> result BotConfig) :=
  list_step E "SUBREDDITS" with_subreddits
  :: integer_steps E
  ++ [list_step E "FORBIDDEN_KEYWORDS" with_forbidden_keywords;
      list_step E "EXCLUDED_LANGUAGES" with_excluded_languages;
      dry_run_step E].

(** A statement of the loader does what a step says, and a sequence of
    statements what a list of steps says. *)
Definition implements (m : M unit) (step : BotConfig -> result BotConfig) : Prop :=
  forall s,
    run m s = match step (config (self s)) with
              | Ok c => (Ok tt, put_config c s)
              | Raise e => (Raise e, s)
              end.

Definition follows (m : M unit) (steps : list (BotConfig -> result BotConfig)) : Prop :=
  forall s,
    is_ok (fst (run m s)) = fst (run_steps steps (config (self s)))
    /\ snd (run m s) = put_config (snd (run_steps steps (config (self s)))) s.

(** The settings that the loader reads after the integers. *)
Definition same_policy (c c' : BotConfig) : Prop :=
  forbidden_keywords c' = forbidden_keywords c
  /\ excluded_languages c' = excluded_languages c
  /\ dry_run c' = dry_run c.


Definition malformed_score_env : Env :=
  {| local_hour := fun _ => 10%Z;
     random_index := fun _ => 0;
     environ :=
       <["SUBREDDITS" := "python"]>
         (<["MIN_POST_SCORE" := "5.0"]>
            (<["FORBIDDEN_KEYWORDS" := "spam"]>
               (<["DRY_RUN" := "false"]> ∅)));
     user_me := fun _ c => Ok (rc_username c);
     subreddit_new := fun _ _ => Ok [];
     chat_completion := fun _ _ _ => Raise (OtherError "APIConnectionError");
     post_reply := fun _ _ _ => Ok "c1";
     format_other := fun _ _ => Raise ValueError |}.

(** A patch as the API receives it. *)
Definition sample_patch : ConfigPatch :=
  {| patch_subreddits := Some ["rust"];
     patch_active_hours_start := None;
     patch_active_hours_end := None;
     patch_min_post_score := Some 10%Z;
     patch_max_post_age_hours := None;
     patch_comment_rate_limit_seconds := None;
     patch_forbidden_keywords := None;
     patch_dry_run := Some false |}.

(** ** The routes for the credentials ([src/routes/api.py]) *)

(** [if name in data and data[name]: db.save_credential(name, data[name])],
    for the JSON object [data] that was posted, whose values are taken
    to be strings. *)
Definition save_if_given (data : gmap string string) (name : string)
    (t : Database.Table) : Database.Table :=
  match data !! name with
  | Some value =>
      if PyStr.truthy value then snd (Database.save_credential name value t) else t
  | None => t
  end.

(** [update_reddit_credentials]: whether the request is accepted, and
    the table after it. *)
Definition update_reddit_credentials (data : gmap string string)
    (t : Database.Table) : bool * Database.Table :=
  if decide (data = ∅) then (false, t)
  else
    let t := save_if_given data "reddit_client_id" t in
    let t := save_if_given data "reddit_client_secret" t in
    let t := save_if_given data "reddit_username" t in
    let t := save_if_given data "reddit_password" t in
    let t := save_if_given data "reddit_user_agent" t in
    (true, t).

(** [update_openai_credentials] *)
Definition update_openai_credentials (data : gmap string string)
    (t : Database.Table) : bool * Database.Table :=
  if decide (data = ∅) then (false, t)
  else
    let t := save_if_given data "openai_api_key" t in
    let t := save_if_given data "openai_model" t in
    (true, t).

(** What [get_credentials] shows in place of a secret. *)
Definition mask : string := "••••••••".

(** [if value: credentials[name] = shown], for the stored [value]. *)
Definition show_if_stored (t : Database.Table) (name : string)
    (shown : string -> string) (d : list (string * string)) : list (string * string) :=
  match Database.get_credential name t with
  | Some value => if PyStr.truthy value then dict_set d name (shown value) else d
  | None => d
  end.

(** [get_credentials]: the dictionary of the response. *)
Definition get_credentials (t : Database.Table) : list (string * string) :=
  let d := [] in
  let d := show_if_stored t "reddit_client_id" (fun value => value) d in
  let d := show_if_stored t "reddit_client_secret" (fun _ => mask) d in
  let d := show_if_stored t "reddit_username" (fun value => value) d in
  let d := show_if_stored t "reddit_password" (fun _ => mask) d in
  let d := show_if_stored t "reddit_user_agent" (fun value => value) d in
  let d := show_if_stored t "openai_api_key" (fun _ => mask) d in
  let d := show_if_stored t "openai_model" (fun value => value) d in
  d.

(** The names the two routes may write, and the names whose values the
    response hides. *)
Definition route_names : list string :=
  ["reddit_client_id"; "reddit_client_secret"; "reddit_username";
   "reddit_password"; "reddit_user_agent"; "openai_api_key"; "openai_model"].

Definition secret_names : list string :=
  ["reddit_client_secret"; "reddit_password"; "openai_api_key"].

(** Two tables that differ in their secrets only, and that store a
    secret, empty or not, at the same time. *)
Definition same_outside_secrets (t1 t2 : Database.Table) : Prop :=
  forall name,
    if bool_decide (name ∈ secret_names)
    then PyStr.truthy_opt (Database.get_credential name t1)
         = PyStr.truthy_opt (Database.get_credential name t2)
    else Database.get_credential name t1 = Database.get_credential name t2.

Definition secret_table (password : string) : Database.Table :=
  [("reddit_username", "bot"); ("reddit_password", password)].

(** A request that gives a new name for the account and an empty
    password. *)
Definition sample_request : gmap string string :=
  <["reddit_username" := "other"]> (<["reddit_password" := ""]> ∅).

(** ** The monitoring thread ([src/main.py]) *)

(** One turn of the loop of [monitor_thread]: a cycle when the bot is
    started, with its handler, then [time.sleep(60)]. *)
Definition monitor_thread_turn (E : Env) : M unit :=
  b ← get_self;
  (if active b
   then try_except (_ ← monitor_subreddits E; mret tt) (fun _ => mret tt)
   else mret tt);;
  time_sleep 60.

(** [turns] turns of the loop. *)
Fixpoint monitor_thread (E : Env) (turns : nat) : M unit :=
  match turns with
  | O => mret tt
  | S turns' => monitor_thread_turn E;; monitor_thread E turns'
  end.

(** ** Text on which the model of [str] is Python's *)

(** The title and the body of the post are ASCII; so is every keyword
    of the list; so are the keywords of every product. *)
Definition ascii_post (post : Post) : bool :=
  PyStr.is_ascii (title post) && PyStr.is_ascii (selftext post).

Definition ascii_keywords (kws : list string) : bool := forallb PyStr.is_ascii kws.

Definition ascii_catalogue (prods : list (string * Product)) : bool :=
  forallb (fun item => ascii_keywords (keywords (snd item))) prods.

(** The values of the integer variables of the environment are ASCII. *)
Definition integer_values_ascii (E : Env) : bool :=
  forallb (fun name => match environ E !! name with
                       | Some value => PyStr.is_ascii value
                       | None => true
                       end)
          integer_variables.

(** ** Sample data for the matcher and the pacing *)





(** * Properties *)

(** ** Strings *)

Lemma append_nil_l (b : string) : EmptyString +:+ b = b.
Proof. reflexivity. Qed.

Lemma append_cons (x : ascii) (a b : string) :
  String x a +:+ b = String x (a +:+ b).
Proof. reflexivity. Qed.

Ltac app_simpl := rewrite ?append_cons, ?append_nil_l in *.

Lemma append_assoc (a b c : string) : (a +:+ b) +:+ c = a +:+ (b +:+ c).
Proof. induction a as [|x a IH]; app_simpl; [reflexivity | now rewrite IH]. Qed.

Lemma append_empty_r (a : string) : a +:+ EmptyString = a.
Proof. induction a as [|x a IH]; app_simpl; [reflexivity | now rewrite IH]. Qed.

Lemma lower_append (a b : string) :
  PyStr.lower (a +:+ b) = PyStr.lower a +:+ PyStr.lower b.
Proof.
  induction a as [|x a IH]; app_simpl; simpl; app_simpl;
    [reflexivity | now rewrite IH].
Qed.

(** A split of [lower s] comes from a split of [s]. *)
Lemma lower_split (s x y : string) :
  PyStr.lower s = x +:+ y ->
  exists s1 s2, s = s1 +:+ s2 /\ PyStr.lower s1 = x /\ PyStr.lower s2 = y.
Proof.
  revert s. induction x as [|c x IH]; intros s H; app_simpl.
  - exists EmptyString, s. auto.
  - destruct s as [|d s]; simpl in H; [discriminate|].
    injection H as Hc Hs. destruct (IH s Hs) as (s1 & s2 & -> & H1 & H2).
    exists (String d s1), s2. app_simpl. simpl. rewrite H1, Hc. auto.
Qed.

Lemma startswith_spec (p s : string) :
  PyStr.startswith p s = true <-> exists r, s = p +:+ r.
Proof.
  revert s. induction p as [|a p IH]; intros s; simpl.
  - split; [intros _; exists s; reflexivity | reflexivity].
  - destruct s as [|b s].
    + split; [discriminate | intros [r Hr]; discriminate].
    + destruct (Ascii.eqb_spec a b) as [->|Hne].
      * rewrite IH. split; intros [r Hr]; exists r; app_simpl.
        -- now rewrite Hr.
        -- now injection Hr.
      * split; [discriminate | intros [r Hr]; app_simpl; injection Hr as Hab _; congruence].
Qed.

(** [needle in hay] holds exactly when [hay] splits around [needle]. *)
Lemma contains_spec (needle hay : string) :
  PyStr.contains needle hay = true <-> exists a b, hay = a +:+ needle +:+ b.
Proof.
  induction hay as [|c hay IH]; simpl.
  - destruct (PyStr.startswith needle EmptyString) eqn:Hs.
    + split; [intros _ | reflexivity].
      apply startswith_spec in Hs as [r Hr]. exists EmptyString, r. exact Hr.
    + split; [discriminate|]. intros (a & b & Hab).
      destruct a; app_simpl; [|discriminate].
      assert (PyStr.startswith needle EmptyString = true) as Ht
        by (apply startswith_spec; exists b; exact Hab).
      congruence.
  - destruct (PyStr.startswith needle (String c hay)) eqn:Hs.
    + split; [intros _ | reflexivity].
      apply startswith_spec in Hs as [r Hr]. exists EmptyString, r. exact Hr.
    + rewrite IH. split.
      * intros (a & b & ->). exists (String c a), b. reflexivity.
      * intros (a & b & Hab). destruct a as [|d a]; app_simpl.
        -- assert (PyStr.startswith needle (String c hay) = true) as Ht
             by (apply startswith_spec; exists b; exact Hab).
           congruence.
        -- injection Hab as _ Hab. exists a, b. exact Hab.
Qed.

Lemma contains_lower_iff (keyword text : string) :
  PyStr.contains (PyStr.lower keyword) (PyStr.lower text) = true
  <-> occurs_ignoring_case keyword text.
Proof.
  rewrite contains_spec. split.
  - intros (a & b & H).
    apply lower_split in H as (s1 & s2 & -> & <- & H2).
    apply lower_split in H2 as (k & s3 & -> & Hk & <-).
    exists s1, k, s3. auto.
  - intros (a & k & b & -> & Hk).
    exists (PyStr.lower a), (PyStr.lower b).
    now rewrite !lower_append, Hk.
Qed.

Lemma contains_lower_false (keyword text : string) :
  PyStr.contains (PyStr.lower keyword) (PyStr.lower text) = false
  <-> ~ occurs_ignoring_case keyword text.
Proof.
  rewrite <- contains_lower_iff.
  destruct (PyStr.contains _ _); split; congruence.
Qed.

(** ** The policy filter *)

Lemma forbidden_keyword_in_some (kws : list string) (text k : string) :
  forbidden_keyword_in kws (PyStr.lower text) = Some k <-> first_match kws text k.
Proof.
  induction kws as [|k0 kws IH]; simpl.
  - split; [discriminate|]. intros (before & after & H & _).
    destruct before; discriminate.
  - destruct (PyStr.contains (PyStr.lower k0) (PyStr.lower text)) eqn:Hc.
    + apply contains_lower_iff in Hc. split.
      * intros [= <-]. exists [], kws. repeat split; auto; intros ? [].
      * intros (before & after & H & Hk & Hfirst).
        destruct before as [|b before]; simpl in H.
        -- now injection H as ->.
        -- injection H as <- _. exfalso. apply (Hfirst k0); simpl; auto.
    + apply contains_lower_false in Hc. rewrite IH. split.
      * intros (before & after & -> & Hk & Hfirst).
        exists (k0 :: before), after. repeat split; auto.
        intros k' [<-|Hin]; auto.
      * intros (before & after & H & Hk & Hfirst).
        destruct before as [|b before]; simpl in H.
        -- injection H as -> _. contradiction.
        -- injection H as <- ->. exists before, after. repeat split; auto.
           intros k' Hin. apply Hfirst. simpl; auto.
Qed.

Lemma forbidden_keyword_in_none (kws : list string) (text : string) :
  forbidden_keyword_in kws (PyStr.lower text) = None
  <-> forall k, In k kws -> ~ occurs_ignoring_case k text.
Proof.
  induction kws as [|k0 kws IH]; simpl.
  - split; [intros _ k [] | reflexivity].
  - destruct (PyStr.contains (PyStr.lower k0) (PyStr.lower text)) eqn:Hc.
    + apply contains_lower_iff in Hc. split; [discriminate|].
      intros H. exfalso. apply (H k0); auto.
    + apply contains_lower_false in Hc. rewrite IH. split.
      * intros H k [<-|Hin]; auto.
      * intros H k Hin. apply H. auto.
Qed.


(** The verdict in each of the five ways through [_filter_post]. *)
Lemma filter_post_cases (cfg : BotConfig) (now : Q) (post : Post) :
  let verdict := filter_post cfg now post in
  let age := age_hours now post in
  (rule_fails cfg now post RuleScore
   /\ verdict = rejected (ScoreTooLow (score post) (min_post_score cfg)))
  \/ (~ rule_fails cfg now post RuleScore
      /\ rule_fails cfg now post RuleAge
      /\ verdict = rejected (TooOld age (max_post_age_hours cfg)))
  \/ (~ rule_fails cfg now post RuleScore
      /\ ~ rule_fails cfg now post RuleAge
      /\ exists k, first_match (forbidden_keywords cfg) (title_and_body post) k
                   /\ verdict = rejected (ForbiddenKeyword k))
  \/ (~ rule_fails cfg now post RuleScore
      /\ ~ rule_fails cfg now post RuleAge
      /\ ~ rule_fails cfg now post RuleKeyword
      /\ rule_fails cfg now post RuleNSFW
      /\ verdict = rejected MarkedNSFW)
  \/ (~ rule_fails cfg now post RuleScore
      /\ ~ rule_fails cfg now post RuleAge
      /\ ~ rule_fails cfg now post RuleKeyword
      /\ ~ rule_fails cfg now post RuleNSFW
      /\ verdict = {| passed := true; reason := None |}).
Proof.
  simpl. unfold filter_post.
  destruct (Z.ltb_spec (score post) (min_post_score cfg)) as [Hs|Hs].
  { left. auto. }
  right. assert (~ (score post < min_post_score cfg)%Z) as Hns by lia.
  destruct (PyFloat.gt (age_hours now post) (max_post_age_hours cfg)) eqn:Ha.
  { left. auto. }
  right.
  assert (~ PyFloat.gt (age_hours now post) (max_post_age_hours cfg) = true) as Hna
    by congruence.
  unfold post_content. fold (title_and_body post).
  destruct (forbidden_keyword_in _ _) as [k|] eqn:Hk.
  { left. apply forbidden_keyword_in_some in Hk. eauto 6. }
  right.
  assert (~ rule_fails cfg now post RuleKeyword) as Hnk.
  { intros (k & Hin & Hocc).
    exact (proj1 (forbidden_keyword_in_none _ _) Hk k Hin Hocc). }
  destruct (over_18 post) eqn:Hn.
  - left. simpl. auto 6.
  - right. simpl. repeat split; auto; congruence.
Qed.






(** A keyword found in the title, or in the body, is found in the text
    the filter searches. *)
Lemma occurs_in_title (keyword : string) (post : Post) :
  occurs_ignoring_case keyword (title post) ->
  occurs_ignoring_case keyword (title_and_body post).
Proof.
  intros (a & k & b & Ht & Hk). exists a, k, (b +:+ " " +:+ selftext post).
  split; [|exact Hk]. unfold title_and_body. rewrite Ht.
  now rewrite !append_assoc.
Qed.

Lemma occurs_in_selftext (keyword : string) (post : Post) :
  occurs_ignoring_case keyword (selftext post) ->
  occurs_ignoring_case keyword (title_and_body post).
Proof.
  intros (a & k & b & Ht & Hk). exists (title post +:+ " " +:+ a), k, b.
  split; [|exact Hk]. unfold title_and_body. rewrite Ht.
  now rewrite !append_assoc.
Qed.



(** ** Dictionaries *)

Lemma dict_get_In {V} (d : list (string * V)) (k : string) (v : V) :
  dict_get d k = Some v -> In (k, v) d.
Proof.
  induction d as [|[k0 v0] d IH]; simpl; [discriminate|].
  destruct (String.eqb_spec k0 k) as [->|Hne].
  - intros [= ->]. auto.
  - intros H. auto.
Qed.

Lemma dict_get_None {V} (d : list (string * V)) (k : string) :
  dict_get d k = None <-> ~ In k (map fst d).
Proof.
  induction d as [|[k0 v0] d IH]; simpl; [tauto|].
  destruct (String.eqb_spec k0 k) as [->|Hne].
  - split; [discriminate | intros H; exfalso; auto].
  - rewrite IH. tauto.
Qed.

Lemma In_dict_get {V} (d : list (string * V)) (k : string) (v : V) :
  NoDup (map fst d) -> In (k, v) d -> dict_get d k = Some v.
Proof.
  induction d as [|[k0 v0] d IH]; simpl; [tauto|].
  intros Hnd [Heq|Hin].
  - injection Heq as -> ->. now rewrite String.eqb_refl.
  - apply NoDup_cons in Hnd as [Hk0 Hnd].
    destruct (String.eqb_spec k0 k) as [->|Hne]; [|auto].
    exfalso. apply Hk0. apply list_elem_of_In.
    change k with (fst (k, v)). now apply in_map.
Qed.

Lemma dict_get_key {V} (d : list (string * V)) (k : string) :
  In k (map fst d) -> exists v, dict_get d k = Some v.
Proof.
  intros Hin. destruct (dict_get d k) as [v|] eqn:Hg; [eauto|].
  apply dict_get_None in Hg. contradiction.
Qed.

(** Writing a new key appends it. *)
Lemma dict_set_fresh {V} (d : list (string * V)) (k : string) (v : V) :
  ~ In k (map fst d) -> dict_set d k v = d ++ [(k, v)].
Proof.
  induction d as [|[k0 v0] d IH]; simpl; [reflexivity|].
  intros H. destruct (String.eqb_spec k0 k) as [->|Hne].
  - exfalso. auto.
  - rewrite IH; auto.
Qed.

(** [max]: the result is an element, and no element has a greater key. *)
Lemma max_loop_spec (keyf : string -> Z) (l : list string) (best : string) :
  let r := max_loop keyf best (keyf best) l in
  In r (best :: l) /\ forall x, In x (best :: l) -> (keyf x <= keyf r)%Z.
Proof.
  revert best. induction l as [|y l IH]; intros best; simpl.
  - split; [auto|]. intros x [<-|[]]. lia.
  - destruct (Z.ltb_spec (keyf best) (keyf y)) as [Hlt|Hge].
    + destruct (IH y) as [Hin Hmax]. simpl in Hin, Hmax. split.
      * destruct Hin; auto.
      * intros x [<-|Hx]; [|auto].
        specialize (Hmax y (or_introl eq_refl)). lia.
    + destruct (IH best) as [Hin Hmax]. simpl in Hin, Hmax. split.
      * destruct Hin; auto.
      * intros x [<-|[<-|Hx]]; auto.
        specialize (Hmax best (or_introl eq_refl)). lia.
Qed.

(** ** The matcher *)

Lemma keyword_score_count (kws : list string) (text : string) (n : Z) :
  keyword_score kws (PyStr.lower text) n
  = (n + Z.of_nat (length (matching_keywords kws text)))%Z.
Proof.
  revert n. induction kws as [|k kws IH]; intros n; simpl; [lia|].
  destruct (PyStr.contains (PyStr.lower k) (PyStr.lower text)).
  - rewrite IH. simpl length. lia.
  - apply IH.
Qed.

Lemma keyword_score_match_count (product : Product) (post : Post) :
  keyword_score (keywords product) (post_content post) 0 = match_count product post.
Proof. unfold post_content, match_count. now rewrite keyword_score_count. Qed.

(** The count is the number of entries of [keywords] that occur. *)
Lemma matching_keywords_spec (kws : list string) (text k : string) :
  In k (matching_keywords kws text) <-> In k kws /\ occurs_ignoring_case k text.
Proof.
  induction kws as [|k0 kws IH]; simpl; [tauto|].
  destruct (PyStr.contains (PyStr.lower k0) (PyStr.lower text)) eqn:Hc.
  - apply contains_lower_iff in Hc. simpl. rewrite IH.
    split; [intros [<-|[? ?]]; auto | intros [[<-|?] ?]; auto].
  - apply contains_lower_false in Hc. rewrite IH.
    split; [intros [? ?]; auto | intros [[<-|?] ?]; [contradiction | auto]].
Qed.

Lemma match_count_nonneg (product : Product) (post : Post) :
  (0 <= match_count product post)%Z.
Proof. unfold match_count. lia. Qed.

Lemma positive_scores_In (items : list (string * Product)) (post : Post)
    (pid : string) (n : Z) :
  In (pid, n) (positive_scores items post)
  <-> exists p, In (pid, p) items /\ n = match_count p post /\ (0 < n)%Z.
Proof.
  induction items as [|[pid0 p0] items IH]; simpl.
  - split; [tauto | intros (p & [] & _)].
  - destruct (Z.ltb_spec 0 (match_count p0 post)) as [Hpos|Hzero]; simpl; rewrite IH.
    + split.
      * intros [[= <- <-]|(p & Hin & Hn)]; [exists p0; auto | exists p; auto].
      * intros (p & [[= <- <-]|Hin] & -> & Hlt); [auto | right; eauto].
    + split.
      * intros (p & Hin & Hn). exists p. auto.
      * intros (p & [[= <- <-]|Hin] & -> & Hlt); [lia | eauto].
Qed.

Lemma positive_scores_keys (items : list (string * Product)) (post : Post)
    (pid : string) :
  In pid (map fst (positive_scores items post)) -> In pid (map fst items).
Proof.
  intros Hin. apply in_map_iff in Hin as ([k n] & <- & Hin).
  apply positive_scores_In in Hin as (p & Hin & _).
  change (fst (k, n)) with (fst (k, p)). now apply in_map.
Qed.

Lemma positive_scores_NoDup (items : list (string * Product)) (post : Post) :
  NoDup (map fst items) -> NoDup (map fst (positive_scores items post)).
Proof.
  induction items as [|[pid0 p0] items IH]; simpl; [auto|].
  intros Hnd. apply NoDup_cons in Hnd as [Hfresh Hnd].
  destruct (0 <? match_count p0 post)%Z; simpl; [|auto].
  apply NoDup_cons. split; [|auto].
  intros Hin. apply Hfresh. apply list_elem_of_In.
  apply list_elem_of_In in Hin. eapply positive_scores_keys; eauto.
Qed.

(** The loop that fills [product_scores] builds [positive_scores]. *)
Lemma score_products_eq (items : list (string * Product)) (post : Post)
    (acc : list (string * Z)) :
  NoDup (map fst acc ++ map fst items) ->
  score_products items (post_content post) acc = acc ++ positive_scores items post.
Proof.
  revert acc. induction items as [|[pid0 p0] items IH]; intros acc Hnd; simpl.
  - now rewrite app_nil_r.
  - rewrite keyword_score_match_count.
    assert (NoDup (map fst acc ++ map fst items)) as Hnd'.
    { apply NoDup_app in Hnd as (Ha & Hdisj & Hi). simpl in Hi.
      apply NoDup_cons in Hi as [_ Hi]. apply NoDup_app. repeat split; auto.
      intros x Hx Hx'. apply (Hdisj x Hx). simpl. now right. }
    destruct (0 <? match_count p0 post)%Z; [|auto].
    assert (~ In pid0 (map fst acc)) as Hfresh.
    { intros Hin. apply NoDup_app in Hnd as (_ & Hdisj & _).
      apply (Hdisj pid0); [now apply list_elem_of_In | simpl; now left]. }
    rewrite dict_set_fresh by exact Hfresh.
    rewrite IH.
    + now rewrite <- app_assoc.
    + rewrite map_app. simpl. rewrite <- app_assoc. simpl.
      apply NoDup_app in Hnd as (Ha & Hdisj & Hi). simpl in Hi.
      apply NoDup_cons in Hi as [Hpid Hi].
      apply NoDup_app. repeat split; auto.
      apply NoDup_cons. auto.
Qed.

Lemma max_key_spec (d : list (string * Z)) :
  d <> [] ->
  exists best,
    max_key d = Ok best
    /\ In best (map fst d)
    /\ forall x, In x (map fst d) ->
                 (default 0 (dict_get d x) <= default 0 (dict_get d best))%Z.
Proof.
  intros Hne. unfold max_key.
  destruct (map fst d) as [|k ks] eqn:Hkeys.
  { destruct d; [contradiction | discriminate]. }
  eexists. split; [reflexivity|].
  apply (max_loop_spec (fun k => default 0%Z (dict_get d k)) ks k).
Qed.

(** [_select_product_for_post] returns either nothing, when no product
    counts a keyword, or a product of positive and maximal count. *)
Lemma select_product_spec (prods : list (string * Product)) (post : Post) :
  NoDup (map fst prods) ->
  (select_product prods post = Ok None
   /\ forall pid p, In (pid, p) prods -> match_count p post = 0%Z)
  \/ (exists pid p,
        select_product prods post
        = Ok (Some {| sel_id := pid; sel_score := match_count p post;
                      sel_product := p |})
        /\ In (pid, p) prods
        /\ (0 < match_count p post)%Z
        /\ forall pid' p', In (pid', p') prods ->
                           (match_count p' post <= match_count p post)%Z).
Proof.
  intros Hnd.
  assert (select_product prods post
          = match positive_scores prods post with
            | [] => Ok None
            | _ =>
                match max_key (positive_scores prods post) with
                | Raise e => Raise e
                | Ok best =>
                    match dict_getitem (positive_scores prods post) best with
                    | Raise e => Raise e
                    | Ok best_score =>
                        match dict_getitem prods best with
                        | Raise e => Raise e
                        | Ok product =>
                            Ok (Some {| sel_id := best; sel_score := best_score;
                                        sel_product := product |})
                        end
                    end
                end
            end) as ->.
  { unfold select_product.
    rewrite (score_products_eq prods post []) by exact Hnd.
    rewrite app_nil_l. destruct prods; reflexivity. }
  pose proof (positive_scores_NoDup prods post Hnd) as Hnds.
  destruct (positive_scores prods post) as [|[k0 v0] rest] eqn:Hps.
  - left. split; [reflexivity|].
    intros pid p Hin. pose proof (match_count_nonneg p post) as Hge.
    destruct (Z.eq_dec (match_count p post) 0%Z) as [|Hne]; [assumption|].
    assert (In (pid, match_count p post) (positive_scores prods post)) as Habs.
    { apply positive_scores_In. exists p. repeat split; auto. lia. }
    rewrite Hps in Habs. destruct Habs.
  - right. rewrite <- Hps in *.
    destruct (max_key_spec (positive_scores prods post))
      as (best & -> & Hkey & Hmax); [rewrite Hps; discriminate|].
    destruct (dict_get_key _ _ Hkey) as [best_score Hget].
    pose proof (dict_get_In _ _ _ Hget) as Hin_scores.
    apply positive_scores_In in Hin_scores as (p & Hin & Hscore & Hpos).
    exists best, p. subst best_score.
    unfold dict_getitem. rewrite Hget, (In_dict_get prods best p Hnd Hin).
    repeat split; auto.
    intros pid' p' Hin'.
    destruct (Z.ltb_spec 0 (match_count p' post)) as [Hpos'|Hzero]; [|lia].
    assert (In (pid', match_count p' post) (positive_scores prods post)) as Hin_s.
    { apply positive_scores_In. exists p'. auto. }
    assert (In pid' (map fst (positive_scores prods post))) as Hk'.
    { change pid' with (fst (pid', match_count p' post)). now apply in_map. }
    specialize (Hmax pid' Hk').
    rewrite Hget, (In_dict_get _ _ _ Hnds Hin_s) in Hmax. exact Hmax.
Qed.

(** ** Running the monad *)

Ltac run_simpl :=
  unfold run, mbind, M_bind, mret, M_ret, get_self, get_world, get_stats,
    modify_self, modify_world, modify_stats, lift_result, raise, try_except in *;
  simpl.

Lemma bind_ok {A B} (m : M A) (f : A -> M B) (s s' : St) (a : A) :
  run m s = (Ok a, s') -> run (m ≫= f) s = run (f a) s'.
Proof. unfold run, mbind, M_bind. now intros ->. Qed.

Lemma bind_raise {A B} (m : M A) (f : A -> M B) (s s' : St) (e : exn) :
  run m s = (Raise e, s') -> run (m ≫= f) s = (Raise e, s').
Proof. unfold run, mbind, M_bind. now intros ->. Qed.




(** ** The persona *)

(** [random.choice] on a non-empty list returns one of its elements and
    uses one draw. *)
Lemma random_choice_run {A} (E : Env) (seq : list A) (s : St) :
  seq <> [] ->
  exists x, In x seq
            /\ run (random_choice E seq) s = (Ok x, with_world s (tick_draw (world s))).
Proof.
  intros Hne. destruct seq as [|d seq]; [contradiction|].
  unfold run, random_choice.
  eexists. split; [|reflexivity].
  apply nth_In. apply Nat.mod_upper_bound. discriminate.
Qed.

(** [random.choice] returns the element at the place the random source
    gives, modulo the length. *)
Lemma random_choice_nth {A} (E : Env) (d : A) (seq : list A) (s : St) :
  seq <> [] ->
  run (random_choice E seq) s
  = (Ok (nth (random_index E (draws (world s)) mod length seq) seq d),
     with_world s (tick_draw (world s))).
Proof.
  intros Hne. destruct seq as [|d0 seq]; [contradiction|].
  unfold run, random_choice. f_equal. f_equal.
  apply nth_indep. apply Nat.mod_upper_bound. discriminate.
Qed.

(** C10. [_select_persona] always returns: the fixed default persona,
    with the state untouched, when there is no persona; otherwise, for
    one random draw, the stored persona that the draw designates,
    together with its id: the entry whose place in the dictionary is the
    value of the random source modulo the number of personas.  What it
    returns is a function of the stored personas and the draw alone; no
    post enters it. *)
Theorem select_persona_total (E : Env) (s : St) :
  (exists persona s', run (_select_persona E) s = (Ok persona, s')
     /\ (personas (catalog (self s)) = [] ->
         persona = {| sp_id := None;
                      sp_persona := {| persona_name := "Assistant";
                                       tone := "helpful";
                                       style := "informative" |} |}
         /\ s' = s)
     /\ (personas (catalog (self s)) <> [] ->
         let place := random_index E (draws (world s))
                      mod length (personas (catalog (self s))) in
         exists pid data,
           In (pid, data) (personas (catalog (self s)))
           /\ nth_error (map fst (personas (catalog (self s)))) place = Some pid
           /\ dict_get (personas (catalog (self s))) pid = Some data
           /\ (NoDup (map fst (personas (catalog (self s)))) ->
               nth_error (personas (catalog (self s))) place = Some (pid, data))
           /\ persona = {| sp_id := Some pid; sp_persona := data |}
           /\ s' = with_world s (tick_draw (world s))))
  /\ (forall s2 : St,
        personas (catalog (self s2)) = personas (catalog (self s)) ->
        draws (world s2) = draws (world s) ->
        fst (run (_select_persona E) s2) = fst (run (_select_persona E) s)).
Proof.
  split.
  - unfold _select_persona, run. unfold mbind at 1. unfold M_bind, get_self.
    cbv beta iota.
    destruct (personas (catalog (self s))) as [|item ps] eqn:Hps.
    + exists default_persona, s. split; [reflexivity|].
      split; [auto | congruence].
    + rewrite <- Hps.
      set (all := personas (catalog (self s))) in *.
      assert (all <> []) as Hne by (rewrite Hps; discriminate).
      assert (map fst all <> []) as Hne' by (rewrite Hps; discriminate).
      set (place := random_index E (draws (world s)) mod length all).
      assert (place < length all) as Hlt.
      { apply Nat.mod_upper_bound. rewrite Hps. discriminate. }
      set (pid := nth place (map fst all) (fst item)).
      assert (nth_error (map fst all) place = Some pid) as Hnth.
      { apply nth_error_nth'. rewrite length_map. exact Hlt. }
      assert (In pid (map fst all)) as Hin by (eapply nth_error_In; exact Hnth).
      destruct (dict_get_key _ _ Hin) as [data Hget].
      assert (run (random_choice E (map fst all)) s
              = (Ok pid, with_world s (tick_draw (world s)))) as Hrun.
      { rewrite (random_choice_nth E (fst item) (map fst all) s Hne').
        unfold pid, place. now rewrite length_map. }
      exists {| sp_id := Some pid; sp_persona := data |},
             (with_world s (tick_draw (world s))).
      split; [|split; [rewrite Hps; discriminate|]].
      * change (run (random_choice E (map fst all)
                     ≫= (fun persona_id =>
                           lift_result (dict_getitem all persona_id)
                           ≫= (fun data =>
                                 mret {| sp_id := Some persona_id; sp_persona := data |})))
                     s
                = (Ok {| sp_id := Some pid; sp_persona := data |},
                   with_world s (tick_draw (world s)))).
        rewrite (bind_ok _ _ _ _ _ Hrun).
        unfold dict_getitem. rewrite Hget. reflexivity.
      * intros _. cbv zeta. fold place. exists pid, data.
        split; [now apply dict_get_In|]. split; [exact Hnth|]. split; [exact Hget|].
        split; [|auto].
        intros Hnd. rewrite nth_error_map in Hnth.
        destruct (nth_error all place) as [[pid' data']|] eqn:Hentry; [|discriminate].
        simpl in Hnth. injection Hnth as ->.
        pose proof (In_dict_get all pid data' Hnd (nth_error_In _ _ Hentry)) as Hget'.
        congruence.
  - intros s2 Hp Hd. unfold _select_persona. run_simpl. rewrite Hp.
    destruct (personas (catalog (self s))) as [|item ps]; [reflexivity|].
    unfold random_choice. simpl. rewrite Hd.
    destruct (dict_getitem _ _); reflexivity.
Qed.

(** ** The submission gate *)

(** C4. [_post_comment] always returns a boolean and never raises.  In
    dry-run mode it returns [True] and the state, the list of network
    calls included, is what it was.  Otherwise, without a forum client it
    returns [False], again with no network call.  Otherwise it calls
    [post.reply] once, and returns [True] exactly when that call did not
    raise. *)
Theorem post_comment_total (E : Env) (s : St) (post : Post) (comment : string) :
  exists posted s',
    run (_post_comment E post comment) s = (Ok posted, s')
    /\ (dry_run (config (self s)) = true -> posted = true /\ s' = s)
    /\ (dry_run (config (self s)) = false -> reddit (self s) = None ->
        posted = false /\ s' = s)
    /\ (dry_run (config (self s)) = false -> reddit (self s) <> None ->
        posted = is_ok (post_reply E (length (net (world s))) post comment)
        /\ s' = with_world s (record_net (NetReply (post_id post) comment) (world s))).
Proof.
  unfold _post_comment, reply. run_simpl.
  destruct (dry_run (config (self s))) eqn:Hdry.
  - exists true, s. repeat split; auto; discriminate.
  - destruct (reddit (self s)) as [client|] eqn:Hreddit.
    + simpl.
      destruct (post_reply E (length (net (world s))) post comment) as [cid|e];
        eexists; eexists; (split; [reflexivity|]);
        repeat split; auto; try discriminate; congruence.
    + exists false, s. repeat split; auto; try discriminate; congruence.
Qed.

(** ** Relations kept by the monad *)

Section Stable.

Variable R : St -> St -> Prop.
Hypothesis R_refl : forall s, R s s.
Hypothesis R_trans : forall a b c, R a b -> R b c -> R a c.

Lemma stable_ret {A} (a : A) : stable R (mret a : M A).
Proof. intros s. apply R_refl. Qed.

Lemma stable_raise {A} (e : exn) : stable R (raise e : M A).
Proof. intros s. apply R_refl. Qed.

Lemma stable_lift {A} (r : result A) : stable R (lift_result r).
Proof. intros s. apply R_refl. Qed.

Lemma stable_get_self : stable R get_self.
Proof. intros s. apply R_refl. Qed.

Lemma stable_get_world : stable R get_world.
Proof. intros s. apply R_refl. Qed.

Lemma stable_get_stats : stable R get_stats.
Proof. intros s. apply R_refl. Qed.

Lemma stable_bind {A B} (m : M A) (f : A -> M B) :
  stable R m -> (forall a, stable R (f a)) -> stable R (m ≫= f).
Proof.
  intros Hm Hf s. specialize (Hm s). unfold run, mbind, M_bind in *.
  destruct (m s) as [[a|e] s1]; simpl in *; [|exact Hm].
  eapply R_trans; [exact Hm | apply Hf].
Qed.

Lemma stable_try {A} (m : M A) (h : exn -> M A) :
  stable R m -> (forall e, stable R (h e)) -> stable R (try_except m h).
Proof.
  intros Hm Hh s. specialize (Hm s). unfold run, try_except in *.
  destruct (m s) as [[a|e] s1]; simpl in *; [exact Hm|].
  eapply R_trans; [exact Hm | apply Hh].
Qed.

Lemma stable_for_each {A} (body : A -> M unit) (l : list A) :
  (forall x, stable R (body x)) -> stable R (for_each body l).
Proof.
  intros Hbody. induction l as [|x l IH]; simpl.
  - apply stable_ret.
  - apply stable_bind; auto.
Qed.

End Stable.

(** A handler that returns makes the whole [try] return. *)
Lemma try_except_returns {A} (m : M A) (h : exn -> M A) (s : St) :
  (forall e s1, exists a s2, run (h e) s1 = (Ok a, s2)) ->
  exists a s', run (try_except m h) s = (Ok a, s').
Proof.
  intros Hh. unfold run, try_except in *.
  destruct (m s) as [[a|e] s1]; eauto.
Qed.

Lemma for_each_returns {A} (body : A -> M unit) (l : list A) (s : St) :
  (forall x s1, exists s2, run (body x) s1 = (Ok tt, s2)) ->
  exists s', run (for_each body l) s = (Ok tt, s').
Proof.
  intros Hbody. revert s. induction l as [|x l IH]; intros s; simpl.
  - exists s. reflexivity.
  - destruct (Hbody x s) as [s1 H1]. rewrite (bind_ok _ _ _ _ _ H1). apply IH.
Qed.

(** ** Steps that record nothing *)

Lemma quiet_refl (s : St) : quiet s s.
Proof. reflexivity. Qed.

Lemma quiet_trans (a b c : St) : quiet a b -> quiet b c -> quiet a c.
Proof. unfold quiet. congruence. Qed.

Ltac quiet_step := intros s; unfold quiet, run; reflexivity.

Lemma quiet_random_choice {A} (E : Env) (seq : list A) :
  stable quiet (random_choice E seq).
Proof. intros s. unfold quiet, run, random_choice. destruct seq; reflexivity. Qed.

Lemma quiet_chat (E : Env) (model prompt : string) :
  stable quiet (chat_completions_create E model prompt).
Proof. quiet_step. Qed.

Lemma quiet_reply (E : Env) (post : Post) (comment : string) :
  stable quiet (reply E post comment).
Proof. quiet_step. Qed.

Lemma quiet_fetch (E : Env) (name : string) (limit : nat) :
  stable quiet (fetch_new E name limit).
Proof. quiet_step. Qed.

Lemma quiet_stats_analyzed : stable quiet (modify_stats stats_incr_posts_analyzed).
Proof. quiet_step. Qed.

Lemma quiet_stats_filtered : stable quiet (modify_stats stats_incr_posts_filtered).
Proof. quiet_step. Qed.

Lemma quiet_stats_selected : stable quiet (modify_stats stats_incr_posts_selected).
Proof. quiet_step. Qed.

Lemma quiet_self_analyzed :
  stable quiet (modify_self (set_counters incr_posts_analyzed)).
Proof. quiet_step. Qed.

Lemma quiet_self_filtered :
  stable quiet (modify_self (set_counters incr_posts_filtered)).
Proof. quiet_step. Qed.

Lemma quiet_self_selected :
  stable quiet (modify_self (set_counters incr_posts_selected)).
Proof. quiet_step. Qed.

Lemma quiet_checked : stable quiet (modify_stats stats_incr_subreddits_checked).
Proof. quiet_step. Qed.

Ltac stable_quiet :=
  repeat first
    [ apply (stable_bind quiet quiet_trans); [|intros ?]
    | apply (stable_try quiet quiet_trans); [|intros ?]
    | apply (stable_ret quiet quiet_refl)
    | apply (stable_raise quiet quiet_refl)
    | apply (stable_lift quiet quiet_refl)
    | apply (stable_get_self quiet quiet_refl)
    | apply (stable_get_world quiet quiet_refl)
    | apply (stable_get_stats quiet quiet_refl)
    | apply quiet_random_choice
    | apply quiet_chat
    | apply quiet_reply
    | apply quiet_fetch
    | apply quiet_stats_analyzed
    | apply quiet_stats_filtered
    | apply quiet_stats_selected
    | apply quiet_self_analyzed
    | apply quiet_self_filtered
    | apply quiet_self_selected
    | apply quiet_checked ].

Lemma quiet_filter_post (post : Post) : stable quiet (_filter_post post).
Proof. unfold _filter_post. stable_quiet. Qed.

Lemma quiet_select_product (post : Post) :
  stable quiet (_select_product_for_post post).
Proof. unfold _select_product_for_post. stable_quiet. Qed.

Lemma quiet_select_persona (E : Env) : stable quiet (_select_persona E).
Proof.
  unfold _select_persona. stable_quiet.
  match goal with
  | |- context [personas (catalog ?b)] => destruct (personas (catalog b))
  end; stable_quiet.
Qed.

Lemma quiet_template_comment (E : Env) (product : SelectedProduct) :
  stable quiet (template_comment E product).
Proof. unfold template_comment. stable_quiet. Qed.

Lemma quiet_generate_comment (E : Env) (post : Post) (product : SelectedProduct)
    (persona : SelectedPersona) :
  stable quiet (_generate_comment E post product persona).
Proof.
  unfold _generate_comment. stable_quiet.
  match goal with
  | |- context [openai_model ?b] =>
      destruct (openai_model b) as [model|]; [|apply quiet_template_comment];
      destruct (openai_client b); [|apply quiet_template_comment]
  end.
  destruct (PyStr.truthy model); [stable_quiet | apply quiet_template_comment].
Qed.

Lemma quiet_post_comment (E : Env) (post : Post) (comment : string) :
  stable quiet (_post_comment E post comment).
Proof.
  unfold _post_comment. stable_quiet.
  match goal with
  | |- context [reddit ?b] =>
      destruct (dry_run (config b)); [stable_quiet|];
      destruct (reddit b); stable_quiet
  end.
Qed.

(** ** Recording and pacing a submission *)

Lemma sleeps_outcome (seconds : Z) :
  (sleeps seconds = true /\ sleep_outcome seconds = Ok tt)
  \/ (sleeps seconds = false /\ exists e, sleep_outcome seconds = Raise e).
Proof.
  unfold sleeps, sleep_outcome, sleep_max.
  destruct (Z.ltb_spec 9223372036 (Z.abs seconds)) as [Hbig|Hbig];
    destruct (Z.ltb_spec seconds 0) as [Hneg|Hneg];
    destruct (Z.leb_spec 0 seconds) as [H0|H0];
    destruct (Z.leb_spec seconds 9223372036) as [Hm|Hm];
    try lia; simpl; eauto.
Qed.

Lemma record_and_pace_run (s : St) :
  run record_and_pace s
  = (sleep_outcome (comment_rate_limit_seconds (config (self s))), recorded s).
Proof.
  unfold record_and_pace, time_sleep, recorded, sleep_outcome. run_simpl.
  destruct (sleeps_outcome (comment_rate_limit_seconds (config (self s))))
    as [[Hs Ho]|[Hs [e Ho]]]; rewrite Hs; unfold sleep_outcome in Ho;
    destruct (sleep_max <? Z.abs (comment_rate_limit_seconds (config (self s))))%Z;
    try discriminate;
    destruct (comment_rate_limit_seconds (config (self s)) <? 0)%Z;
    try discriminate; reflexivity.
Qed.

(** What [stable] says about one run. *)
Lemma stable_run {A} (R : St -> St -> Prop) (m : M A) (s s' : St) (r : result A) :
  stable R m -> run m s = (r, s') -> R s s'.
Proof. intros Hm Hrun. specialize (Hm s). now rewrite Hrun in Hm. Qed.

(** One post either records nothing, or passes the filter, is matched,
    is submitted with success, and is then recorded and paced. *)
Lemma process_post_shape (E : Env) (post : Post) (s : St) :
  quiet s (snd (run (process_post E post) s))
  \/ (passed (filter_post (config (self s)) (clock (world s)) post) = true
      /\ (exists sel, select_product (products (catalog (self s))) post = Ok (Some sel))
      /\ exists s2 s3 comment,
           quiet s s2
           /\ run (_post_comment E post comment) s2 = (Ok true, s3)
           /\ run (process_post E post) s = run record_and_pace s3).
Proof.
  unfold process_post.
  set (s1 := {| self := set_counters incr_posts_analyzed (self s);
                world := world s;
                stats := stats_incr_posts_analyzed (stats s) |}).
  assert (quiet s s1) as Hq1 by reflexivity.
  set (s0 := {| self := self s; world := world s;
                stats := stats_incr_posts_analyzed (stats s) |}).
  rewrite (bind_ok (modify_stats stats_incr_posts_analyzed) _ s s0 tt eq_refl).
  rewrite (bind_ok (modify_self (set_counters incr_posts_analyzed)) _ s0 s1 tt eq_refl).
  rewrite (bind_ok (_filter_post post) _ s1 s1
             (filter_post (config (self s)) (clock (world s)) post) eq_refl).
  destruct (passed (filter_post (config (self s)) (clock (world s)) post)) eqn:Hpass;
    simpl negb; cbv iota.
  2:{ left. eapply quiet_trans; [exact Hq1|].
      apply (stable_bind quiet quiet_trans); [apply quiet_stats_filtered|].
      intros _. apply quiet_self_filtered. }
  assert (run (_select_product_for_post post) s1
          = (select_product (products (catalog (self s))) post, s1)) as Hsp
    by reflexivity.
  destruct (select_product (products (catalog (self s))) post) as [[sel|]|e] eqn:Hsel.
  2:{ left. rewrite (bind_ok _ _ _ _ _ Hsp). exact Hq1. }
  2:{ left. rewrite (bind_raise _ _ _ _ _ Hsp). exact Hq1. }
  rewrite (bind_ok _ _ _ _ _ Hsp).
  set (s_sel := {| self := set_counters incr_posts_selected (self s1);
                   world := world s1;
                   stats := stats_incr_posts_selected (stats s1) |}).
  assert (quiet s s_sel) as Hq2 by reflexivity.
  set (s_st := {| self := self s1; world := world s1;
                  stats := stats_incr_posts_selected (stats s1) |}).
  rewrite (bind_ok (modify_stats stats_incr_posts_selected) _ s1 s_st tt eq_refl).
  rewrite (bind_ok (modify_self (set_counters incr_posts_selected)) _ s_st s_sel tt eq_refl).
  destruct (run (_select_persona E) s_sel) as [[persona|e] s_p] eqn:Hp.
  2:{ left. rewrite (bind_raise _ _ _ _ _ Hp). simpl.
      eapply quiet_trans; [exact Hq2|].
      exact (stable_run quiet _ _ _ _ (quiet_select_persona E) Hp). }
  rewrite (bind_ok _ _ _ _ _ Hp).
  assert (quiet s s_p) as Hq3.
  { eapply quiet_trans; [exact Hq2|].
    exact (stable_run quiet _ _ _ _ (quiet_select_persona E) Hp). }
  destruct (run (_generate_comment E post sel persona) s_p) as [[comment|e] s2] eqn:Hg.
  2:{ left. rewrite (bind_raise _ _ _ _ _ Hg). simpl.
      eapply quiet_trans; [exact Hq3|].
      exact (stable_run quiet _ _ _ _ (quiet_generate_comment E post sel persona) Hg). }
  rewrite (bind_ok _ _ _ _ _ Hg).
  assert (quiet s s2) as Hq4.
  { eapply quiet_trans; [exact Hq3|].
    exact (stable_run quiet _ _ _ _ (quiet_generate_comment E post sel persona) Hg). }
  destruct (run (_post_comment E post comment) s2) as [[posted|e] s3] eqn:Hpc.
  2:{ left. rewrite (bind_raise _ _ _ _ _ Hpc). simpl.
      eapply quiet_trans; [exact Hq4|].
      exact (stable_run quiet _ _ _ _ (quiet_post_comment E post comment) Hpc). }
  rewrite (bind_ok _ _ _ _ _ Hpc).
  destruct posted.
  - right. split; [reflexivity|]. split; [eauto|].
    exists s2, s3, comment. auto.
  - left. simpl.
    eapply quiet_trans; [exact Hq4|].
    exact (stable_run quiet _ _ _ _ (quiet_post_comment E post comment) Hpc).
Qed.

Lemma quiet_paced (s s' : St) : quiet s s' -> paced_by 0 s s'.
Proof.
  unfold quiet, quiet_view, paced_by. intros H.
  assert (base_view s' = base_view s) as Hb by congruence.
  assert (st_comments_posted (stats s') = st_comments_posted (stats s)) as Hc
    by congruence.
  assert (comments_posted_today (counters (self s'))
          = comments_posted_today (counters (self s))) as Ht by congruence.
  assert (total_comments_posted (counters (self s'))
          = total_comments_posted (counters (self s))) as Htot by congruence.
  assert (clock (world s') = clock (world s)) as Hclk by congruence.
  rewrite Hb, Ht, Htot, Hc, Hclk. rewrite !Z.add_0_r, Z.mul_0_l.
  repeat split; auto. change (inject_Z 0) with 0%Q. lra.
Qed.

Lemma recorded_paced (s : St) : paced_by 1 s (recorded s).
Proof.
  unfold paced_by, recorded, pacing_delay. simpl. repeat split; auto.
  rewrite Z.mul_1_l.
  destruct (sleeps (comment_rate_limit_seconds (config (self s)))); simpl.
  - lra.
  - change (inject_Z 0) with 0%Q. lra.
Qed.

Lemma paced_by_trans (d1 d2 : Z) (a b c : St) :
  paced_by d1 a b -> paced_by d2 b c -> paced_by (d1 + d2) a c.
Proof.
  unfold paced_by. intros (Hb1 & Hc1 & Ht1 & Htot1 & Hk1) (Hb2 & Hc2 & Ht2 & Htot2 & Hk2).
  assert (config (self b) = config (self a)) as Hcfg
    by (unfold base_view in Hb1; congruence).
  rewrite Hcfg in Hk2.
  repeat split; [congruence | lia | lia | lia |].
  rewrite Hk2, Hk1, Z.mul_add_distr_r, inject_Z_plus. lra.
Qed.

Lemma paced_refl (s : St) : paced s s.
Proof. exists 0%Z. split; [lia|]. apply quiet_paced. reflexivity. Qed.

Lemma paced_trans (a b c : St) : paced a b -> paced b c -> paced a c.
Proof.
  intros (d1 & H1 & Hp1) (d2 & H2 & Hp2). exists (d1 + d2)%Z.
  split; [lia|]. eapply paced_by_trans; eauto.
Qed.

(** When [_post_comment] returns [True], either nothing is sent or the
    forum accepted the reply. *)
Lemma post_comment_true (E : Env) (s s' : St) (post : Post) (comment : string) :
  run (_post_comment E post comment) s = (Ok true, s') ->
  dry_run (config (self s)) = true
  \/ (reddit (self s) <> None
      /\ is_ok (post_reply E (length (net (world s))) post comment) = true).
Proof.
  unfold _post_comment, reply. run_simpl.
  destruct (dry_run (config (self s))); [auto|].
  destruct (reddit (self s)); simpl; [|discriminate].
  destruct (post_reply E (length (net (world s))) post comment);
    [intros _; right; split; [discriminate | reflexivity] | discriminate].
Qed.

(** One post records at most one submission. *)
Lemma process_post_paced (E : Env) (post : Post) (s : St) :
  let s' := snd (run (process_post E post) s) in
  (quiet s s' /\ paced_by 0 s s')
  \/ (paced_by 1 s s'
      /\ last_comment_time (counters (self s')) = int_of (clock (world s))
      /\ passed (filter_post (config (self s)) (clock (world s)) post) = true
      /\ (exists sel, select_product (products (catalog (self s))) post = Ok (Some sel))
      /\ (dry_run (config (self s)) = true
          \/ (reddit (self s) <> None
              /\ exists n comment, is_ok (post_reply E n post comment) = true))).
Proof.
  simpl. destruct (process_post_shape E post s)
    as [Hq|(Hpass & Hsel & s2 & s3 & comment & Hq & Hpc & Hrun)].
  - left. split; [exact Hq | now apply quiet_paced].
  - right. rewrite Hrun, record_and_pace_run. simpl.
    pose proof (stable_run quiet _ _ _ _ (quiet_post_comment E post comment) Hpc) as Hq3.
    assert (quiet s s3) as Hqs by (eapply quiet_trans; eauto).
    split; [|split; [|split; [exact Hpass | split; [exact Hsel|]]]].
    + change 1%Z with (0 + 1)%Z.
      eapply paced_by_trans; [apply quiet_paced; exact Hqs | apply recorded_paced].
    + unfold quiet, quiet_view in Hqs. congruence.
    + assert (base_view s2 = base_view s) as Hb
        by (unfold quiet, quiet_view in Hq; congruence).
      unfold base_view in Hb. injection Hb as Hcfg _ Hreddit _ _ _ _.
      destruct (post_comment_true E s2 s3 post comment Hpc) as [Hdry|[Hr Hok]].
      * left. congruence.
      * right. split; [congruence | eauto].
Qed.

Lemma stable_process_post (E : Env) (post : Post) : stable paced (process_post E post).
Proof.
  intros s. destruct (process_post_paced E post s) as [[_ H]|[H _]].
  - exists 0%Z. split; [lia | exact H].
  - exists 1%Z. split; [lia | exact H].
Qed.

Lemma quiet_stable_paced {A} (m : M A) : stable quiet m -> stable paced m.
Proof.
  intros Hm s. exists 0%Z. split; [lia|]. apply quiet_paced. apply Hm.
Qed.

Lemma stable_process_subreddit (E : Env) (name : string) :
  stable paced (process_subreddit E name).
Proof.
  unfold process_subreddit.
  apply (stable_try paced paced_trans); [|intros e; apply (stable_ret paced paced_refl)].
  apply (stable_bind paced paced_trans).
  { apply quiet_stable_paced, quiet_checked. }
  intros _. apply (stable_bind paced paced_trans).
  { apply quiet_stable_paced, quiet_fetch. }
  intros posts. apply (stable_for_each paced paced_refl paced_trans).
  intros post. apply stable_process_post.
Qed.

(** ** The cycle *)

Lemma monitor_without_client (E : Env) (s : St) :
  reddit (self s) = None ->
  run (monitor_subreddits E) s
  = (Ok (ErrorSummary "Client Reddit non initialisé" 0), s).
Proof.
  intros Hnone. unfold monitor_subreddits. run_simpl. now rewrite Hnone.
Qed.

Lemma in_active_hours_false (E : Env) (s : St) :
  in_active_hours E s = false
  <-> ~ (active_hours_start (config (self s)) <= local_hour E (clock (world s))
         < active_hours_end (config (self s)))%Z.
Proof. unfold in_active_hours. rewrite andb_false_iff, Z.leb_gt, Z.ltb_ge. lia. Qed.

Lemma monitor_stopped (E : Env) (s : St) :
  reddit (self s) <> None ->
  active (self s) = false ->
  run (monitor_subreddits E) s
  = (Ok (StatsSummary (zero_stats (clock (world s)))), cycle_start s).
Proof.
  intros Hsome Hstop. unfold monitor_subreddits. run_simpl.
  destruct (reddit (self s)); [|contradiction].
  now rewrite Hstop.
Qed.

Lemma monitor_outside_hours (E : Env) (s : St) :
  reddit (self s) <> None ->
  in_active_hours E s = false ->
  run (monitor_subreddits E) s
  = (Ok (StatsSummary (zero_stats (clock (world s)))), cycle_start s).
Proof.
  intros Hsome Hout. unfold monitor_subreddits, _is_active_hour. run_simpl.
  destruct (reddit (self s)); [|contradiction].
  destruct (active (self s)); simpl; [|reflexivity].
  unfold in_active_hours in Hout. now rewrite Hout.
Qed.

Lemma monitor_running (E : Env) (s : St) :
  reddit (self s) <> None ->
  active (self s) = true ->
  in_active_hours E s = true ->
  let s' := snd (run (cycle_loop E s) (cycle_start s)) in
  run (monitor_subreddits E) s = (Ok (StatsSummary (stats s')), s').
Proof.
  intros Hsome Hact Hin. unfold monitor_subreddits, _is_active_hour. run_simpl.
  destruct (reddit (self s)); [|contradiction].
  rewrite Hact. simpl. unfold in_active_hours in Hin. rewrite Hin. simpl.
  unfold cycle_loop, cycle_start, run, try_except.
  destruct (for_each (process_subreddit E) (subreddits (config (self s))) _)
    as [[[]|e] s1]; reflexivity.
Qed.

Lemma stable_cycle_loop (E : Env) (s : St) : stable paced (cycle_loop E s).
Proof.
  unfold cycle_loop.
  apply (stable_try paced paced_trans); [|intros e; apply (stable_ret paced paced_refl)].
  apply (stable_for_each paced paced_refl paced_trans).
  intros name. apply stable_process_subreddit.
Qed.

(** The cycle always returns; its summary counts the submissions that
    were recorded and paced. *)
Lemma monitor_paced (E : Env) (s : St) :
  exists summary s',
    run (monitor_subreddits E) s = (Ok summary, s')
    /\ (0 <= summary_comments summary)%Z
    /\ base_view s' = base_view s
    /\ comments_posted_today (counters (self s'))
       = (comments_posted_today (counters (self s)) + summary_comments summary)%Z
    /\ total_comments_posted (counters (self s'))
       = (total_comments_posted (counters (self s)) + summary_comments summary)%Z
    /\ (clock (world s')
        == clock (world s)
           + inject_Z (summary_comments summary
                       * pacing_delay (comment_rate_limit_seconds (config (self s)))))%Q.
Proof.
  assert (forall t, (t == t + inject_Z (0 * pacing_delay (comment_rate_limit_seconds (config (self s)))))%Q)
    as Hzero by (intros t; rewrite Z.mul_0_l; change (inject_Z 0) with 0%Q; lra).
  destruct (reddit (self s)) as [client|] eqn:Hreddit.
  2:{ eexists. exists s. split; [now apply monitor_without_client|].
      simpl. repeat split; auto; lia. }
  assert (reddit (self s) <> None) as Hsome by congruence.
  destruct (active (self s)) eqn:Hact.
  2:{ eexists. eexists. split; [now apply monitor_stopped|].
      simpl. repeat split; auto; lia. }
  destruct (in_active_hours E s) eqn:Hin.
  2:{ eexists. eexists. split; [now apply monitor_outside_hours|].
      simpl. repeat split; auto; lia. }
  eexists. eexists. split; [now apply monitor_running|]. simpl.
  destruct (stable_cycle_loop E s (cycle_start s)) as (d & Hd & Hp).
  set (s' := snd (run (cycle_loop E s) (cycle_start s))) in *.
  destruct Hp as (Hb & Hc & Ht & Htot & Hk). simpl in *.
  assert (st_comments_posted (stats s') = d) as -> by lia.
  repeat split; auto.
Qed.

(** C5, as stated, fails: a stopped bot without a forum client returns
    the error dictionary, which has none of the four other counts. *)
Lemma cycle_idle_noop_counterexample :
  idle (demo_env 0) offline_state /\ ~ zero_stats_noop (demo_env 0) offline_state.
Proof.
  split.
  - left. reflexivity.
  - intros (timestamp & Hsummary & _).
    rewrite (monitor_without_client (demo_env 0) offline_state eq_refl) in Hsummary.
    discriminate.
Qed.

(** C5, amended.  When the bot is stopped, or started with the local
    hour outside [active_hours_start, active_hours_end), an invocation of
    the cycle writes no attribute of the bot and changes nothing outside
    it.  With a forum client it returns the summary whose five counts are
    zero; without one it returns the error dictionary, whose only count,
    [comments_posted], is zero. *)
Theorem cycle_idle_noop (E : Env) (s : St) :
  idle E s ->
  (reddit (self s) <> None ->
   zero_stats_noop E s
   /\ run (monitor_subreddits E) s
      = (Ok (StatsSummary (zero_stats (clock (world s)))), cycle_start s))
  /\ (reddit (self s) = None ->
      run (monitor_subreddits E) s
      = (Ok (ErrorSummary "Client Reddit non initialisé" 0), s)).
Proof.
  intros Hidle. split; [|apply monitor_without_client].
  intros Hsome.
  assert (run (monitor_subreddits E) s
          = (Ok (StatsSummary (zero_stats (clock (world s)))), cycle_start s)) as Hrun.
  { destruct Hidle as [Hstop|Hout].
    - now apply monitor_stopped.
    - apply monitor_outside_hours; [exact Hsome|].
      now apply in_active_hours_false. }
  split; [|exact Hrun].
  exists (clock (world s)). rewrite Hrun. auto.
Qed.

Lemma cycle_idle_noop_witness : zero_stats_noop (demo_env 0) stopped_state.
Proof.
  refine (proj1 (proj1 (cycle_idle_noop (demo_env 0) stopped_state _) _)).
  - left. reflexivity.
  - discriminate.
Defined.





(** ** The reply composer *)

(** C3 fails on the code.  With no text generator and the templates that
    the bot installs by default, a draw of the template [alternative]
    makes [str.format] raise [KeyError]: the template names two fields the
    call does not pass.  The handler of [_generate_comment] then draws
    again, and when it draws the same template the [KeyError] leaves
    [_generate_comment].  In the cycle the post is counted as selected and
    no comment is posted.  With an empty set of templates [random.choice]
    raises [IndexError] in the same two places. *)
Theorem generate_comment_raises_on_default_templates :
  openai_client (self demo_state) = None
  /\ comment_templates (catalog (self demo_state)) = default_comment_templates
  /\ run (_generate_comment (demo_env 7) demo_post demo_selection default_persona)
         demo_state
     = (Raise (KeyError "alternative_product_name"),
        with_world demo_state (tick_draw (tick_draw demo_world)))
  /\ fst (run (monitor_subreddits (demo_env 7)) demo_state)
     = Ok (StatsSummary
             {| st_subreddits_checked := 1; st_posts_analyzed := 1;
                st_posts_filtered := 0; st_posts_selected := 1;
                st_comments_posted := 0; st_timestamp := clock demo_world |})
  /\ fst (run (_generate_comment (demo_env 0) demo_post demo_selection default_persona)
            empty_catalog_state)
     = Raise IndexError.
Proof. repeat split; vm_compute; reflexivity. Qed.

(** ** Missing credentials *)

Lemma same_net_refl (s : St) : same_net s s.
Proof. reflexivity. Qed.

Lemma same_net_trans (a b c : St) : same_net a b -> same_net b c -> same_net a c.
Proof. unfold same_net. congruence. Qed.

Lemma same_net_template_comment (E : Env) (product : SelectedProduct) :
  stable same_net (template_comment E product).
Proof.
  unfold template_comment.
  apply (stable_bind same_net same_net_trans);
    [apply (stable_get_self same_net same_net_refl) | intros b].
  apply (stable_bind same_net same_net_trans).
  { intros s. unfold same_net, run, random_choice.
    destruct (map fst (comment_templates (catalog b))); reflexivity. }
  intros template_id.
  apply (stable_bind same_net same_net_trans);
    [apply (stable_lift same_net same_net_refl) | intros template].
  apply (stable_lift same_net same_net_refl).
Qed.

Lemma init_reddit_missing (E : Env) (s : St) :
  missing E (self s) "reddit_client_id" "REDDIT_CLIENT_ID"
  \/ missing E (self s) "reddit_client_secret" "REDDIT_CLIENT_SECRET"
  \/ missing E (self s) "reddit_username" "REDDIT_USERNAME"
  \/ missing E (self s) "reddit_password" "REDDIT_PASSWORD" ->
  run (_init_reddit_client E) s
  = (Ok tt, {| self := set_reddit None (self s); world := world s; stats := stats s |}).
Proof.
  unfold missing, credential. intros Hmiss.
  unfold _init_reddit_client, get_credential.
  unfold run, try_except, mbind, M_bind, mret, M_ret, get_self, modify_self.
  cbv beta iota.
  assert (PyStr.truthy_opt (or_getenv E (credentials (self s) !! "reddit_client_id") "REDDIT_CLIENT_ID")
          && PyStr.truthy_opt (or_getenv E (credentials (self s) !! "reddit_client_secret") "REDDIT_CLIENT_SECRET")
          && PyStr.truthy_opt (or_getenv E (credentials (self s) !! "reddit_username") "REDDIT_USERNAME")
          && PyStr.truthy_opt (or_getenv E (credentials (self s) !! "reddit_password") "REDDIT_PASSWORD")
          = false) as ->.
  { destruct Hmiss as [-> | [-> | [-> | ->]]];
      rewrite ?andb_false_r, ?andb_false_l; reflexivity. }
  reflexivity.
Qed.

Lemma init_openai_missing (E : Env) (s : St) :
  missing E (self s) "openai_api_key" "OPENAI_API_KEY" ->
  run (_init_openai_client E) s
  = (Ok tt, {| self := set_openai None None (self s);
               world := world s; stats := stats s |}).
Proof.
  unfold missing, credential. intros Hmiss.
  unfold _init_openai_client, get_credential.
  unfold run, try_except, mbind, M_bind, mret, M_ret, get_self, modify_self.
  cbv beta iota. rewrite Hmiss. reflexivity.
Qed.

(** C6.  When one of the four forum credentials is neither stored nor
    in the environment, [_init_reddit_client] returns with [reddit] set to
    [None]; when the API key of the generator is missing,
    [_init_openai_client] returns with the client and the model set to
    [None].  Neither raises.  A cycle invoked afterwards returns a summary
    in every state: without a forum client it is the error dictionary and
    nothing is written; without a generator the composer goes to the
    templates and makes no network call. *)
Theorem missing_credentials_degrade (E : Env) (s : St) :
  (missing E (self s) "reddit_client_id" "REDDIT_CLIENT_ID"
   \/ missing E (self s) "reddit_client_secret" "REDDIT_CLIENT_SECRET"
   \/ missing E (self s) "reddit_username" "REDDIT_USERNAME"
   \/ missing E (self s) "reddit_password" "REDDIT_PASSWORD" ->
   run (_init_reddit_client E) s
   = (Ok tt, {| self := set_reddit None (self s);
                world := world s; stats := stats s |}))
  /\ (missing E (self s) "openai_api_key" "OPENAI_API_KEY" ->
      run (_init_openai_client E) s
      = (Ok tt, {| self := set_openai None None (self s);
                   world := world s; stats := stats s |}))
  /\ (exists summary s', run (monitor_subreddits E) s = (Ok summary, s'))
  /\ (reddit (self s) = None ->
      run (monitor_subreddits E) s
      = (Ok (ErrorSummary "Client Reddit non initialisé" 0), s))
  /\ (openai_client (self s) = None ->
      forall post product persona,
        run (_generate_comment E post product persona) s
        = run (try_except (template_comment E product)
                          (fun _ => template_comment E product)) s
        /\ net (world (snd (run (_generate_comment E post product persona) s)))
           = net (world s)).
Proof.
  split; [apply init_reddit_missing|].
  split; [apply init_openai_missing|].
  split.
  { destruct (monitor_paced E s) as (summary & s' & Hrun & _). eauto. }
  split; [apply monitor_without_client|].
  intros Hnone post product persona.
  assert (run (_generate_comment E post product persona) s
          = run (try_except (template_comment E product)
                            (fun _ => template_comment E product)) s) as Heq.
  { unfold _generate_comment, run, try_except, mbind, M_bind, get_self.
    cbv beta iota. rewrite Hnone. destruct (openai_model (self s)); reflexivity. }
  split; [exact Heq|]. rewrite Heq.
  apply (stable_try same_net same_net_trans).
  - apply same_net_template_comment.
  - intros e. apply same_net_template_comment.
Qed.

Lemma missing_credentials_degrade_witness :
  run (_init_reddit_client (demo_env 0)) demo_state
  = (Ok tt, {| self := set_reddit None (self demo_state);
               world := world demo_state; stats := stats demo_state |}).
Proof.
  refine (proj1 (missing_credentials_degrade (demo_env 0) demo_state) _).
  left. reflexivity.
Defined.

(** ** The counters of comments *)

Lemma same_counters_refl (s : St) : same_counters s s.
Proof. reflexivity. Qed.

Lemma same_counters_trans (a b c : St) :
  same_counters a b -> same_counters b c -> same_counters a c.
Proof. unfold same_counters. congruence. Qed.

Lemma same_counters_modify_self (f : RedditBot -> RedditBot) :
  (forall b, counters (f b) = counters b) ->
  stable same_counters (modify_self f).
Proof. intros Hf s. unfold same_counters, run, modify_self. simpl. apply Hf. Qed.

Ltac stable_counters :=
  repeat first
    [ apply (stable_bind same_counters same_counters_trans); [|intros ?]
    | apply (stable_try same_counters same_counters_trans); [|intros ?]
    | apply (stable_ret same_counters same_counters_refl)
    | apply (stable_get_self same_counters same_counters_refl)
    | apply same_counters_modify_self; intros ?; reflexivity
    | intros ?; reflexivity ].

Lemma same_counters_init_reddit (E : Env) : stable same_counters (_init_reddit_client E).
Proof.
  unfold _init_reddit_client, get_credential. stable_counters.
  match goal with |- context [if ?c then _ else _] => destruct c end;
    stable_counters.
Qed.

Lemma same_counters_init_openai (E : Env) : stable same_counters (_init_openai_client E).
Proof.
  unfold _init_openai_client, get_credential. stable_counters.
  match goal with |- context [if ?c then _ else _] => destruct c end;
    stable_counters.
Qed.

Lemma same_counters_reload_credentials (E : Env) :
  stable same_counters (reload_credentials E).
Proof.
  unfold reload_credentials.
  apply (stable_bind same_counters same_counters_trans);
    [apply same_counters_init_reddit | intros _; apply same_counters_init_openai].
Qed.

(** The cycle adds one same number, not negative, to both counters. *)
Lemma monitor_counters (E : Env) (s : St) :
  exists d,
    (0 <= d)%Z
    /\ comments_posted_today (counters (self (snd (run (monitor_subreddits E) s))))
       = (comments_posted_today (counters (self s)) + d)%Z
    /\ total_comments_posted (counters (self (snd (run (monitor_subreddits E) s))))
       = (total_comments_posted (counters (self s)) + d)%Z.
Proof.
  destruct (monitor_paced E s) as (summary & s' & Hrun & HN & _ & Ht & Htot & _).
  rewrite Hrun. simpl. eauto.
Qed.

Lemma apply_op_preserves (E : Env) (op : Op) (s : St) :
  counters_inv (self s) -> counters_inv (self (snd (run (apply_op E op) s))).
Proof.
  intros [H0 Hle]. destruct op; simpl apply_op.
  - destruct (monitor_paced E s) as (summary & s' & Hrun & HN & _ & Ht & Htot & _).
    rewrite (bind_ok _ _ _ _ _ Hrun). simpl.
    unfold counters_inv. lia.
  - unfold counters_inv. simpl. lia.
  - exact (conj H0 Hle).
  - exact (conj H0 Hle).
  - exact (conj H0 Hle).
  - pose proof (same_counters_reload_credentials E s) as Hsame.
    unfold same_counters in Hsame. unfold counters_inv. rewrite Hsame. auto.
  - exact (conj H0 Hle).
Qed.

(** C8.  Every bot that can exist has
    [0 <= comments_posted_today <= total_comments_posted]: the constructor
    leaves both at zero and every operation keeps the invariant.  The
    cycle adds the same number, not negative, to both counters, so the
    invariant holds after a cycle that it held before; the daily reset
    writes zero to [comments_posted_today] and leaves
    [total_comments_posted] as it was. *)
Theorem counters_invariant :
  (forall b, reachable b -> counters_inv b)
  /\ (forall E op s,
        counters_inv (self s) -> counters_inv (self (snd (run (apply_op E op) s))))
  /\ (forall E s,
        counters_inv (self s) ->
        counters_inv (self (snd (run (monitor_subreddits E) s))))
  /\ (forall E s,
        exists d,
          (0 <= d)%Z
          /\ comments_posted_today (counters (self (snd (run (monitor_subreddits E) s))))
             = (comments_posted_today (counters (self s)) + d)%Z
          /\ total_comments_posted (counters (self (snd (run (monitor_subreddits E) s))))
             = (total_comments_posted (counters (self s)) + d)%Z)
  /\ (forall s,
        comments_posted_today (counters (self (snd (run _reset_daily_counter s)))) = 0%Z
        /\ total_comments_posted (counters (self (snd (run _reset_daily_counter s))))
           = total_comments_posted (counters (self s))).
Proof.
  split; [|split; [|split; [|split]]].
  - intros b Hreach. induction Hreach as [E cfg cat creds w|E op b w t Hreach IH].
    + unfold RedditBot_init.
      assert (stable same_counters (_init_reddit_client E;; _init_openai_client E))
        as Hsame.
      { apply (stable_bind same_counters same_counters_trans);
          [apply same_counters_init_reddit
          | intros _; apply same_counters_init_openai]. }
      specialize (Hsame (init_state cfg cat creds w)).
      unfold same_counters in Hsame. unfold counters_inv. rewrite Hsame.
      simpl. lia.
    + now apply apply_op_preserves.
  - intros E op s. apply apply_op_preserves.
  - intros E s [H0 Hle].
    destruct (monitor_counters E s) as (d & Hd & Ht & Htot).
    unfold counters_inv. lia.
  - intros E s. apply monitor_counters.
  - intros s. split; reflexivity.
Qed.

(** ** The scenario of the specification *)

(** One post asking for a sleep fix, one product with the keyword
    [sleep], no text generator, dry run: the post passes the filter, the
    product is selected with score 1, the comment is the first template
    filled with the product, the gate returns [True] without a network
    call other than the listing, both counters become 1 and the clock has
    moved by the 300 seconds of the delay. *)
Example demo_cycle :
  filter_post demo_config (clock demo_world) demo_post
  = {| passed := true; reason := None |}
  /\ select_product (products demo_catalog) demo_post = Ok (Some demo_selection)
  /\ fst (run (_generate_comment (demo_env 0) demo_post demo_selection default_persona)
            demo_state)
     = Ok ("I found a solution to this problem! Resonant Console really helped me. "
           +:+ "You can find it here: "
           +:+ "https://qilifestore.com/collections/qi-coils/products/resonant-console")
  /\ run (monitor_subreddits (demo_env 0)) demo_state
     = (Ok (StatsSummary
              {| st_subreddits_checked := 1; st_posts_analyzed := 1;
                 st_posts_filtered := 0; st_posts_selected := 1;
                 st_comments_posted := 1; st_timestamp := 3600 |}),
        {| self :=
             set_counters
               (fun _ => {| comments_posted_today := 1; total_comments_posted := 1;
                            last_comment_time := 3600; posts_analyzed := 1;
                            posts_filtered := 0; posts_selected := 1 |})
               demo_bot;
           world := {| clock := 3900; draws := 2; net := [NetFetch "demo" 20] |};
           stats := {| st_subreddits_checked := 1; st_posts_analyzed := 1;
                       st_posts_filtered := 0; st_posts_selected := 1;
                       st_comments_posted := 1; st_timestamp := 3600 |} |}).
Proof. repeat split; vm_compute; reflexivity. Qed.

(** ** Steps that only draw and call *)

Lemma io_ok_refl (s : St) : io_ok s s.
Proof.
  split; [repeat split|]. exists []. split; [now rewrite app_nil_r | constructor].
Qed.

Lemma io_ok_trans (a b c : St) : io_ok a b -> io_ok b c -> io_ok a c.
Proof.
  intros [(Hs1 & Ht1 & Hc1) (evs1 & Hn1 & Hp1)] [(Hs2 & Ht2 & Hc2) (evs2 & Hn2 & Hp2)].
  split; [repeat split; congruence|].
  exists (evs1 ++ evs2). split.
  - rewrite Hn2, Hn1. now rewrite app_assoc.
  - apply Forall_app. split; [exact Hp1|]. now rewrite <- Hs1.
Qed.

(** A step that changes nothing but the number of draws. *)
Lemma io_ok_same_net (s s' : St) :
  self s' = self s -> stats s' = stats s -> clock (world s') = clock (world s) ->
  net (world s') = net (world s) -> io_ok s s'.
Proof.
  intros Hs Ht Hc Hn. split; [repeat split; assumption|].
  exists []. split; [now rewrite app_nil_r | constructor].
Qed.

Lemma io_ok_random_choice {A} (E : Env) (seq : list A) :
  stable io_ok (random_choice E seq).
Proof.
  intros s. unfold run, random_choice.
  destruct seq; apply io_ok_same_net; reflexivity.
Qed.

Ltac stable_io :=
  repeat first
    [ apply (stable_bind io_ok io_ok_trans); [|intros ?]
    | apply (stable_try io_ok io_ok_trans); [|intros ?]
    | apply (stable_ret io_ok io_ok_refl)
    | apply (stable_raise io_ok io_ok_refl)
    | apply (stable_lift io_ok io_ok_refl)
    | apply (stable_get_self io_ok io_ok_refl)
    | apply (stable_get_world io_ok io_ok_refl)
    | apply (stable_get_stats io_ok io_ok_refl)
    | apply io_ok_random_choice ].

Lemma io_ok_template_comment (E : Env) (product : SelectedProduct) :
  stable io_ok (template_comment E product).
Proof. unfold template_comment. stable_io. Qed.

Lemma io_ok_select_persona (E : Env) : stable io_ok (_select_persona E).
Proof.
  unfold _select_persona. stable_io.
  match goal with
  | |- context [personas (catalog ?b)] => destruct (personas (catalog b))
  end; stable_io.
Qed.

(** Without a usable generator the composer is the template branch and
    its handler. *)
Lemma generate_comment_template_mode (E : Env) (post : Post)
    (product : SelectedProduct) (persona : SelectedPersona) (s : St) :
  openai_client (self s) = None
  \/ PyStr.truthy_opt (openai_model (self s)) = false ->
  run (_generate_comment E post product persona) s
  = run (try_except (template_comment E product)
                    (fun _ => template_comment E product)) s.
Proof.
  intros Hoff.
  unfold _generate_comment, run, try_except, mbind, M_bind, get_self.
  cbv beta iota.
  destruct (openai_model (self s)) as [model|]; [|reflexivity].
  destruct (openai_client (self s)); [|reflexivity].
  destruct Hoff as [Hc|Hm]; [discriminate|].
  simpl in Hm. now rewrite Hm.
Qed.

(** With a generator it is the call, and the template branch as handler. *)
Lemma generate_comment_generative_mode (E : Env) (post : Post)
    (product : SelectedProduct) (persona : SelectedPersona) (s : St)
    (model : string) :
  openai_client (self s) <> None ->
  openai_model (self s) = Some model ->
  PyStr.truthy model = true ->
  run (_generate_comment E post product persona) s
  = run (try_except
           (content ← chat_completions_create E model
                        (build_prompt post product persona);
            mret (PyStr.strip content))
           (fun _ => template_comment E product)) s.
Proof.
  intros Hc Hm Ht.
  unfold _generate_comment, run, try_except, mbind, M_bind, get_self.
  cbv beta iota. rewrite Hm.
  destruct (openai_client (self s)); [|contradiction].
  now rewrite Ht.
Qed.

Lemma io_ok_generate_comment (E : Env) (post : Post) (product : SelectedProduct)
    (persona : SelectedPersona) :
  stable io_ok (_generate_comment E post product persona).
Proof.
  intros s.
  destruct (openai_client (self s)) as [client|] eqn:Hclient.
  2:{ rewrite generate_comment_template_mode by auto.
      apply (stable_try io_ok io_ok_trans);
        [|intros e]; apply io_ok_template_comment. }
  destruct (openai_model (self s)) as [model|] eqn:Hmodel.
  2:{ rewrite generate_comment_template_mode by (right; now rewrite Hmodel).
      apply (stable_try io_ok io_ok_trans);
        [|intros e]; apply io_ok_template_comment. }
  destruct (PyStr.truthy model) eqn:Htruthy.
  2:{ rewrite generate_comment_template_mode by (right; now rewrite Hmodel).
      apply (stable_try io_ok io_ok_trans);
        [|intros e]; apply io_ok_template_comment. }
  rewrite (generate_comment_generative_mode E post product persona s model)
    by (auto; congruence).
  set (prompt := build_prompt post product persona).
  set (s_c := with_world s (record_net (NetGenerate model prompt) (world s))).
  assert (io_ok s s_c) as Hcall.
  { split; [repeat split|]. exists [NetGenerate model prompt].
    split; [reflexivity|]. constructor; [|constructor].
    simpl. repeat split; auto. congruence. }
  unfold run, try_except, mbind, M_bind, chat_completions_create.
  destruct (chat_completion E (length (net (world s))) model prompt) as [content|e].
  - exact Hcall.
  - eapply io_ok_trans; [exact Hcall|]. apply io_ok_template_comment.
Qed.

Lemma io_ok_post_comment (E : Env) (post : Post) (comment : string) :
  stable io_ok (_post_comment E post comment).
Proof.
  intros s. unfold _post_comment, reply. run_simpl.
  destruct (dry_run (config (self s))) eqn:Hdry; [apply io_ok_refl|].
  destruct (reddit (self s)) as [client|] eqn:Hreddit; [|apply io_ok_refl].
  assert (io_ok s (with_world s (record_net (NetReply (post_id post) comment) (world s))))
    as Hcall.
  { split; [repeat split|]. exists [NetReply (post_id post) comment].
    split; [reflexivity|]. constructor; [|constructor].
    simpl. split; [exact Hdry | congruence]. }
  simpl. destruct (post_reply E (length (net (world s))) post comment); exact Hcall.
Qed.

(** ** The ways through one post *)

(** One post ends in one of three ways: rejected by the filter; left
    after the matcher found nothing; or selected, after which only draws
    and permitted calls happen and the submission is recorded or not. *)
Lemma process_post_steps (E : Env) (post : Post) (s : St) :
  let s' := snd (run (process_post E post) s) in
  let s1 := after_analyzed s in
  s' = after_filtered s1
  \/ s' = s1
  \/ exists s3, io_ok (after_selected s1) s3 /\ (s' = s3 \/ s' = recorded s3).
Proof.
  simpl. unfold process_post.
  set (s1 := after_analyzed s).
  set (s0 := {| self := self s; world := world s;
                stats := stats_incr_posts_analyzed (stats s) |}).
  rewrite (bind_ok (modify_stats stats_incr_posts_analyzed) _ s s0 tt eq_refl).
  rewrite (bind_ok (modify_self (set_counters incr_posts_analyzed)) _ s0 s1 tt eq_refl).
  rewrite (bind_ok (_filter_post post) _ s1 s1
             (filter_post (config (self s)) (clock (world s)) post) eq_refl).
  destruct (passed (filter_post (config (self s)) (clock (world s)) post));
    simpl negb; cbv iota.
  2:{ left. reflexivity. }
  right.
  assert (run (_select_product_for_post post) s1
          = (select_product (products (catalog (self s))) post, s1)) as Hsp
    by reflexivity.
  destruct (select_product (products (catalog (self s))) post) as [[sel|]|e].
  2:{ left. now rewrite (bind_ok _ _ _ _ _ Hsp). }
  2:{ left. now rewrite (bind_raise _ _ _ _ _ Hsp). }
  right. rewrite (bind_ok _ _ _ _ _ Hsp).
  set (s_sel := after_selected s1).
  set (s_st := {| self := self s1; world := world s1;
                  stats := stats_incr_posts_selected (stats s1) |}).
  rewrite (bind_ok (modify_stats stats_incr_posts_selected) _ s1 s_st tt eq_refl).
  rewrite (bind_ok (modify_self (set_counters incr_posts_selected)) _ s_st s_sel tt eq_refl).
  destruct (run (_select_persona E) s_sel) as [[persona|e] s_p] eqn:Hp.
  2:{ rewrite (bind_raise _ _ _ _ _ Hp). exists s_p. split; [|now left].
      exact (stable_run io_ok _ _ _ _ (io_ok_select_persona E) Hp). }
  rewrite (bind_ok _ _ _ _ _ Hp).
  pose proof (stable_run io_ok _ _ _ _ (io_ok_select_persona E) Hp) as Hio1.
  destruct (run (_generate_comment E post sel persona) s_p) as [[comment|e] s2] eqn:Hg.
  2:{ rewrite (bind_raise _ _ _ _ _ Hg). exists s2. split; [|now left].
      eapply io_ok_trans; [exact Hio1|].
      exact (stable_run io_ok _ _ _ _ (io_ok_generate_comment E post sel persona) Hg). }
  rewrite (bind_ok _ _ _ _ _ Hg).
  assert (io_ok s_sel s2) as Hio2.
  { eapply io_ok_trans; [exact Hio1|].
    exact (stable_run io_ok _ _ _ _ (io_ok_generate_comment E post sel persona) Hg). }
  destruct (run (_post_comment E post comment) s2) as [[posted|e] s3] eqn:Hpc.
  2:{ rewrite (bind_raise _ _ _ _ _ Hpc). exists s3. split; [|now left].
      eapply io_ok_trans; [exact Hio2|].
      exact (stable_run io_ok _ _ _ _ (io_ok_post_comment E post comment) Hpc). }
  rewrite (bind_ok _ _ _ _ _ Hpc).
  exists s3. split.
  { eapply io_ok_trans; [exact Hio2|].
    exact (stable_run io_ok _ _ _ _ (io_ok_post_comment E post comment) Hpc). }
  destruct posted; [right | left; reflexivity].
  now rewrite record_and_pace_run.
Qed.


(** ** The ledger of a cycle *)

Lemma ledger_trans (d1 d2 : Ledger) (a b c : St) :
  ledger d1 a b -> ledger d2 b c -> ledger (ledger_add d1 d2) a c.
Proof.
  unfold ledger, ledger_add. simpl. intros H1 H2.
  destruct H1 as (A1 & A2 & A3 & A4 & A5 & A6 & A7 & A8 & A9 & A10).
  destruct H2 as (B1 & B2 & B3 & B4 & B5 & B6 & B7 & B8 & B9 & B10).
  repeat split; lia.
Qed.

Lemma balanced_add (d1 d2 : Ledger) :
  balanced d1 -> balanced d2 -> balanced (ledger_add d1 d2).
Proof. unfold balanced, ledger_add. simpl. lia. Qed.

Ltac ledger_by_computation :=
  unfold ledger; simpl; repeat split; lia.

(** One post counts once as analysed, and its counts are balanced. *)
Lemma process_post_ledger (E : Env) (post : Post) (s : St) :
  exists d,
    ledger d s (snd (run (process_post E post) s))
    /\ balanced d /\ d_checked d = 0%Z /\ d_analyzed d = 1%Z.
Proof.
  destruct (process_post_steps E post s)
    as [->|[->|(s3 & [(Hself & Hstats & _) _] & [->| ->])]].
  - exists {| d_checked := 0; d_analyzed := 1; d_filtered := 1;
              d_selected := 0; d_comments := 0 |}.
    split; [ledger_by_computation|]. unfold balanced. simpl. lia.
  - exists {| d_checked := 0; d_analyzed := 1; d_filtered := 0;
              d_selected := 0; d_comments := 0 |}.
    split; [ledger_by_computation|]. unfold balanced. simpl. lia.
  - exists {| d_checked := 0; d_analyzed := 1; d_filtered := 0;
              d_selected := 1; d_comments := 0 |}.
    split; [|unfold balanced; simpl; lia].
    unfold ledger. rewrite Hself, Hstats. simpl. repeat split; lia.
  - exists {| d_checked := 0; d_analyzed := 1; d_filtered := 0;
              d_selected := 1; d_comments := 1 |}.
    split; [|unfold balanced; simpl; lia].
    unfold ledger, recorded. simpl. rewrite Hself, Hstats. simpl.
    repeat split; lia.
Qed.

(** The loop over the posts of a listing analyses at most all of them. *)
Lemma posts_ledger (E : Env) (posts : list Post) (s : St) :
  exists d,
    ledger d s (snd (run (for_each (process_post E) posts) s))
    /\ balanced d /\ d_checked d = 0%Z
    /\ (0 <= d_analyzed d <= Z.of_nat (length posts))%Z.
Proof.
  revert s. induction posts as [|post posts IH]; intros s.
  - exists {| d_checked := 0; d_analyzed := 0; d_filtered := 0;
              d_selected := 0; d_comments := 0 |}.
    split; [ledger_by_computation|]. unfold balanced. simpl. lia.
  - destruct (process_post_ledger E post s) as (d1 & Hl1 & Hb1 & Hc1 & Ha1).
    simpl for_each.
    destruct (run (process_post E post) s) as [[[]|e] s1] eqn:Hrun.
    + rewrite (bind_ok _ _ _ _ _ Hrun).
      destruct (IH s1) as (d2 & Hl2 & Hb2 & Hc2 & Ha2).
      exists (ledger_add d1 d2). simpl in Hl1.
      split; [eapply ledger_trans; eauto|].
      split; [now apply balanced_add|].
      unfold ledger_add. simpl length. simpl. lia.
    + rewrite (bind_raise _ _ _ _ _ Hrun).
      exists d1. split; [exact Hl1|]. split; [exact Hb1|]. split; [exact Hc1|].
      simpl length. lia.
Qed.

(** A subreddit is always counted as checked, never raises, and at most
    twenty of its posts are analysed. *)
Lemma process_subreddit_ledger (E : Env) (name : string) (s : St) :
  exists s',
    run (process_subreddit E name) s = (Ok tt, s')
    /\ exists d, ledger d s s' /\ balanced d /\ d_checked d = 1%Z
                 /\ (0 <= d_analyzed d <= 20)%Z.
Proof.
  unfold process_subreddit.
  set (s_c := {| self := self s; world := world s;
                 stats := stats_incr_subreddits_checked (stats s) |}).
  set (s_f := with_world s_c (record_net (NetFetch name 20) (world s_c))).
  assert (ledger {| d_checked := 1; d_analyzed := 0; d_filtered := 0;
                    d_selected := 0; d_comments := 0 |} s s_f) as Hfetch
    by ledger_by_computation.
  unfold run, try_except.
  rewrite (bind_ok (modify_stats stats_incr_subreddits_checked) _ s s_c tt eq_refl
           : (modify_stats stats_incr_subreddits_checked ≫= _) s = _).
  destruct (subreddit_new E (length (net (world s))) name) as [posts|e] eqn:Hnew.
  - assert (run (fetch_new E name 20) s_c = (Ok (firstn 20 posts), s_f)) as Hf.
    { unfold run, fetch_new. simpl. now rewrite Hnew. }
    rewrite (bind_ok _ _ _ _ _ Hf).
    destruct (posts_ledger E (firstn 20 posts) s_f) as (d & Hl & Hb & Hc & Ha).
    assert (Z.of_nat (length (firstn 20 posts)) <= 20)%Z as Hlen.
    { rewrite length_firstn. lia. }
    assert (exists d', ledger d' s (snd (run (for_each (process_post E) (firstn 20 posts)) s_f))
                       /\ balanced d' /\ d_checked d' = 1%Z
                       /\ (0 <= d_analyzed d' <= 20)%Z) as Hall.
    { eexists. split; [eapply ledger_trans; [exact Hfetch | exact Hl]|].
      split; [apply balanced_add; [unfold balanced; simpl; lia | exact Hb]|].
      unfold ledger_add. simpl. lia. }
    destruct (run (for_each (process_post E) (firstn 20 posts)) s_f) as [[[]|e] s2];
      simpl in Hall; eauto.
  - assert (run (fetch_new E name 20) s_c = (Raise e, s_f)) as Hf.
    { unfold run, fetch_new. simpl. now rewrite Hnew. }
    rewrite (bind_raise _ _ _ _ _ Hf). simpl.
    eexists. split; [reflexivity|]. eexists. split; [exact Hfetch|].
    unfold balanced. simpl. lia.
Qed.

(** The loop over the subreddits checks every one of them. *)
Lemma subreddits_ledger (E : Env) (names : list string) (s : St) :
  exists s',
    run (for_each (process_subreddit E) names) s = (Ok tt, s')
    /\ exists d, ledger d s s' /\ balanced d
                 /\ d_checked d = Z.of_nat (length names)
                 /\ (0 <= d_analyzed d <= 20 * Z.of_nat (length names))%Z.
Proof.
  revert s. induction names as [|name names IH]; intros s.
  - exists s. split; [reflexivity|].
    exists {| d_checked := 0; d_analyzed := 0; d_filtered := 0;
              d_selected := 0; d_comments := 0 |}.
    split; [ledger_by_computation|]. unfold balanced. simpl. lia.
  - destruct (process_subreddit_ledger E name s)
      as (s1 & Hrun & d1 & Hl1 & Hb1 & Hc1 & Ha1).
    destruct (IH s1) as (s2 & Hrun2 & d2 & Hl2 & Hb2 & Hc2 & Ha2).
    exists s2. simpl for_each. rewrite (bind_ok _ _ _ _ _ Hrun).
    split; [exact Hrun2|].
    exists (ledger_add d1 d2).
    split; [eapply ledger_trans; eauto|].
    split; [now apply balanced_add|].
    unfold ledger_add. simpl length. simpl. lia.
Qed.

(** A running cycle: its summary is the ledger of its loop. *)
Lemma monitor_ledger (E : Env) (s : St) :
  running E s ->
  exists s',
    run (monitor_subreddits E) s = (Ok (StatsSummary (stats s')), s')
    /\ exists d, ledger d (cycle_start s) s' /\ balanced d
                 /\ d_checked d = Z.of_nat (length (subreddits (config (self s))))
                 /\ (0 <= d_analyzed d <= 20 * d_checked d)%Z.
Proof.
  intros (Hsome & Hact & Hin).
  destruct (subreddits_ledger E (subreddits (config (self s))) (cycle_start s))
    as (s' & Hrun & d & Hl & Hb & Hc & Ha).
  exists s'. split.
  - rewrite (monitor_running E s Hsome Hact Hin).
    unfold cycle_loop, run, try_except. unfold run in Hrun. now rewrite Hrun.
  - exists d. split; [exact Hl|]. split; [exact Hb|]. split; [exact Hc|].
    rewrite Hc. exact Ha.
Qed.

(** The three ways through [monitor_subreddits]. *)
Lemma monitor_cases (E : Env) (s : St) :
  (reddit (self s) = None
   /\ run (monitor_subreddits E) s
      = (Ok (ErrorSummary "Client Reddit non initialisé" 0), s))
  \/ (reddit (self s) <> None
      /\ run (monitor_subreddits E) s
         = (Ok (StatsSummary (zero_stats (clock (world s)))), cycle_start s))
  \/ running E s.
Proof.
  assert (reddit (self s) = None \/ reddit (self s) <> None) as [Hnone|Hsome]
    by (destruct (reddit (self s)); [right; discriminate | left; reflexivity]).
  { left. split; [exact Hnone|]. now apply monitor_without_client. }
  right.
  assert (active (self s) = false \/ active (self s) = true) as [Hstop|Hact]
    by (destruct (active (self s)); auto).
  { left. split; [exact Hsome|]. now apply monitor_stopped. }
  assert (in_active_hours E s = false \/ in_active_hours E s = true) as [Hout|Hin]
    by (destruct (in_active_hours E s); auto).
  { left. split; [exact Hsome|]. now apply monitor_outside_hours. }
  right. repeat split; auto.
Qed.

(** X1.  A cycle always returns, and the counters of the day on the bot
    grow by exactly the counts of the summary it returns: posts
    analysed, filtered and selected, and comments posted.  With the error
    dictionary nothing at all has changed. *)
Theorem cycle_day_counters_follow_summary (E : Env) (s : St) :
  exists summary s',
    run (monitor_subreddits E) s = (Ok summary, s')
    /\ match summary with
       | ErrorSummary _ n => n = 0%Z /\ s' = s
       | StatsSummary t =>
           stats s' = t
           /\ posts_analyzed (counters (self s'))
              = (posts_analyzed (counters (self s)) + st_posts_analyzed t)%Z
           /\ posts_filtered (counters (self s'))
              = (posts_filtered (counters (self s)) + st_posts_filtered t)%Z
           /\ posts_selected (counters (self s'))
              = (posts_selected (counters (self s)) + st_posts_selected t)%Z
           /\ comments_posted_today (counters (self s'))
              = (comments_posted_today (counters (self s)) + st_comments_posted t)%Z
           /\ total_comments_posted (counters (self s'))
              = (total_comments_posted (counters (self s)) + st_comments_posted t)%Z
       end.
Proof.
  destruct (monitor_cases E s) as [[_ Hrun]|[[_ Hrun]|Hrunning]].
  - eexists. eexists. split; [exact Hrun|]. split; reflexivity.
  - eexists. eexists. split; [exact Hrun|]. simpl. repeat split; lia.
  - destruct (monitor_ledger E s Hrunning) as (s' & Hrun & d & Hl & _).
    eexists. eexists. split; [exact Hrun|].
    destruct Hl as (_ & A2 & A3 & A4 & A5 & A6 & A7 & A8 & A9 & A10).
    simpl in *. repeat split; lia.
Qed.

(** X2.  The counts of a summary fit together: the comments posted are
    at most the posts selected, the posts filtered and the posts selected
    together are at most the posts analysed, at most twenty posts are
    analysed for each subreddit checked, and no more subreddits are
    checked than are configured. *)
Theorem cycle_summary_balanced (E : Env) (s : St) :
  match fst (run (monitor_subreddits E) s) with
  | Ok (StatsSummary t) =>
      (0 <= st_comments_posted t <= st_posts_selected t)%Z
      /\ (0 <= st_posts_filtered t)%Z
      /\ (st_posts_filtered t + st_posts_selected t <= st_posts_analyzed t)%Z
      /\ (st_posts_analyzed t <= 20 * st_subreddits_checked t)%Z
      /\ (0 <= st_subreddits_checked t
          <= Z.of_nat (length (subreddits (config (self s)))))%Z
  | Ok (ErrorSummary _ n) => n = 0%Z
  | Raise _ => False
  end.
Proof.
  destruct (monitor_cases E s) as [[_ Hrun]|[[_ Hrun]|Hrunning]].
  - rewrite Hrun. reflexivity.
  - rewrite Hrun. simpl. lia.
  - destruct (monitor_ledger E s Hrunning)
      as (s' & Hrun & d & Hl & (Hb1 & Hb2 & Hb3) & Hc & Ha).
    rewrite Hrun. simpl.
    destruct Hl as (A1 & A2 & A3 & A4 & A5 & _). simpl in *. lia.
Qed.



(** ** The network calls of a cycle *)

Lemma permitted_same_base (s s' : St) (ev : NetEvent) :
  base_view s' = base_view s -> permitted (self s') ev -> permitted (self s) ev.
Proof.
  unfold base_view. intros Hb.
  assert (config (self s') = config (self s)) as Hc by congruence.
  assert (reddit (self s') = reddit (self s)) as Hr by congruence.
  assert (openai_client (self s') = openai_client (self s)) as Ho by congruence.
  assert (openai_model (self s') = openai_model (self s)) as Hm by congruence.
  destruct ev; simpl; rewrite ?Hc, ?Hr, ?Ho, ?Hm; auto.
Qed.

Lemma net_ok_refl (s : St) : net_ok s s.
Proof.
  split; [reflexivity|]. exists []. split; [now rewrite app_nil_r | constructor].
Qed.

Lemma net_ok_trans (a b c : St) : net_ok a b -> net_ok b c -> net_ok a c.
Proof.
  intros [Hb1 (evs1 & Hn1 & Hp1)] [Hb2 (evs2 & Hn2 & Hp2)].
  split; [congruence|]. exists (evs1 ++ evs2). split.
  - rewrite Hn2, Hn1. now rewrite app_assoc.
  - apply Forall_app. split; [exact Hp1|].
    eapply Forall_impl; [exact Hp2|].
    intros ev. now apply permitted_same_base.
Qed.

Lemma io_ok_net_ok (s s' : St) : io_ok s s' -> net_ok s s'.
Proof.
  intros [(Hs & _) Hev]. split; [|exact Hev]. unfold base_view. now rewrite Hs.
Qed.

(** A state with the same clients, settings and network log. *)
Lemma net_ok_same (s s' : St) :
  base_view s' = base_view s -> net (world s') = net (world s) -> net_ok s s'.
Proof.
  intros Hb Hn. split; [exact Hb|].
  exists []. split; [now rewrite app_nil_r | constructor].
Qed.

Lemma net_ok_process_post (E : Env) (post : Post) : stable net_ok (process_post E post).
Proof.
  intros s.
  destruct (process_post_steps E post s) as [->|[->|(s3 & Hio & [->| ->])]].
  - now apply net_ok_same.
  - now apply net_ok_same.
  - eapply net_ok_trans; [|apply io_ok_net_ok; exact Hio]. now apply net_ok_same.
  - eapply net_ok_trans; [|eapply net_ok_trans; [apply io_ok_net_ok; exact Hio|]].
    + now apply net_ok_same.
    + apply net_ok_same; [reflexivity|].
      unfold recorded. simpl.
      destruct (sleeps (comment_rate_limit_seconds (config (self s3)))); reflexivity.
Qed.

Lemma net_ok_process_subreddit (E : Env) (name : string) :
  stable net_ok (process_subreddit E name).
Proof.
  unfold process_subreddit.
  apply (stable_try net_ok net_ok_trans); [|intros e; apply (stable_ret net_ok net_ok_refl)].
  apply (stable_bind net_ok net_ok_trans).
  { intros s. now apply net_ok_same. }
  intros _. apply (stable_bind net_ok net_ok_trans).
  { intros s. split; [reflexivity|]. exists [NetFetch name 20].
    split; [reflexivity|]. constructor; [reflexivity | constructor]. }
  intros posts. apply (stable_for_each net_ok net_ok_refl net_ok_trans).
  intros post. apply net_ok_process_post.
Qed.

(** Whatever a cycle does, the bot keeps its settings and clients, and
    every network call made is permitted. *)
Lemma monitor_net_ok (E : Env) (s : St) :
  net_ok s (snd (run (monitor_subreddits E) s)).
Proof.
  destruct (monitor_cases E s) as [[_ Hrun]|[[_ Hrun]|(Hsome & Hact & Hin)]].
  - rewrite Hrun. apply net_ok_refl.
  - rewrite Hrun. now apply net_ok_same.
  - rewrite (monitor_running E s Hsome Hact Hin). simpl.
    eapply net_ok_trans; [apply (net_ok_same s (cycle_start s)); reflexivity|].
    unfold cycle_loop.
    apply (stable_try net_ok net_ok_trans); [|intros e; apply (stable_ret net_ok net_ok_refl)].
    apply (stable_for_each net_ok net_ok_refl net_ok_trans).
    intros name. apply net_ok_process_subreddit.
Qed.

(** X4.  In dry-run mode a cycle never calls [post.reply]: whatever the
    posts, the catalogue and the outcomes of the other calls, no reply is
    among the network calls it adds. *)
Theorem dry_run_cycle_never_replies (E : Env) (s : St) :
  dry_run (config (self s)) = true ->
  exists evs,
    net (world (snd (run (monitor_subreddits E) s))) = net (world s) ++ evs
    /\ forall pid text, ~ In (NetReply pid text) evs.
Proof.
  intros Hdry. destruct (monitor_net_ok E s) as [_ (evs & Hnet & Hperm)].
  exists evs. split; [exact Hnet|].
  intros pid text Hin. rewrite Forall_forall in Hperm.
  apply list_elem_of_In in Hin.
  destruct (Hperm _ Hin) as [Hfalse _]. congruence.
Qed.

Lemma dry_run_cycle_never_replies_witness :
  exists evs,
    net (world (snd (run (monitor_subreddits (demo_env 0)) demo_state)))
    = net (world demo_state) ++ evs
    /\ forall pid text, ~ In (NetReply pid text) evs.
Proof.
  apply (dry_run_cycle_never_replies (demo_env 0) demo_state). reflexivity.
Defined.

(** X5.  Without a generator client, or without a model name, a cycle
    never calls the text generator; and no cycle ever logs in again. *)
Theorem cycle_generates_only_when_configured (E : Env) (s : St) :
  exists evs,
    net (world (snd (run (monitor_subreddits E) s))) = net (world s) ++ evs
    /\ (forall username, ~ In (NetLogin username) evs)
    /\ (openai_client (self s) = None
        \/ PyStr.truthy_opt (openai_model (self s)) = false ->
        forall model prompt, ~ In (NetGenerate model prompt) evs).
Proof.
  destruct (monitor_net_ok E s) as [_ (evs & Hnet & Hperm)].
  exists evs. split; [exact Hnet|]. rewrite Forall_forall in Hperm. split.
  - intros username Hin. apply list_elem_of_In in Hin. exact (Hperm _ Hin).
  - intros Hoff model prompt Hin. apply list_elem_of_In in Hin.
    destruct (Hperm _ Hin) as (Hclient & Hmodel & Htruthy).
    destruct Hoff as [Hnone|Hfalsy]; [contradiction|].
    rewrite Hmodel in Hfalsy. simpl in Hfalsy. congruence.
Qed.

(** X6.  A cycle never writes the configuration, the started flag, the
    two clients, the model name, the catalogue or the stored credentials. *)
Theorem cycle_keeps_settings (E : Env) (s : St) :
  let b' := self (snd (run (monitor_subreddits E) s)) in
  config b' = config (self s)
  /\ active b' = active (self s)
  /\ reddit b' = reddit (self s)
  /\ openai_client b' = openai_client (self s)
  /\ openai_model b' = openai_model (self s)
  /\ catalog b' = catalog (self s)
  /\ credentials b' = credentials (self s).
Proof.
  destruct (monitor_net_ok E s) as [Hbase _]. unfold base_view in Hbase.
  simpl. repeat split; congruence.
Qed.

(** ** Edges of the filter and of the active hours *)

Lemma empty_keyword_occurs (text : string) : occurs_ignoring_case "" text.
Proof. exists EmptyString, EmptyString, text. split; reflexivity. Qed.

(** X7.  An empty string among the forbidden keywords rejects every
    post (of ASCII text, as the keywords): the empty string is a
    substring of any text. *)
Theorem empty_forbidden_keyword_rejects_all (cfg : BotConfig) (now : Q) (post : Post) :
  ascii_post post = true ->
  ascii_keywords (forbidden_keywords cfg) = true ->
  In EmptyString (forbidden_keywords cfg) ->
  passed (filter_post cfg now post) = false.
Proof.
  intros _ _ Hin.
  assert (rule_fails cfg now post RuleKeyword) as Hfail.
  { exists EmptyString. split; [exact Hin | apply empty_keyword_occurs]. }
  destruct (filter_post_cases cfg now post)
    as [(_ & Hv)|[(_ & _ & Hv)|[(_ & _ & k & _ & Hv)
       |[(_ & _ & _ & _ & Hv)|(_ & _ & Hk & _)]]]];
    try (simpl in Hv; rewrite Hv; reflexivity).
  contradiction.
Qed.

Lemma empty_forbidden_keyword_rejects_all_witness :
  passed (filter_post trailing_comma_config (clock demo_world) demo_post) = false.
Proof.
  apply (empty_forbidden_keyword_rejects_all trailing_comma_config).
  - reflexivity.
  - reflexivity.
  - simpl. auto.
Defined.

(** X8.  When [active_hours_end <= active_hours_start] no hour is
    active: a window over midnight does not wrap around, and every cycle
    of a bot with a forum client returns the summary of zeros. *)
Theorem overnight_window_is_never_active (E : Env) (s : St) :
  (active_hours_end (config (self s)) <= active_hours_start (config (self s)))%Z ->
  run (_is_active_hour E) s = (Ok false, s)
  /\ (reddit (self s) <> None ->
      run (monitor_subreddits E) s
      = (Ok (StatsSummary (zero_stats (clock (world s)))), cycle_start s)).
Proof.
  intros Hle.
  assert (in_active_hours E s = false) as Hout.
  { apply in_active_hours_false. lia. }
  split.
  - unfold _is_active_hour. run_simpl. unfold in_active_hours in Hout.
    now rewrite Hout.
  - intros Hsome. now apply monitor_outside_hours.
Qed.

Lemma overnight_window_is_never_active_witness :
  run (_is_active_hour (demo_env 0)) overnight_state = (Ok false, overnight_state).
Proof.
  refine (proj1 (overnight_window_is_never_active (demo_env 0) overnight_state _)).
  simpl. lia.
Defined.

(** ** More on the matcher *)

(** [max] returns the first of the elements of greatest key. *)
Lemma max_loop_first (keyf : string -> Z) (l : list string) :
  forall pre best mid,
    (forall x, In x pre -> (keyf x < keyf best)%Z) ->
    (forall x, In x mid -> (keyf x <= keyf best)%Z) ->
    exists before after,
      pre ++ best :: mid ++ l
      = before ++ max_loop keyf best (keyf best) l :: after
      /\ (forall x, In x before ->
                    (keyf x < keyf (max_loop keyf best (keyf best) l))%Z)
      /\ (forall x, In x after ->
                    (keyf x <= keyf (max_loop keyf best (keyf best) l))%Z).
Proof.
  induction l as [|y l IH]; intros pre best mid Hpre Hmid; simpl.
  - exists pre, mid. rewrite app_nil_r. auto.
  - destruct (Z.ltb_spec (keyf best) (keyf y)) as [Hlt|Hge].
    + destruct (IH (pre ++ best :: mid) y []) as (before & after & Heq & Hb & Ha).
      * intros x Hx. apply in_app_or in Hx as [Hx|[<-|Hx]].
        -- specialize (Hpre x Hx). lia.
        -- exact Hlt.
        -- specialize (Hmid x Hx). lia.
      * intros x [].
      * exists before, after. split; [|auto].
        rewrite <- Heq. simpl. now rewrite <- app_assoc.
    + destruct (IH pre best (mid ++ [y])) as (before & after & Heq & Hb & Ha).
      * exact Hpre.
      * intros x Hx. apply in_app_or in Hx as [Hx|[<-|[]]]; [auto | lia].
      * exists before, after. split; [|auto].
        rewrite <- Heq. now rewrite <- app_assoc.
Qed.

Lemma positive_scores_app (a b : list (string * Product)) (post : Post) :
  positive_scores (a ++ b) post = positive_scores a post ++ positive_scores b post.
Proof.
  induction a as [|[pid p] a IH]; simpl; [reflexivity|].
  destruct (0 <? match_count p post)%Z; simpl; now rewrite IH.
Qed.

(** A list without repetition splits at an element in one way. *)
Lemma NoDup_split_unique {A} (x : A) (a b a' b' : list A) :
  NoDup (a ++ x :: b) -> a ++ x :: b = a' ++ x :: b' -> a = a'.
Proof.
  revert a'. induction a as [|y a IH]; intros a' Hnd Heq.
  - destruct a' as [|z a']; [reflexivity|].
    simpl in *. injection Heq as <- Heq.
    apply NoDup_cons in Hnd as [Hnot _]. exfalso. apply Hnot.
    rewrite Heq. apply list_elem_of_In. apply in_or_app. right. now left.
  - destruct a' as [|z a'].
    + simpl in *. injection Heq as -> Heq.
      apply NoDup_cons in Hnd as [Hnot _]. exfalso. apply Hnot.
      apply list_elem_of_In. apply in_or_app. right. now left.
    + simpl in *. injection Heq as <- Heq.
      apply NoDup_cons in Hnd as [_ Hnd]. f_equal. now apply IH.
Qed.

Lemma max_key_cons (k : string) (v : Z) (rest : list (string * Z)) :
  max_key ((k, v) :: rest)
  = Ok (max_loop (fun x => default 0%Z (dict_get ((k, v) :: rest) x)) k
          (default 0%Z (dict_get ((k, v) :: rest) k)) (map fst rest)).
Proof. reflexivity. Qed.

(** The matcher as a search in [positive_scores]. *)
Lemma select_product_unfold (prods : list (string * Product)) (post : Post) :
  NoDup (map fst prods) ->
  select_product prods post
  = match positive_scores prods post with
    | [] => Ok None
    | _ =>
        match max_key (positive_scores prods post) with
        | Raise e => Raise e
        | Ok best =>
            match dict_getitem (positive_scores prods post) best with
            | Raise e => Raise e
            | Ok best_score =>
                match dict_getitem prods best with
                | Raise e => Raise e
                | Ok product =>
                    Ok (Some {| sel_id := best; sel_score := best_score;
                                sel_product := product |})
                end
            end
        end
    end.
Proof.
  intros Hnd. unfold select_product.
  rewrite (score_products_eq prods post []) by exact Hnd.
  rewrite app_nil_l. destruct prods; reflexivity.
Qed.

(** X9.  Among the products of greatest score the matcher selects the
    one that comes first in the catalogue: every product before the
    selected one has a strictly smaller score. *)
Theorem matcher_tie_goes_to_first (prods : list (string * Product)) (post : Post)
    (sel : SelectedProduct) :
  ascii_post post = true ->
  ascii_catalogue prods = true ->
  NoDup (map fst prods) ->
  select_product prods post = Ok (Some sel) ->
  exists before after,
    prods = before ++ (sel_id sel, sel_product sel) :: after
    /\ (forall pid p, In (pid, p) before ->
                      (match_count p post < sel_score sel)%Z)
    /\ (forall pid p, In (pid, p) after ->
                      (match_count p post <= sel_score sel)%Z).
Proof.
  intros _ _ Hnd Hsel. rewrite (select_product_unfold prods post Hnd) in Hsel.
  pose proof (positive_scores_NoDup prods post Hnd) as Hnds.
  remember (positive_scores prods post) as ps eqn:Hps.
  destruct ps as [|[k0 v0] rest]; [discriminate|].
  cbv beta iota in Hsel. rewrite max_key_cons in Hsel.
  set (ps := (k0, v0) :: rest) in *.
  set (keyf := fun k => default 0%Z (dict_get ps k)) in *.
  set (best := max_loop keyf k0 (keyf k0) (map fst rest)) in *.
  destruct (max_loop_first keyf (map fst rest) [] k0 [])
    as (bk & ak & Hkeys & Hbk & Hak); [intros x [] | intros x [] |].
  fold best in Hkeys, Hbk, Hak. simpl in Hkeys.
  assert (map fst ps = bk ++ best :: ak) as Hkeys' by exact Hkeys.
  change (default 0%Z (dict_get ps k0)) with (keyf k0) in Hsel. fold best in Hsel.
  destruct (dict_getitem ps best) as [score|e] eqn:Hscore; [|discriminate].
  destruct (dict_getitem prods best) as [product|e] eqn:Hprod; [|discriminate].
  injection Hsel as <-. simpl.
  unfold dict_getitem in Hscore, Hprod.
  destruct (dict_get ps best) as [score'|] eqn:Hgs; [|discriminate].
  injection Hscore as ->.
  destruct (dict_get prods best) as [product'|] eqn:Hgp; [|discriminate].
  injection Hprod as ->.
  pose proof (dict_get_In _ _ _ Hgp) as Hin.
  destruct (in_split _ _ Hin) as (before & after & Hsplit).
  exists before, after. split; [exact Hsplit|].
  pose proof (dict_get_In _ _ _ Hgs) as Hin_s.
  rewrite Hps in Hin_s.
  apply positive_scores_In in Hin_s as (p & Hinp & Hsc & Hpos).
  assert (p = product) as ->.
  { pose proof (In_dict_get prods best p Hnd Hinp) as H1. congruence. }
  assert (keyf best = score) as Hkbest by (unfold keyf; now rewrite Hgs).
  assert (forall pid' p', In (pid', p') prods -> (0 < match_count p' post)%Z ->
                          keyf pid' = match_count p' post) as Hkeyf.
  { intros pid' p' Hin' Hpos'.
    assert (In (pid', match_count p' post) ps) as Hs
      by (rewrite Hps; apply positive_scores_In; exists p'; auto).
    unfold keyf. now rewrite (In_dict_get _ _ _ Hnds Hs). }
  assert (ps = positive_scores before post
               ++ (best, score) :: positive_scores after post) as Hps_split.
  { rewrite Hps, Hsplit, positive_scores_app. simpl.
    rewrite <- Hsc. now rewrite (proj2 (Z.ltb_lt _ _) Hpos). }
  assert (bk = map fst (positive_scores before post)) as Hbefore.
  { symmetry. apply (NoDup_split_unique best _ (map fst (positive_scores after post)) _ ak).
    - rewrite Hps_split in Hnds. rewrite map_app in Hnds. exact Hnds.
    - rewrite <- Hkeys', Hps_split, map_app. reflexivity. }
  assert (ak = map fst (positive_scores after post)) as Hafter.
  { rewrite Hps_split, map_app, Hbefore in Hkeys'. simpl in Hkeys'.
    apply app_inv_head in Hkeys'. now injection Hkeys'. }
  split.
  - intros pid p Hinb.
    destruct (Z.ltb_spec 0 (match_count p post)) as [Hpos'|Hzero]; [|lia].
    assert (In (pid, p) prods) as Hin' by (rewrite Hsplit; apply in_or_app; now left).
    rewrite <- Hkbest, <- (Hkeyf pid p Hin' Hpos').
    apply Hbk. rewrite Hbefore.
    change pid with (fst (pid, match_count p post)). apply in_map.
    apply positive_scores_In. exists p. auto.
  - intros pid p Hina.
    destruct (Z.ltb_spec 0 (match_count p post)) as [Hpos'|Hzero]; [|lia].
    assert (In (pid, p) prods) as Hin'
      by (rewrite Hsplit; apply in_or_app; right; now right).
    rewrite <- Hkbest, <- (Hkeyf pid p Hin' Hpos').
    apply Hak. rewrite Hafter.
    change pid with (fst (pid, match_count p post)). apply in_map.
    apply positive_scores_In. exists p. auto.
Qed.

Lemma matcher_tie_goes_to_first_witness :
  exists before after,
    tied_products = before ++ (sel_id demo_selection, sel_product demo_selection) :: after
    /\ (forall pid p, In (pid, p) before ->
                      (match_count p demo_post < sel_score demo_selection)%Z)
    /\ (forall pid p, In (pid, p) after ->
                      (match_count p demo_post <= sel_score demo_selection)%Z).
Proof.
  apply (matcher_tie_goes_to_first tied_products demo_post demo_selection).
  - reflexivity.
  - reflexivity.
  - simpl. apply NoDup_cons. split; [|apply NoDup_cons; split; [|apply NoDup_nil_2]].
    + intros H. apply list_elem_of_In in H. destruct H as [H|[]]. discriminate.
    + intros H. inversion H.
  - vm_compute. reflexivity.
Defined.

Lemma matching_keywords_length (kws : list string) (text : string) :
  length (matching_keywords kws text) <= length kws.
Proof.
  induction kws as [|k kws IH]; simpl; [lia|].
  destruct (PyStr.contains _ _); simpl; lia.
Qed.

(** X10.  The score of a selected product is at least one and at most
    the number of its keywords: a product without keywords is never
    selected. *)
Theorem selected_score_bounds (prods : list (string * Product)) (post : Post)
    (sel : SelectedProduct) :
  ascii_post post = true ->
  ascii_catalogue prods = true ->
  NoDup (map fst prods) ->
  select_product prods post = Ok (Some sel) ->
  (1 <= sel_score sel <= Z.of_nat (length (keywords (sel_product sel))))%Z
  /\ keywords (sel_product sel) <> [].
Proof.
  intros _ _ Hnd Hsel.
  destruct (select_product_spec prods post Hnd)
    as [[Hnone _]|(pid & p & Hsome & _ & Hpos & _)]; [congruence|].
  rewrite Hsome in Hsel. injection Hsel as <-. simpl.
  pose proof (matching_keywords_length (keywords p) (title_and_body post)) as Hlen.
  unfold match_count in *. split; [lia|].
  intros Hnil. rewrite Hnil in Hpos. simpl in Hpos. lia.
Qed.

Lemma selected_score_bounds_witness :
  (1 <= sel_score demo_selection
   <= Z.of_nat (length (keywords (sel_product demo_selection))))%Z
  /\ keywords (sel_product demo_selection) <> [].
Proof.
  apply (selected_score_bounds (products demo_catalog) demo_post demo_selection).
  - reflexivity.
  - reflexivity.
  - simpl. apply NoDup_cons. split; [|apply NoDup_nil_2]. intros H. inversion H.
  - vm_compute. reflexivity.
Defined.

(** X11.  A product that has the empty string among its keywords counts
    a keyword in every post, so with such a product in the catalogue the
    matcher selects a product for every post. *)
Theorem empty_keyword_product_always_matches (prods : list (string * Product))
    (pid : string) (product : Product) (post : Post) :
  ascii_post post = true ->
  ascii_catalogue prods = true ->
  NoDup (map fst prods) ->
  In (pid, product) prods ->
  In EmptyString (keywords product) ->
  (1 <= match_count product post)%Z
  /\ exists sel, select_product prods post = Ok (Some sel).
Proof.
  intros _ _ Hnd Hin Hempty.
  assert (1 <= match_count product post)%Z as Hpos.
  { unfold match_count.
    assert (In EmptyString (matching_keywords (keywords product) (title_and_body post)))
      as Hm by (apply matching_keywords_spec; split;
                [exact Hempty | apply empty_keyword_occurs]).
    destruct (matching_keywords (keywords product) (title_and_body post));
      [destruct Hm | simpl; lia]. }
  split; [exact Hpos|].
  destruct (select_product_spec prods post Hnd)
    as [[_ Hzero]|(pid' & p' & Hsome & _)].
  - specialize (Hzero pid product Hin). lia.
  - eauto.
Qed.

Lemma empty_keyword_product_always_matches_witness :
  (1 <= match_count catch_all_product politics_post)%Z
  /\ exists sel,
       select_product [("product5", catch_all_product)] politics_post = Ok (Some sel).
Proof.
  apply (empty_keyword_product_always_matches _ "product5").
  - reflexivity.
  - reflexivity.
  - simpl. apply NoDup_cons. split; [|apply NoDup_nil_2]. intros H. inversion H.
  - simpl. auto.
  - simpl. auto.
Defined.

(** ** More on the persona *)

Lemma nth_index_of (keys : list string) (k : string) :
  In k keys -> exists i, i < length keys /\ nth i keys k = k
                        /\ forall d, nth i keys d = k.
Proof.
  intros Hin. apply (In_nth keys k k) in Hin as (i & Hlt & Hnth).
  exists i. repeat split; auto.
  intros d. rewrite (nth_indep keys d k Hlt). exact Hnth.
Qed.

(** X12.  Every stored persona can be drawn: for each entry of the
    dictionary there is a value of the random source for which
    [_select_persona] returns that entry with its id. *)
Theorem every_persona_can_be_drawn (s : St) (pid : string) (data : Persona) :
  NoDup (map fst (personas (catalog (self s)))) ->
  In (pid, data) (personas (catalog (self s))) ->
  exists r,
    r < length (personas (catalog (self s)))
    /\ forall E, random_index E (draws (world s)) = r ->
         fst (run (_select_persona E) s)
         = Ok {| sp_id := Some pid; sp_persona := data |}.
Proof.
  intros Hnd Hin.
  assert (In pid (map fst (personas (catalog (self s))))) as Hkey
    by (change pid with (fst (pid, data)); now apply in_map).
  destruct (nth_index_of _ _ Hkey) as (i & Hlt & _ & Hnth).
  rewrite length_map in Hlt.
  pose proof (In_dict_get _ _ _ Hnd Hin) as Hget.
  exists i. split; [exact Hlt|]. intros E Hr.
  unfold _select_persona, run. unfold mbind at 1. unfold M_bind, get_self.
  cbv beta iota.
  destruct (personas (catalog (self s))) as [|item ps] eqn:Hps; [destruct Hin|].
  rewrite <- Hps in *.
  unfold mbind, M_bind, random_choice.
  destruct (map fst (personas (catalog (self s)))) as [|k0 ks] eqn:Hkeys;
    [rewrite Hps in Hkeys; discriminate|].
  simpl world. simpl draws. rewrite Hr.
  assert (length (k0 :: ks) = length (personas (catalog (self s)))) as Hlen
    by (rewrite <- Hkeys; apply length_map).
  rewrite Hlen, (Nat.mod_small i _ Hlt), Hnth.
  unfold lift_result, dict_getitem.
  rewrite Hget. reflexivity.
Qed.

Lemma every_persona_can_be_drawn_witness :
  exists r,
    r < length (personas (catalog (self demo_state)))
    /\ forall E, random_index E (draws (world demo_state)) = r ->
         fst (run (_select_persona E) demo_state)
         = Ok {| sp_id := Some "expert";
                 sp_persona := {| persona_name := "Curious Explorer";
                                  tone := "Curious, open-minded, conversationa";
                                  style := "detailed" |} |}.
Proof.
  apply (every_persona_can_be_drawn demo_state "expert").
  - simpl.
    repeat (apply NoDup_cons; split;
            [intros H; apply list_elem_of_In in H; simpl in H;
             intuition discriminate|]).
    apply NoDup_nil_2.
  - simpl. auto.
Defined.

(** ** Templates that can be filled *)

Lemma format_text_cons (kw : list (string * string)) (c : ascii) (s' : string) :
  format_from kw None (String c s')
  = if Ascii.eqb c "{" then
      match s' with
      | String c' s'' =>
          if Ascii.eqb c' "{" then emit "{" (format_from kw None s'')
          else format_from kw (Some EmptyString) s'
      | EmptyString => Some (Raise ValueError)
      end
    else if Ascii.eqb c "}" then
      match s' with
      | String c' s'' =>
          if Ascii.eqb c' "}" then emit "}" (format_from kw None s'')
          else Some (Raise ValueError)
      | EmptyString => Some (Raise ValueError)
      end
    else emit c (format_from kw None s').
Proof. reflexivity. Qed.

Lemma format_field_cons (kw : list (string * string)) (acc : string) (c : ascii)
    (s' : string) :
  format_from kw (Some acc) (String c s')
  = if Ascii.eqb c "}" then
      match resolve_field kw acc with
      | Ok v => emit_str v (format_from kw None s')
      | Raise e => Some (Raise e)
      end
    else if Ascii.eqb c "{" then Some (Raise ValueError)
    else if field_special c then None
    else format_from kw (Some (acc +:+ String c EmptyString)) s'.
Proof. reflexivity. Qed.

Lemma shape_emit (c : ascii) (r : option (result string)) :
  outcome_shape (emit c r) = outcome_shape r.
Proof. destruct r as [[|]|]; reflexivity. Qed.

Lemma shape_emit_str (v : string) (r : option (result string)) :
  outcome_shape (emit_str v r) = outcome_shape r.
Proof. destruct r as [[|]|]; reflexivity. Qed.

Lemma kw_lookup_keys (kw kw' : list (string * string)) (key : string) :
  map fst kw = map fst kw' ->
  (kw_lookup kw key = None <-> kw_lookup kw' key = None).
Proof.
  revert kw'. induction kw as [|[k v] kw IH]; intros [|[k' v'] kw'] Hkeys;
    simpl in *; try discriminate; [tauto|].
  injection Hkeys as <- Hkeys.
  destruct (String.eqb k key); [split; discriminate | now apply IH].
Qed.

(** Whether a field resolves depends on the names passed only. *)
Lemma resolve_field_keys (kw kw' : list (string * string)) (fname : string) :
  map fst kw = map fst kw' ->
  match resolve_field kw fname, resolve_field kw' fname with
  | Ok _, Ok _ => True
  | Raise e, Raise e' => e = e'
  | _, _ => False
  end.
Proof.
  intros Hkeys. unfold resolve_field.
  destruct (PyStr.all_digits fname); [reflexivity|].
  pose proof (kw_lookup_keys kw kw' fname Hkeys) as Hiff.
  destruct (kw_lookup kw fname), (kw_lookup kw' fname); auto.
  - destruct Hiff as [_ H]. discriminate (H eq_refl).
  - destruct Hiff as [H _]. discriminate (H eq_refl).
Qed.

(** Whether [str.format] fills a template, and the exception it raises
    otherwise, depend on the names of the values passed, not on the values. *)
Lemma format_shape (kw kw' : list (string * string)) :
  map fst kw = map fst kw' ->
  forall n s field, String.length s <= n ->
    outcome_shape (format_from kw field s) = outcome_shape (format_from kw' field s).
Proof.
  intros Hkeys. induction n as [|n IH]; intros s field Hlen.
  - destruct s; [|simpl in Hlen; lia]. destruct field; reflexivity.
  - destruct s as [|c s']; [destruct field; reflexivity|].
    simpl in Hlen. destruct field as [acc|].
    + rewrite !format_field_cons.
      destruct (Ascii.eqb c "}").
      * pose proof (resolve_field_keys kw kw' acc Hkeys) as Hres.
        destruct (resolve_field kw acc), (resolve_field kw' acc);
          try contradiction.
        -- rewrite !shape_emit_str. apply IH. lia.
        -- now subst.
      * destruct (Ascii.eqb c "{"); [reflexivity|].
        destruct (field_special c); [reflexivity|]. apply IH. lia.
    + rewrite !format_text_cons.
      destruct (Ascii.eqb c "{").
      * destruct s' as [|c' s'']; [reflexivity|]. simpl in Hlen.
        destruct (Ascii.eqb c' "{").
        -- rewrite !shape_emit. apply IH. lia.
        -- apply IH. simpl. lia.
      * destruct (Ascii.eqb c "}").
        -- destruct s' as [|c' s'']; [reflexivity|]. simpl in Hlen.
           destruct (Ascii.eqb c' "}"); [|reflexivity].
           rewrite !shape_emit. apply IH. lia.
        -- rewrite !shape_emit. apply IH. lia.
Qed.

(** A plain template is filled, whatever the product. *)
Lemma plain_template_formats (E : Env) (template name url : string) :
  plain_template template = true ->
  exists text,
    str_format E template [("product_name", name); ("product_url", url)] = Ok text.
Proof.
  unfold plain_template, str_format. intros Hplain.
  pose proof (format_shape
                [("product_name", EmptyString); ("product_url", EmptyString)]
                [("product_name", name); ("product_url", url)]
                eq_refl (String.length template) template None (le_n _)) as Hshape.
  destruct (format_from [("product_name", EmptyString); ("product_url", EmptyString)]
              None template) as [[text0|e]|]; try discriminate.
  destruct (format_from [("product_name", name); ("product_url", url)] None template)
    as [[text|e]|]; try discriminate.
  eauto.
Qed.

(** With plain templates only, the template branch returns a string. *)
Lemma template_comment_returns (E : Env) (product : SelectedProduct) (s : St) :
  comment_templates (catalog (self s)) <> [] ->
  (forall id template, In (id, template) (comment_templates (catalog (self s))) ->
                       plain_template template = true) ->
  exists text,
    run (template_comment E product) s
    = (Ok text, with_world s (tick_draw (world s))).
Proof.
  intros Hne Hplain.
  unfold template_comment, run. unfold mbind at 1. unfold M_bind, get_self.
  cbv beta iota zeta.
  destruct (random_choice_run E (map fst (comment_templates (catalog (self s)))) s)
    as (template_id & Hin & Hrun).
  { destruct (comment_templates (catalog (self s))); [contradiction | discriminate]. }
  destruct (dict_get_key _ _ Hin) as [template Hget].
  destruct (plain_template_formats E template
              (product_name (sel_product product))
              (product_url (sel_product product))) as [text Htext].
  { apply (Hplain template_id). now apply dict_get_In. }
  exists text.
  change (run (random_choice E (map fst (comment_templates (catalog (self s))))
               ≫= (fun template_id =>
                     lift_result (dict_getitem (comment_templates (catalog (self s)))
                                    template_id)
                     ≫= (fun template =>
                           lift_result
                             (str_format E template
                                [("product_name", product_name (sel_product product));
                                 ("product_url", product_url (sel_product product))]))))
               s
          = (Ok text, with_world s (tick_draw (world s)))).
  rewrite (bind_ok _ _ _ _ _ Hrun).
  unfold dict_getitem. rewrite Hget.
  unfold run, mbind, M_bind, lift_result. now rewrite Htext.
Qed.

(** X13.  When the set of templates is not empty and every template is
    well formed and names no field other than [product_name] and
    [product_url], composing a comment never raises: it returns a string
    for every post, product and persona, whether or not the generator is
    configured and whatever its call does. *)
Theorem plain_templates_never_raise (E : Env) (s : St) (post : Post)
    (product : SelectedProduct) (persona : SelectedPersona) :
  comment_templates (catalog (self s)) <> [] ->
  (forall id template, In (id, template) (comment_templates (catalog (self s))) ->
                       plain_template template = true) ->
  exists text s',
    run (_generate_comment E post product persona) s = (Ok text, s').
Proof.
  intros Hne Hplain.
  assert (forall s0, self s0 = self s ->
                     exists text, run (template_comment E product) s0
                                  = (Ok text, with_world s0 (tick_draw (world s0))))
    as Htemplate.
  { intros s0 Hself. apply template_comment_returns; rewrite Hself; assumption. }
  assert (openai_client (self s) = None
          \/ PyStr.truthy_opt (openai_model (self s)) = false
          \/ (openai_client (self s) <> None
              /\ exists model, openai_model (self s) = Some model
                               /\ PyStr.truthy model = true)) as Hmode.
  { destruct (openai_client (self s)); [|now left]. right.
    destruct (openai_model (self s)) as [model|]; [|now left].
    destruct (PyStr.truthy model) eqn:Ht; [|now left].
    right. split; [discriminate | eauto]. }
  destruct Hmode as [Hoff|[Hoff|(Hclient & model & Hmodel & Htruthy)]].
  - rewrite generate_comment_template_mode by auto.
    destruct (Htemplate s eq_refl) as [text Hrun].
    unfold run, try_except in *. rewrite Hrun. eauto.
  - rewrite generate_comment_template_mode by auto.
    destruct (Htemplate s eq_refl) as [text Hrun].
    unfold run, try_except in *. rewrite Hrun. eauto.
  - rewrite (generate_comment_generative_mode E post product persona s model)
      by assumption.
    unfold run, try_except, mbind, M_bind, chat_completions_create.
    destruct (chat_completion E (length (net (world s))) model
                (build_prompt post product persona)) as [content|e].
    + eauto.
    + match goal with
      | |- context [template_comment E product ?s0] =>
          destruct (Htemplate s0 eq_refl) as [text Hrun]
      end.
      unfold run in Hrun. rewrite Hrun. eauto.
Qed.

Lemma plain_templates_never_raise_witness :
  exists text s',
    run (_generate_comment (demo_env 2) demo_post demo_selection default_persona)
        sample_templates_state
    = (Ok text, s').
Proof.
  apply (plain_templates_never_raise (demo_env 2) sample_templates_state).
  - discriminate.
  - intros id template Hin. simpl in Hin.
    destruct Hin as [H|[H|[H|[]]]]; injection H as _ <-; vm_compute; reflexivity.
Defined.

(** ** Initialising the clients *)

Lemma or_else_default_truthy (stored : option string) (fallback : string) :
  PyStr.truthy fallback = true ->
  PyStr.truthy_opt (PyStr.or_else stored (Some fallback)) = true.
Proof.
  intros Ht. unfold PyStr.or_else.
  destruct (PyStr.truthy_opt stored) eqn:Hs; [exact Hs | exact Ht].
Qed.

(** With the four credentials at hand, [_init_reddit_client] is the
    login with the client built from them, followed by the five saves
    when the login returns and by the reset of [reddit] when it raises. *)
Lemma init_reddit_present (E : Env) (s : St) :
  forum_credentials_present E (self s) ->
  let client := reddit_client_of E (self s) in
  let logged := with_world s (record_net (NetLogin (rc_username client)) (world s)) in
  run (_init_reddit_client E) s
  = match user_me E (length (net (world s))) client with
    | Ok _ =>
        (Ok tt, {| self := with_saved_client client (set_reddit (Some client) (self s));
                   world := world logged; stats := stats s |})
    | Raise _ =>
        (Ok tt, {| self := set_reddit None (self s);
                   world := world logged; stats := stats s |})
    end.
Proof.
  unfold forum_credentials_present, credential. intros (H1 & H2 & H3 & H4).
  unfold _init_reddit_client, get_credential, reddit_client_of, credential.
  unfold run, try_except, mbind, M_bind, mret, M_ret, get_self, modify_self,
    reddit_user_me.
  cbv beta iota zeta.
  rewrite H1, H2, H3, H4.
  rewrite (or_else_default_truthy _ "RedditBot/1.0" eq_refl).
  cbn [andb negb]. cbv beta iota zeta. cbn [self world stats].
  destruct (user_me E _ _) as [name|e]; reflexivity.
Qed.

Lemma client_fields_truthy (E : Env) (b : RedditBot) :
  forum_credentials_present E b ->
  let client := reddit_client_of E b in
  PyStr.truthy (rc_client_id client) = true
  /\ PyStr.truthy (rc_client_secret client) = true
  /\ PyStr.truthy (rc_username client) = true
  /\ PyStr.truthy (rc_password client) = true
  /\ PyStr.truthy (rc_user_agent client) = true.
Proof.
  intros (H1 & H2 & H3 & H4). unfold reddit_client_of.
  cbn [rc_client_id rc_client_secret rc_username rc_password rc_user_agent].
  pose proof (or_else_default_truthy (credentials b !! "reddit_user_agent")
                "RedditBot/1.0" eq_refl) as H5.
  repeat split;
    match goal with
    | H : PyStr.truthy_opt ?o = true |- PyStr.truthy (default _ ?o) = true =>
        destruct o; [exact H | discriminate H]
    end.
Qed.

(** A truthy stored value is the one used, whatever the environment. *)
Lemma credential_stored (E : Env) (b : RedditBot) (k e v : string) :
  credentials b !! k = Some v -> PyStr.truthy v = true ->
  credential E b k e = Some v.
Proof.
  intros Hk Hv. unfold credential, or_getenv. rewrite Hk. simpl. rewrite Hv. reflexivity.
Qed.

(** X14.  With the four forum credentials available, from the table or
    else from the environment, and a login that succeeds,
    [_init_reddit_client] sets the client built from them, makes one
    login call, and stores the five values it used: afterwards the same
    client is built from the table alone, whatever the environment
    holds. *)
Theorem init_reddit_stores_what_it_used (E : Env) (s : St) (name : string) :
  forum_credentials_present E (self s) ->
  user_me E (length (net (world s))) (reddit_client_of E (self s)) = Ok name ->
  let client := reddit_client_of E (self s) in
  let s' := snd (run (_init_reddit_client E) s) in
  fst (run (_init_reddit_client E) s) = Ok tt
  /\ reddit (self s') = Some client
  /\ net (world s') = net (world s) ++ [NetLogin (rc_username client)]
  /\ credentials (self s') !! "reddit_client_id" = Some (rc_client_id client)
  /\ credentials (self s') !! "reddit_client_secret" = Some (rc_client_secret client)
  /\ credentials (self s') !! "reddit_username" = Some (rc_username client)
  /\ credentials (self s') !! "reddit_password" = Some (rc_password client)
  /\ credentials (self s') !! "reddit_user_agent" = Some (rc_user_agent client)
  /\ forall E', forum_credentials_present E' (self s')
                /\ reddit_client_of E' (self s') = client.
Proof.
  intros Hpresent Hlogin.
  destruct (client_fields_truthy E (self s) Hpresent) as (T1 & T2 & T3 & T4 & T5).
  cbv zeta.
  rewrite (init_reddit_present E s Hpresent), Hlogin.
  set (client := reddit_client_of E (self s)) in *.
  cbn [fst snd self world].
  set (b' := with_saved_client client (set_reddit (Some client) (self s))).
  assert (credentials b' !! "reddit_client_id" = Some (rc_client_id client)) as K1
    by (simpl; simplify_map_eq; reflexivity).
  assert (credentials b' !! "reddit_client_secret" = Some (rc_client_secret client)) as K2
    by (simpl; simplify_map_eq; reflexivity).
  assert (credentials b' !! "reddit_username" = Some (rc_username client)) as K3
    by (simpl; simplify_map_eq; reflexivity).
  assert (credentials b' !! "reddit_password" = Some (rc_password client)) as K4
    by (simpl; simplify_map_eq; reflexivity).
  assert (credentials b' !! "reddit_user_agent" = Some (rc_user_agent client)) as K5
    by (simpl; simplify_map_eq; reflexivity).
  split; [reflexivity|]. split; [reflexivity|]. split; [reflexivity|].
  split; [exact K1|]. split; [exact K2|]. split; [exact K3|]. split; [exact K4|].
  split; [exact K5|].
  intros E'. split.
  - unfold forum_credentials_present.
    rewrite (credential_stored E' _ _ _ _ K1 T1), (credential_stored E' _ _ _ _ K2 T2),
      (credential_stored E' _ _ _ _ K3 T3), (credential_stored E' _ _ _ _ K4 T4).
    simpl. auto.
  - unfold reddit_client_of.
    rewrite (credential_stored E' _ _ _ _ K1 T1), (credential_stored E' _ _ _ _ K2 T2),
      (credential_stored E' _ _ _ _ K3 T3), (credential_stored E' _ _ _ _ K4 T4), K5.
    unfold PyStr.or_else. cbn [PyStr.truthy_opt]. rewrite T5.
    cbn [default]. clearbody client. clear. destruct client. reflexivity.
Qed.

Lemma init_reddit_stores_what_it_used_witness :
  reddit (self (snd (run (_init_reddit_client (env_with_credentials (Ok "bot"))) fresh_state)))
  = Some (reddit_client_of (env_with_credentials (Ok "bot")) (self fresh_state)).
Proof.
  refine (proj1 (proj2 (init_reddit_stores_what_it_used
            (env_with_credentials (Ok "bot")) fresh_state "bot" _ _))).
  - unfold forum_credentials_present; repeat split; vm_compute; reflexivity.
  - reflexivity.
Defined.

(** X15.  When the login raises, [_init_reddit_client] still returns:
    the client it had built is dropped, the table of credentials is left
    as it was, and the one network call made is the login. *)
Theorem init_reddit_login_failure (E : Env) (s : St) (e : exn) :
  forum_credentials_present E (self s) ->
  user_me E (length (net (world s))) (reddit_client_of E (self s)) = Raise e ->
  let s' := snd (run (_init_reddit_client E) s) in
  fst (run (_init_reddit_client E) s) = Ok tt
  /\ reddit (self s') = None
  /\ credentials (self s') = credentials (self s)
  /\ net (world s')
     = net (world s) ++ [NetLogin (rc_username (reddit_client_of E (self s)))].
Proof.
  intros Hpresent Hlogin. cbv zeta.
  rewrite (init_reddit_present E s Hpresent), Hlogin.
  repeat split.
Qed.

Lemma init_reddit_login_failure_witness :
  reddit (self (snd (run (_init_reddit_client
                            (env_with_credentials (Raise (OtherError "invalid_grant"))))
                         fresh_state)))
  = None.
Proof.
  refine (proj1 (proj2 (init_reddit_login_failure
            (env_with_credentials (Raise (OtherError "invalid_grant"))) fresh_state
            (OtherError "invalid_grant") _ _))).
  - unfold forum_credentials_present; repeat split; vm_compute; reflexivity.
  - reflexivity.
Defined.

Lemma init_reddit_same_sources (E E' : Env) (s : St) :
  same_credential_sources E E' ->
  run (_init_reddit_client E) s = run (_init_reddit_client E') s.
Proof.
  intros (Hme & Hvars). unfold credential_variables in Hvars.
  repeat (apply Forall_cons_1 in Hvars; destruct Hvars as [? Hvars]).
  unfold _init_reddit_client, get_credential, or_getenv, os_getenv.
  unfold run, try_except, mbind, M_bind, mret, M_ret, get_self, modify_self,
    reddit_user_me.
  cbv beta iota zeta.
  rewrite !(or_else_default_truthy _ "RedditBot/1.0" eq_refl).
  cbn [negb]. rewrite Hme.
  repeat match goal with H : environ E !! _ = _ |- _ => rewrite H; clear H end.
  reflexivity.
Qed.

Lemma init_openai_same_sources (E E' : Env) (s : St) :
  same_credential_sources E E' ->
  run (_init_openai_client E) s = run (_init_openai_client E') s.
Proof.
  intros (Hme & Hvars). unfold credential_variables in Hvars.
  repeat (apply Forall_cons_1 in Hvars; destruct Hvars as [? Hvars]).
  unfold _init_openai_client, get_credential, or_getenv, os_getenv.
  unfold run, try_except, mbind, M_bind, mret, M_ret, get_self, modify_self.
  cbv beta iota zeta.
  rewrite !(or_else_default_truthy _ "gpt-4o-mini" eq_refl).
  cbn [negb].
  repeat match goal with H : environ E !! _ = _ |- _ => rewrite H; clear H end.
  reflexivity.
Qed.

(** X16.  [reload_credentials] reads the environment only through the
    four forum variables and [OPENAI_API_KEY]: the fallbacks to
    [REDDIT_USER_AGENT] and [OPENAI_MODEL] are never taken, since the
    value they would replace is a stored one or the built-in default. *)
Theorem reload_credentials_ignores_optional_variables (E E' : Env) (s : St) :
  same_credential_sources E E' ->
  run (reload_credentials E) s = run (reload_credentials E') s.
Proof.
  intros Hsame. unfold reload_credentials, run, mbind, M_bind.
  pose proof (init_reddit_same_sources E E' s Hsame) as Hr. unfold run in Hr.
  rewrite Hr. destruct (_init_reddit_client E' s) as [[[]|e] s1]; [|reflexivity].
  exact (init_openai_same_sources E E' s1 Hsame).
Qed.

Lemma reload_credentials_ignores_optional_variables_witness :
  run (reload_credentials (env_with_credentials (Ok "bot"))) fresh_state
  = run (reload_credentials (env_without_optional (Ok "bot"))) fresh_state.
Proof.
  apply reload_credentials_ignores_optional_variables.
  split; [reflexivity|]. unfold credential_variables.
  repeat (apply Forall_cons; split; [vm_compute; reflexivity|]). apply Forall_nil_2.
Defined.

(** X17.  With a key for the text generator available, from the table
    or else from [OPENAI_API_KEY], [_init_openai_client] sets the client
    with that key and the stored model name, or [gpt-4o-mini] when none
    is stored, saves both, and touches nothing outside the bot. *)
Theorem init_openai_with_key (E : Env) (s : St) :
  PyStr.truthy_opt (credential E (self s) "openai_api_key" "OPENAI_API_KEY") = true ->
  let key := default EmptyString
               (credential E (self s) "openai_api_key" "OPENAI_API_KEY") in
  let model := openai_model_of (self s) in
  let s' := snd (run (_init_openai_client E) s) in
  fst (run (_init_openai_client E) s) = Ok tt
  /\ openai_client (self s') = Some {| api_key := key |}
  /\ openai_model (self s') = Some model
  /\ PyStr.truthy model = true
  /\ credentials (self s')
     = <["openai_model" := model]> (<["openai_api_key" := key]> (credentials (self s)))
  /\ reddit (self s') = reddit (self s)
  /\ config (self s') = config (self s)
  /\ counters (self s') = counters (self s)
  /\ world s' = world s.
Proof.
  unfold credential, openai_model_of. intros Hkey.
  pose proof (or_else_default_truthy (credentials (self s) !! "openai_model")
                "gpt-4o-mini" eq_refl) as Hm.
  unfold _init_openai_client, get_credential.
  unfold run, try_except, mbind, M_bind, mret, M_ret, get_self, modify_self.
  cbv beta iota zeta. rewrite Hkey, Hm. cbn [negb fst snd self world].
  destruct (PyStr.or_else (credentials (self s) !! "openai_model") (Some "gpt-4o-mini"))
    as [m|] eqn:Hor; [|discriminate Hm].
  repeat split. exact Hm.
Qed.

Lemma init_openai_with_key_witness :
  openai_model (self (snd (run (_init_openai_client (env_with_credentials (Ok "bot")))
                               keyed_state)))
  = Some "gpt-4o-mini".
Proof.
  refine (proj1 (proj2 (proj2 (init_openai_with_key
            (env_with_credentials (Ok "bot")) keyed_state _)))).
  vm_compute. reflexivity.
Defined.

(** ** The table of credentials *)

Lemma select_one_update (name value other : string) (t : Database.Table) :
  Database.select_one other (Database.update name value t)
  = if String.eqb other name
    then match Database.select_one name t with Some _ => Some value | None => None end
    else Database.select_one other t.
Proof.
  destruct (String.eqb_spec other name) as [->|Hne].
  - induction t as [|[n v] t IH]; simpl; [reflexivity|].
    destruct (String.eqb_spec n name) as [->|Hn]; simpl.
    + rewrite String.eqb_refl. reflexivity.
    + destruct (String.eqb_spec n name); [contradiction | exact IH].
  - induction t as [|[n v] t IH]; simpl; [reflexivity|].
    destruct (String.eqb_spec n name) as [->|Hn]; simpl.
    + destruct (String.eqb_spec name other); [congruence | exact IH].
    + destruct (String.eqb_spec n other); [reflexivity | exact IH].
Qed.

Lemma select_one_app (name : string) (t u : Database.Table) :
  Database.select_one name (t ++ u)
  = match Database.select_one name t with
    | Some v => Some v
    | None => Database.select_one name u
    end.
Proof.
  induction t as [|[n v] t IH]; simpl; [reflexivity|].
  destruct (String.eqb n name); [reflexivity | exact IH].
Qed.

Lemma select_one_none (name : string) (t : Database.Table) :
  Database.select_one name t = None
  <-> existsb (fun row => String.eqb (fst row) name) t = false.
Proof.
  induction t as [|[n v] t IH]; simpl; [tauto|].
  destruct (String.eqb n name); simpl; [split; discriminate | exact IH].
Qed.

Lemma select_one_not_in (name : string) (t : Database.Table) :
  Database.select_one name t = None <-> ~ In name (map fst t).
Proof.
  induction t as [|[n v] t IH]; simpl; [tauto|].
  destruct (String.eqb n name) eqn:Hn.
  - apply String.eqb_eq in Hn. split; [discriminate | tauto].
  - apply String.eqb_neq in Hn. rewrite IH. tauto.
Qed.

Lemma select_one_delete (name other : string) (t : Database.Table) :
  Database.select_one other (Database.delete name t)
  = if String.eqb other name then None else Database.select_one other t.
Proof.
  destruct (String.eqb_spec other name) as [->|Hne].
  - induction t as [|[n v] t IH]; simpl; [reflexivity|].
    destruct (String.eqb_spec n name) as [->|Hn]; simpl; [exact IH|].
    destruct (String.eqb_spec n name); [contradiction | exact IH].
  - induction t as [|[n v] t IH]; simpl; [reflexivity|].
    destruct (String.eqb_spec n name) as [->|Hn]; simpl.
    + destruct (String.eqb_spec name other); [congruence | exact IH].
    + destruct (String.eqb_spec n other); [reflexivity | exact IH].
Qed.

Lemma save_credential_cases (name value : string) (t : Database.Table) :
  (exists old, Database.select_one name t = Some old
               /\ Database.save_credential name value t
                  = (true, Database.update name value t))
  \/ (Database.select_one name t = None
      /\ Database.save_credential name value t = (true, t ++ [(name, value)])).
Proof.
  unfold Database.save_credential, Database.insert.
  destruct (Database.select_one name t) as [old|] eqn:Hsel.
  - left. exists old. split; reflexivity.
  - right. apply select_one_none in Hsel. rewrite Hsel. split; reflexivity.
Qed.

Lemma select_one_save (name value other : string) (t : Database.Table) :
  Database.select_one other (snd (Database.save_credential name value t))
  = if String.eqb other name then Some value else Database.select_one other t.
Proof.
  destruct (save_credential_cases name value t) as [(old & Hsel & ->)|(Hsel & ->)];
    simpl.
  - rewrite select_one_update, Hsel. reflexivity.
  - rewrite select_one_app. simpl.
    destruct (String.eqb other name) eqn:Ho.
    + apply String.eqb_eq in Ho. subst other. rewrite Hsel, String.eqb_refl. reflexivity.
    + rewrite String.eqb_sym, Ho. destruct (Database.select_one other t); reflexivity.
Qed.

(** X18.  In the table of credentials, [save_credential] always returns
    [True]: its [INSERT] is only run when no row has the name, so the
    constraint on [name] never fails.  Afterwards [get_credential] gives
    the saved value for the name and what it gave before for every other
    name; after [delete_credential] it gives [None] for the name. *)
Theorem save_then_get_credential (name value : string) (t : Database.Table) :
  fst (Database.save_credential name value t) = true
  /\ Database.get_credential name (snd (Database.save_credential name value t))
     = Some value
  /\ (forall other, other <> name ->
        Database.get_credential other (snd (Database.save_credential name value t))
        = Database.get_credential other t)
  /\ Database.get_credential name (snd (Database.delete_credential name t)) = None
  /\ (forall other, other <> name ->
        Database.get_credential other (snd (Database.delete_credential name t))
        = Database.get_credential other t).
Proof.
  unfold Database.get_credential. split; [|split; [|split; [|split]]].
  - destruct (save_credential_cases name value t) as [(old & _ & ->)|(_ & ->)];
      reflexivity.
  - rewrite select_one_save, String.eqb_refl. reflexivity.
  - intros other Hne. rewrite select_one_save.
    apply String.eqb_neq in Hne. rewrite Hne. reflexivity.
  - simpl. rewrite select_one_delete, String.eqb_refl. reflexivity.
  - intros other Hne. simpl. rewrite select_one_delete.
    apply String.eqb_neq in Hne. rewrite Hne. reflexivity.
Qed.

Lemma map_fst_update (name value : string) (t : Database.Table) :
  map fst (Database.update name value t) = map fst t.
Proof.
  induction t as [|[n v] t IH]; simpl; [reflexivity|].
  rewrite IH. destruct (String.eqb n name); reflexivity.
Qed.

Lemma unique_names_snoc (name value : string) (t : Database.Table) :
  unique_names t -> ~ In name (map fst t) -> unique_names (t ++ [(name, value)]).
Proof.
  unfold unique_names. intros Hnd Hnot. rewrite map_app. simpl.
  apply NoDup_app. split; [exact Hnd|]. split.
  - intros x Hx Hin. apply list_elem_of_In in Hx. apply list_elem_of_In in Hin.
    simpl in Hin. destruct Hin as [<-|[]]. contradiction.
  - apply NoDup_singleton.
Qed.

Lemma unique_names_save (name value : string) (t : Database.Table) :
  unique_names t -> unique_names (snd (Database.save_credential name value t)).
Proof.
  intros Hnd.
  destruct (save_credential_cases name value t) as [(old & _ & ->)|(Hsel & ->)]; simpl.
  - unfold unique_names. rewrite map_fst_update. exact Hnd.
  - apply unique_names_snoc; [exact Hnd|]. now apply select_one_not_in.
Qed.

Lemma unique_names_delete (name : string) (t : Database.Table) :
  unique_names t -> unique_names (Database.delete name t).
Proof.
  unfold unique_names. induction t as [|[n v] t IH]; simpl; [auto|].
  intros Hnd. apply NoDup_cons in Hnd. destruct Hnd as [Hnot Hnd].
  destruct (String.eqb n name); simpl; [now apply IH|].
  apply NoDup_cons. split; [|now apply IH].
  intros Hin. apply Hnot. apply list_elem_of_In in Hin. apply list_elem_of_In.
  apply in_map_iff in Hin. destruct Hin as ([n' v'] & Hfst & Hin).
  apply filter_In in Hin. destruct Hin as [Hin _].
  apply in_map_iff. exists (n', v'). split; assumption.
Qed.

Lemma dict_set_snoc {V} (d : list (string * V)) (k : string) (v : V) :
  ~ In k (map fst d) -> dict_set d k v = d ++ [(k, v)].
Proof.
  induction d as [|[k' v'] d IH]; simpl; [reflexivity|].
  intros Hnot. destruct (String.eqb k' k) eqn:Hk.
  - apply String.eqb_eq in Hk. tauto.
  - rewrite IH; [reflexivity | tauto].
Qed.

Lemma get_all_from (t : Database.Table) :
  forall d, NoDup (map fst (d ++ t)) ->
            fold_left (fun d row => dict_set d (fst row) (snd row)) t d = d ++ t.
Proof.
  induction t as [|[n v] t IH]; intros d Hnd; simpl.
  - now rewrite app_nil_r.
  - assert (~ In n (map fst d)) as Hnot.
    { rewrite map_app in Hnd. simpl in Hnd.
      apply NoDup_app in Hnd. destruct Hnd as (_ & Hdisj & _).
      intros Hin. apply list_elem_of_In in Hin. apply (Hdisj _ Hin). left. }
    rewrite (dict_set_snoc d n v Hnot).
    replace (d ++ (n, v) :: t) with ((d ++ [(n, v)]) ++ t)
      by (rewrite <- app_assoc; reflexivity).
    apply IH. rewrite <- app_assoc. exact Hnd.
Qed.

(** X19.  The operations keep the table within its constraint: from a
    table without two rows of one name, [save_credential] and
    [delete_credential] give such a table again, a save adds at most one
    row, and the dictionary of [get_all_credentials] lists the rows as
    they are, so that it agrees with [get_credential] on every name. *)
Theorem table_stays_unique (name value : string) (t : Database.Table) :
  unique_names t ->
  unique_names (snd (Database.save_credential name value t))
  /\ unique_names (snd (Database.delete_credential name t))
  /\ (length (snd (Database.save_credential name value t)) <= S (length t))%nat
  /\ Database.get_all_credentials t = t
  /\ forall key, dict_get (Database.get_all_credentials t) key
                 = Database.get_credential key t.
Proof.
  intros Hnd.
  assert (Database.get_all_credentials t = t) as Hall.
  { unfold Database.get_all_credentials. now rewrite (get_all_from t []). }
  split; [now apply unique_names_save|].
  split; [now apply unique_names_delete|].
  split.
  - destruct (save_credential_cases name value t) as [(old & _ & ->)|(_ & ->)]; simpl.
    + unfold Database.update. rewrite length_map. lia.
    + rewrite length_app. simpl. lia.
  - split; [exact Hall|]. intros key. rewrite Hall.
    unfold Database.get_credential. clear.
    induction t as [|[n v] t IH]; simpl; [reflexivity|].
    destruct (String.eqb n key); [reflexivity | exact IH].
Qed.

Lemma table_stays_unique_witness :
  Database.get_all_credentials sample_table = sample_table.
Proof.
  refine (proj1 (proj2 (proj2 (proj2
            (table_stays_unique "reddit_username" "other" sample_table _))))).
  unfold unique_names. simpl.
  repeat (apply NoDup_cons; split;
          [intros H; apply list_elem_of_In in H; simpl in H; intuition discriminate|]).
  apply NoDup_nil_2.
Defined.

Lemma table_view_lookup (t : Database.Table) (key : string) :
  table_view t !! key = Database.select_one key t.
Proof.
  unfold table_view. induction t as [|[n v] t IH]; simpl; [apply lookup_empty|].
  destruct (String.eqb n key) eqn:Hn.
  - apply String.eqb_eq in Hn. subst n. apply lookup_insert_eq.
  - apply String.eqb_neq in Hn. rewrite lookup_insert_ne by exact Hn. exact IH.
Qed.

(** X20.  The finite map that the bot uses for the stored credentials
    is a sound view of the table: reading a name in the map is
    [get_credential], and [save_credential] and [delete_credential] on
    the table are the insertion and the removal of the name in the map,
    so that the bot's own save has on the map the effect that the
    database has on the table. *)
Theorem table_view_simulates (name value : string) (t : Database.Table)
    (b : RedditBot) :
  credentials b = table_view t ->
  (forall key, credentials b !! key = Database.get_credential key t)
  /\ credentials (save_credential name value b)
     = table_view (snd (Database.save_credential name value t))
  /\ table_view (snd (Database.delete_credential name t))
     = base.delete name (credentials b).
Proof.
  intros Hview. split; [|split].
  - intros key. rewrite Hview. apply table_view_lookup.
  - simpl. rewrite Hview. apply map_eq. intros key.
    rewrite table_view_lookup, select_one_save.
    destruct (String.eqb key name) eqn:Hk.
    + apply String.eqb_eq in Hk. subst key. now rewrite lookup_insert_eq.
    + apply String.eqb_neq in Hk. rewrite lookup_insert_ne by congruence.
      apply table_view_lookup.
  - simpl. rewrite Hview. apply map_eq. intros key.
    rewrite table_view_lookup, select_one_delete.
    destruct (String.eqb key name) eqn:Hk.
    + apply String.eqb_eq in Hk. subst key. now rewrite lookup_delete_eq.
    + apply String.eqb_neq in Hk. rewrite lookup_delete_ne by congruence.
      symmetry. apply table_view_lookup.
Qed.

Lemma table_view_simulates_witness :
  credentials (save_credential "openai_api_key" "sk-1" (new_bot default_config demo_catalog (table_view sample_table)))
  = table_view (snd (Database.save_credential "openai_api_key" "sk-1" sample_table)).
Proof.
  refine (proj1 (proj2 (table_view_simulates "openai_api_key" "sk-1" sample_table
                          (new_bot default_config demo_catalog (table_view sample_table)) _))).
  reflexivity.
Defined.

(** ** The file of credentials *)

Lemma upper_ascii_facts (c : ascii) :
  PyStr.is_space (PyText.upper_ascii c) = PyStr.is_space c
  /\ Ascii.eqb (PyText.upper_ascii c) "=" = Ascii.eqb c "="
  /\ Ascii.eqb "#" (PyText.upper_ascii c) = Ascii.eqb "#" c
  /\ Ascii.eqb (PyText.upper_ascii c) PyText.LF = Ascii.eqb c PyText.LF
  /\ Ascii.eqb (PyText.upper_ascii c) PyText.CR = Ascii.eqb c PyText.CR
  /\ (PyStr.lower_ascii c = c -> PyStr.lower_ascii (PyText.upper_ascii c) = c).
Proof.
  destruct c as [[] [] [] [] [] [] [] []]; vm_compute; repeat split; congruence.
Qed.



Lemma lower_upper (s : string) :
  PyStr.lower s = s -> PyStr.lower (PyText.upper s) = s.
Proof.
  induction s as [|c s IH]; simpl; [reflexivity|].
  intros H. injection H as Hc Hs.
  destruct (upper_ascii_facts c) as (_ & _ & _ & _ & _ & Hl).
  now rewrite (Hl Hc), (IH Hs).
Qed.

Lemma lstrip_upper (s : string) :
  PyStr.lstrip (PyText.upper s) = PyText.upper (PyStr.lstrip s).
Proof.
  induction s as [|c s IH]; simpl; [reflexivity|].
  destruct (upper_ascii_facts c) as (-> & _).
  destruct (PyStr.is_space c); [exact IH | reflexivity].
Qed.

Lemma rstrip_upper (s : string) :
  PyStr.rstrip (PyText.upper s) = PyText.upper (PyStr.rstrip s).
Proof.
  induction s as [|c s IH]; simpl; [reflexivity|].
  destruct (upper_ascii_facts c) as (Hsp & _). rewrite IH, Hsp.
  destruct (PyStr.rstrip s); simpl; [|reflexivity].
  destruct (PyStr.is_space c); reflexivity.
Qed.

Lemma contains_char (c a : ascii) (s : string) :
  PyStr.contains (String c EmptyString) (String a s)
  = Ascii.eqb c a || PyStr.contains (String c EmptyString) s.
Proof.
  simpl. destruct (Ascii.eqb c a); simpl; [reflexivity|].
  destruct s; reflexivity.
Qed.

Lemma contains_equals_upper (s : string) :
  PyStr.contains "=" (PyText.upper s) = PyStr.contains "=" s.
Proof.
  induction s as [|c s IH]; [reflexivity|].
  cbn [PyText.upper]. rewrite !contains_char, IH.
  destruct (upper_ascii_facts c) as (_ & He & _).
  rewrite (Ascii.eqb_sym "=" (PyText.upper_ascii c)), He, (Ascii.eqb_sym c "=").
  reflexivity.
Qed.

Lemma one_line_upper (s : string) : one_line (PyText.upper s) = one_line s.
Proof.
  induction s as [|c s IH]; simpl; [reflexivity|].
  destruct (upper_ascii_facts c) as (_ & _ & _ & -> & -> & _). now rewrite IH.
Qed.

Lemma one_line_app (a b : string) : one_line (a +:+ b) = one_line a && one_line b.
Proof.
  induction a as [|c a IH]; app_simpl; simpl; [reflexivity|].
  rewrite IH. now rewrite andb_assoc.
Qed.

Lemma lstrip_length (s : string) :
  (String.length (PyStr.lstrip s) <= String.length s)%nat.
Proof.
  induction s as [|c s IH]; simpl; [lia|].
  destruct (PyStr.is_space c); simpl; lia.
Qed.

(** A text that begins with a character that is no blank is not
    shortened on the left, whatever follows it. *)
Lemma lstrip_trimmed_app (a b : string) :
  PyStr.truthy a = true -> PyStr.lstrip a = a -> PyStr.lstrip (a +:+ b) = a +:+ b.
Proof.
  destruct a as [|c a]; [discriminate|]. intros _ H. app_simpl. simpl in *.
  destruct (PyStr.is_space c); [|reflexivity].
  pose proof (lstrip_length a) as Hlen. rewrite H in Hlen. simpl in Hlen. lia.
Qed.

Lemma rstrip_app (a b : string) :
  PyStr.rstrip (a +:+ b)
  = match PyStr.rstrip b with
    | EmptyString => PyStr.rstrip a
    | r => a +:+ r
    end.
Proof.
  induction a as [|c a IH]; app_simpl.
  - destruct (PyStr.rstrip b); reflexivity.
  - simpl. rewrite IH. destruct (PyStr.rstrip b) as [|x r]; [reflexivity|].
    app_simpl. destruct a; app_simpl; reflexivity.
Qed.

Lemma trimmed_spec (s : string) :
  trimmed s = true ->
  PyStr.truthy s = true /\ PyStr.lstrip s = s /\ PyStr.rstrip s = s /\ PyStr.strip s = s.
Proof.
  unfold trimmed, PyStr.strip. rewrite !andb_true_iff, !String.eqb_eq.
  intros ((Ht & Hl) & Hr). rewrite Hl. auto.
Qed.

Lemma trimmed_upper (s : string) : trimmed s = true -> trimmed (PyText.upper s) = true.
Proof.
  intros H. destruct (trimmed_spec s H) as (Ht & Hl & Hr & _).
  unfold trimmed. rewrite lstrip_upper, rstrip_upper, Hl, Hr, !String.eqb_refl.
  destruct s; [discriminate | reflexivity].
Qed.

Lemma split_once_at (a b : string) :
  PyStr.contains "=" a = false ->
  PyText.split_once "=" (a +:+ String "=" b) = [a; b].
Proof.
  induction a as [|c a IH]; app_simpl; [reflexivity|].
  rewrite contains_char. intros H. apply orb_false_iff in H. destruct H as [Hc Ha].
  simpl. rewrite Ascii.eqb_sym, Hc, (IH Ha). reflexivity.
Qed.

Lemma contains_equals_app (a b : string) :
  PyStr.contains "=" (a +:+ String "=" b) = true.
Proof.
  induction a as [|c a IH]; app_simpl.
  - rewrite contains_char. reflexivity.
  - rewrite contains_char, IH. apply orb_true_r.
Qed.

Lemma startswith_hash_app (a b : string) :
  PyStr.truthy a = true ->
  PyStr.startswith "#" (a +:+ b) = PyStr.startswith "#" a.
Proof.
  destruct a as [|c a]; [discriminate|]. intros _. app_simpl.
  cbn [PyStr.startswith].
  destruct (Ascii.eqb "#" c); [|reflexivity]. destruct a, b; reflexivity.
Qed.

Lemma startswith_hash_upper (a : string) :
  PyStr.startswith "#" (PyText.upper a) = PyStr.startswith "#" a.
Proof.
  destruct a as [|c a]; [reflexivity|]. cbn [PyText.upper PyStr.startswith].
  destruct (upper_ascii_facts c) as (_ & _ & -> & _).
  destruct (Ascii.eqb "#" c); [|reflexivity]. destruct a; reflexivity.
Qed.

(** The line written for a credential, read back. *)
Lemma strip_export_line (k v : string) :
  exportable_name k = true -> exportable_value v = true ->
  PyStr.strip (Database.export_line k v) = PyText.upper k +:+ String "=" v.
Proof.
  unfold exportable_name, exportable_value. rewrite !andb_true_iff.
  intros ((((Hk & _) & _) & _) & _) (Hv & _).
  destruct (trimmed_spec _ (trimmed_upper k Hk)) as (Ht & Hl & _).
  destruct (trimmed_spec v Hv) as (Htv & _ & Hrv & _).
  unfold Database.export_line, PyStr.strip.
  rewrite (lstrip_trimmed_app _ _ Ht Hl).
  change ("=" +:+ v +:+ String PyText.LF EmptyString)
    with (String "=" (v +:+ String PyText.LF EmptyString)).
  replace (PyText.upper k +:+ String "=" (v +:+ String PyText.LF EmptyString))
    with ((PyText.upper k +:+ String "=" v) +:+ String PyText.LF EmptyString)
    by (rewrite append_assoc; app_simpl; reflexivity).
  rewrite rstrip_app. change (PyStr.rstrip (String PyText.LF EmptyString)) with EmptyString.
  cbv iota. rewrite rstrip_app.
  assert (PyStr.rstrip (String "=" v) = String "=" v) as ->.
  { simpl. rewrite Hrv. destruct v; [discriminate | reflexivity]. }
  reflexivity.
Qed.

Lemma import_export_line (k v : string) (t : Database.Table) :
  exportable_name k = true -> exportable_value v = true ->
  Database.import_line (Database.export_line k v) t
  = Ok (snd (Database.save_credential k v t)).
Proof.
  intros Hk Hv. unfold Database.import_line.
  rewrite (strip_export_line k v Hk Hv).
  unfold exportable_name, exportable_value in *. rewrite !andb_true_iff in *.
  destruct Hk as ((((Hk & _) & Hlow) & Heq) & Hhash). destruct Hv as (Hv & _).
  apply String.eqb_eq in Hlow. apply negb_true_iff in Heq, Hhash.
  destruct (trimmed_spec _ (trimmed_upper k Hk)) as (Ht & _ & _ & Hsk).
  destruct (trimmed_spec v Hv) as (Htv & _ & _ & Hsv).
  rewrite contains_equals_app, (startswith_hash_app _ _ Ht), startswith_hash_upper, Hhash.
  assert (PyStr.truthy (PyText.upper k +:+ String "=" v) = true) as ->.
  { destruct k; [discriminate | reflexivity]. }
  cbn [andb negb].
  rewrite split_once_at by (now rewrite contains_equals_upper).
  rewrite Hsk, Hsv, Ht, Htv. cbn [andb].
  rewrite (lower_upper k Hlow). reflexivity.
Qed.

Lemma universal_newlines_line (a rest : string) :
  one_line a = true ->
  PyText.universal_newlines (a +:+ String PyText.LF rest)
  = a +:+ String PyText.LF (PyText.universal_newlines rest).
Proof.
  induction a as [|c a IH]; app_simpl; [reflexivity|].
  simpl. rewrite !andb_true_iff, !negb_true_iff. intros ((_ & Hcr) & Ha).
  rewrite Hcr, (IH Ha). reflexivity.
Qed.

Lemma lines_line (a rest : string) :
  one_line a = true ->
  PyText.lines (a +:+ String PyText.LF rest)
  = (a +:+ String PyText.LF EmptyString) :: PyText.lines rest.
Proof.
  induction a as [|c a IH]; app_simpl; [reflexivity|].
  simpl. rewrite !andb_true_iff, !negb_true_iff. intros ((Hlf & _) & Ha).
  rewrite Hlf, (IH Ha). reflexivity.
Qed.

Lemma export_line_shape (k v : string) (rest : string) :
  Database.export_line k v +:+ rest
  = (PyText.upper k +:+ String "=" v) +:+ String PyText.LF rest.
Proof.
  unfold Database.export_line. rewrite !append_assoc. app_simpl. reflexivity.
Qed.

Lemma one_line_export (k v : string) :
  exportable_name k = true -> exportable_value v = true ->
  one_line (PyText.upper k +:+ String "=" v) = true.
Proof.
  unfold exportable_name, exportable_value. rewrite !andb_true_iff.
  intros ((((_ & Hk) & _) & _) & _) (_ & Hv).
  rewrite one_line_app, one_line_upper, Hk. simpl. exact Hv.
Qed.

Lemma import_exported_rows (rows : Database.Table) :
  forall acc,
    unique_names (acc ++ rows) ->
    Forall (fun row => exportable_name (fst row) = true
                       /\ exportable_value (snd row) = true) rows ->
    Database.import_lines
      (PyText.lines (PyText.universal_newlines
         (fold_right (fun row text => Database.export_line (fst row) (snd row) +:+ text)
                     EmptyString rows)))
      acc
    = (true, acc ++ rows).
Proof.
  induction rows as [|[k v] rows IH]; intros acc Hnd Hall; simpl.
  - now rewrite app_nil_r.
  - apply Forall_cons_1 in Hall. destruct Hall as [[Hk Hv] Hall]. simpl in Hk, Hv.
    pose proof (one_line_export k v Hk Hv) as Hone.
    rewrite export_line_shape, (universal_newlines_line _ _ Hone), (lines_line _ _ Hone).
    cbn [Database.import_lines].
    replace ((PyText.upper k +:+ String "=" v) +:+ String PyText.LF EmptyString)
      with (Database.export_line k v)
      by (rewrite <- (append_empty_r (Database.export_line k v));
          rewrite export_line_shape; reflexivity).
    rewrite (import_export_line k v acc Hk Hv).
    assert (~ In k (map fst acc)) as Hnot.
    { unfold unique_names in Hnd. rewrite map_app in Hnd. simpl in Hnd.
      apply NoDup_app in Hnd. destruct Hnd as (_ & Hdisj & _).
      intros Hin. apply list_elem_of_In in Hin. apply (Hdisj _ Hin). left. }
    destruct (save_credential_cases k v acc) as [(old & Hsel & _)|(_ & ->)].
    + apply select_one_not_in in Hnot. congruence.
    + simpl. rewrite (IH (acc ++ [(k, v)])); [|rewrite <- app_assoc; exact Hnd|exact Hall].
      now rewrite <- app_assoc.
Qed.

(** X21.  What [export_to_json_files] writes for the credentials,
    [import_from_json_files] reads back: for a table whose names are in
    lower case, without [=] and not beginning with [#], and whose names
    and values are ASCII text on one line and trimmed, importing the exported text
    into an empty table succeeds and gives the table again, row for
    row. *)
Theorem export_then_import (t : Database.Table) :
  exportable t ->
  Database.import_env (Database.export_env t) [] = (true, t).
Proof.
  intros (Hnd & Hall & _). unfold Database.import_env, Database.export_env.
  assert (Database.get_all_credentials t = t) as ->.
  { unfold Database.get_all_credentials. now rewrite (get_all_from t []). }
  exact (import_exported_rows t [] Hnd Hall).
Qed.

Lemma export_then_import_witness :
  Database.import_env (Database.export_env sample_table) [] = (true, sample_table).
Proof.
  apply export_then_import. split.
  - unfold unique_names. simpl.
    repeat (apply NoDup_cons; split;
            [intros H; apply list_elem_of_In in H; simpl in H; intuition discriminate|]).
    apply NoDup_nil_2.
  - split; repeat (apply Forall_cons; split; [split; vm_compute; reflexivity|]);
      apply Forall_nil_2.
Defined.






(** ** Loading the configuration *)

Lemma put_config_same (s : St) : put_config (config (self s)) s = s.
Proof. destruct s as [[] w t]. reflexivity. Qed.

Lemma implements_load_list (E : Env) (name : string)
    (store : list string -> BotConfig -> BotConfig) :
  implements (load_list E name store) (list_step E name store).
Proof.
  intros s. unfold load_list, list_step, os_getenv.
  destruct (environ E !! name) as [value|]; [destruct (PyStr.truthy value)|];
    try (unfold run, mret, M_ret; now rewrite put_config_same).
  reflexivity.
Qed.

Lemma implements_load_int (E : Env) (name : string)
    (store : Z -> BotConfig -> BotConfig) :
  implements (load_int E name store) (int_step E name store).
Proof.
  intros s. unfold load_int, int_step, os_getenv.
  destruct (environ E !! name) as [value|]; [destruct (PyStr.truthy value)|];
    try (unfold run, mret, M_ret; now rewrite put_config_same).
  unfold run, mbind, M_bind, lift_result.
  destruct (PyInt.of_str value); reflexivity.
Qed.

Lemma implements_load_dry_run (E : Env) :
  implements (load_dry_run E) (dry_run_step E).
Proof.
  intros s. unfold load_dry_run, dry_run_step, os_getenv.
  destruct (environ E !! "DRY_RUN") as [value|]; [reflexivity|].
  unfold run, mret, M_ret. now rewrite put_config_same.
Qed.

Lemma follows_one (m : M unit) (step : BotConfig -> result BotConfig) :
  implements m step -> follows m [step].
Proof.
  intros Hm s. rewrite (Hm s). simpl.
  destruct (step (config (self s))); simpl; [auto|].
  now rewrite put_config_same.
Qed.

Lemma follows_cons (m k : M unit) (step : BotConfig -> result BotConfig)
    (steps : list (BotConfig -> result BotConfig)) :
  implements m step -> follows k steps -> follows (m ;; k) (step :: steps).
Proof.
  intros Hm Hk s. unfold run, mbind, M_bind. pose proof (Hm s) as Hs.
  unfold run in Hs. rewrite Hs. simpl.
  destruct (step (config (self s))) as [c|e]; simpl.
  - destruct (Hk (put_config c s)) as [H1 H2]. unfold run in H1, H2.
    rewrite H1, H2. auto.
  - now rewrite put_config_same.
Qed.

(** The loader is its nine statements, up to the first that raises; the
    handler makes it return in every case. *)
Lemma load_config_from_env_run (E : Env) (s : St) :
  run (_load_config_from_env E) s
  = (Ok tt, put_config (snd (run_steps (env_steps E) (config (self s)))) s).
Proof.
  assert (follows
            (load_list E "SUBREDDITS" with_subreddits;;
             load_int E "ACTIVE_HOURS_START" with_active_hours_start;;
             load_int E "ACTIVE_HOURS_END" with_active_hours_end;;
             load_int E "MIN_POST_SCORE" with_min_post_score;;
             load_int E "MAX_POST_AGE_HOURS" with_max_post_age_hours;;
             load_int E "COMMENT_RATE_LIMIT_SECONDS" with_comment_rate_limit_seconds;;
             load_list E "FORBIDDEN_KEYWORDS" with_forbidden_keywords;;
             load_list E "EXCLUDED_LANGUAGES" with_excluded_languages;;
             load_dry_run E)
            (env_steps E)) as Hbody.
  { unfold env_steps, integer_steps, integer_settings. cbn [map app fst snd].
    repeat (apply follows_cons;
            [first [apply implements_load_list | apply implements_load_int]|]).
    apply follows_one, implements_load_dry_run. }
  destruct (Hbody s) as [_ Hsnd]. unfold _load_config_from_env.
  unfold run, try_except in *.
  match goal with |- context [match ?m s with _ => _ end] => destruct (m s) as [[[]|e] s1] end;
    simpl in Hsnd; subst s1; reflexivity.
Qed.

Lemma run_steps_app (l1 l2 : list (BotConfig -> result BotConfig)) (c : BotConfig) :
  run_steps (l1 ++ l2) c
  = if fst (run_steps l1 c) then run_steps l2 (snd (run_steps l1 c))
    else run_steps l1 c.
Proof.
  revert c. induction l1 as [|step l1 IH]; intros c; simpl; [reflexivity|].
  destruct (step c); [apply IH | reflexivity].
Qed.

Lemma int_step_cases (E : Env) (name : string)
    (store : Z -> BotConfig -> BotConfig) (c : BotConfig) :
  (well_formed E name = true
   /\ (int_step E name store c = Ok c
       \/ exists n, int_step E name store c = Ok (store n c)))
  \/ (well_formed E name = false /\ exists e, int_step E name store c = Raise e).
Proof.
  unfold well_formed, int_step.
  destruct (environ E !! name) as [value|]; [|left; auto].
  destruct (PyStr.truthy value); [|left; auto].
  destruct (PyInt.of_str value) as [n|e]; simpl; [left|right]; eauto.
Qed.

(** The integer statements run to the end exactly when every integer
    variable is well formed, and they leave the later settings alone. *)
Lemma integer_steps_spec (E : Env) (c : BotConfig) :
  fst (run_steps (integer_steps E) c) = integers_well_formed E
  /\ same_policy c (snd (run_steps (integer_steps E) c))
  /\ subreddits (snd (run_steps (integer_steps E) c)) = subreddits c.
Proof.
  unfold integer_steps, integers_well_formed, integer_variables.
  assert (Forall (fun setting : string * (Z -> BotConfig -> BotConfig) =>
                    forall n c, same_policy c (snd setting n c)
                                /\ subreddits (snd setting n c) = subreddits c)
                 integer_settings) as Hstores.
  { unfold integer_settings.
    repeat (apply Forall_cons; split; [intros n c0; repeat split|]).
    apply Forall_nil_2. }
  revert c. induction Hstores as [|[name store] settings Hstore _ IH]; intros c.
  - simpl. repeat split.
  - cbn [map fst snd run_steps forallb].
    destruct (int_step_cases E name store c) as [[-> [->|[n ->]]]|[-> [e ->]]].
    + apply IH.
    + destruct (IH (store n c)) as (H1 & (H2 & H3 & H4) & H5).
      destruct (Hstore n c) as ((G2 & G3 & G4) & G5). simpl in *.
      split; [exact H1|]. split; [|congruence].
      repeat split; congruence.
    + simpl. repeat split.
Qed.

Lemma list_step_ok (E : Env) (name : string)
    (store : list string -> BotConfig -> BotConfig) (c : BotConfig) :
  exists c', list_step E name store c = Ok c'
             /\ (c' = c \/ exists v, environ E !! name = Some v
                                     /\ PyStr.truthy v = true
                                     /\ c' = store (PyText.split "," v) c).
Proof.
  unfold list_step. destruct (environ E !! name) as [v|]; [|eauto].
  destruct (PyStr.truthy v) eqn:Hv; eauto 8.
Qed.

(** X23.  [_load_config_from_env] never raises, but an integer variable
    that is set to ASCII text that [int] refuses stops it where it stands:
    the settings read after the integers, that is the forbidden
    keywords, the excluded languages and the dry-run flag, keep the
    values they had, whatever the environment holds for them. *)
Theorem malformed_integer_stops_loading (E : Env) (s : St) :
  integer_values_ascii E = true ->
  integers_well_formed E = false ->
  let s' := snd (run (_load_config_from_env E) s) in
  fst (run (_load_config_from_env E) s) = Ok tt
  /\ forbidden_keywords (config (self s')) = forbidden_keywords (config (self s))
  /\ excluded_languages (config (self s')) = excluded_languages (config (self s))
  /\ dry_run (config (self s')) = dry_run (config (self s))
  /\ world s' = world s
  /\ counters (self s') = counters (self s).
Proof.
  intros _ Hbad. cbv zeta. rewrite load_config_from_env_run. cbn [fst snd].
  split; [reflexivity|].
  unfold env_steps. cbn [run_steps].
  destruct (list_step_ok E "SUBREDDITS" with_subreddits (config (self s)))
    as (c1 & -> & Hc1).
  rewrite run_steps_app.
  destruct (integer_steps_spec E c1) as (Hfst & (H2 & H3 & H4) & _).
  rewrite Hfst, Hbad.
  assert (same_policy (config (self s)) c1) as (G2 & G3 & G4).
  { destruct Hc1 as [->|(v & _ & _ & ->)]; repeat split. }
  unfold put_config. cbn [self world config counters set_config].
  repeat split; congruence.
Qed.

Lemma malformed_integer_stops_loading_witness :
  dry_run (config (self (snd (run (_load_config_from_env malformed_score_env) demo_state))))
  = dry_run (config (self demo_state)).
Proof.
  refine (proj1 (proj2 (proj2 (proj2
            (malformed_integer_stops_loading malformed_score_env demo_state _ _)))));
    vm_compute; reflexivity.
Defined.





Lemma default_default {A} (x : A) (o : option A) :
  default (default x o) o = default x o.
Proof. destruct o; reflexivity. Qed.

(** X25.  What the API stores when the configuration is updated is what
    the bot finds again: after [update_config] with a dictionary,
    applying the same dictionary a second time, or loading it back
    through [_load_config_from_db], changes nothing, whatever the
    environment holds. *)
Theorem update_then_reload_config (E : Env) (p : ConfigPatch) (s : St) :
  run (update_config p;; update_config p) s = run (update_config p) s
  /\ run (update_config p;; _load_config_from_db E (Some p)) s
     = run (update_config p) s.
Proof.
  assert (run (update_config p;; update_config p) s = run (update_config p) s) as Htwice.
  { unfold update_config, run, mbind, M_bind, modify_self. cbn [self world stats].
    unfold set_config. cbn [config active counters reddit openai_client openai_model
                            catalog credentials subreddits active_hours_start
                            active_hours_end min_post_score max_post_age_hours
                            comment_rate_limit_seconds forbidden_keywords
                            excluded_languages dry_run].
    rewrite !default_default. reflexivity. }
  split; [exact Htwice|].
  transitivity (run (update_config p;; update_config p) s); [|exact Htwice].
  unfold _load_config_from_db, run, mbind, M_bind, try_except.
  destruct (update_config p s) as [[[]|e] s1]; reflexivity.
Qed.

(** ** The routes for the credentials *)

Lemma save_if_given_get (data : gmap string string) (name key : string)
    (t : Database.Table) (v1 : string) :
  Database.get_credential key t = Some v1 ->
  exists v2,
    Database.get_credential key (save_if_given data name t) = Some v2
    /\ (v2 = v1 \/ (key = name /\ PyStr.truthy v2 = true)).
Proof.
  intros Hget. unfold save_if_given, Database.get_credential in *.
  destruct (data !! name) as [value|]; [|eauto].
  destruct (PyStr.truthy value) eqn:Hv; [|eauto].
  rewrite select_one_save. destruct (String.eqb_spec key name) as [->|Hne]; eauto.
Qed.

Lemma save_if_given_unique (data : gmap string string) (name : string)
    (t : Database.Table) :
  unique_names t -> unique_names (save_if_given data name t).
Proof.
  intros Hnd. unfold save_if_given. destruct (data !! name) as [value|]; [|exact Hnd].
  destruct (PyStr.truthy value); [now apply unique_names_save | exact Hnd].
Qed.

(** X26.  The two routes that update the credentials can replace a
    stored value but never remove or empty one: a name stored before a
    request is stored after it, a value that was not empty is not empty
    afterwards, and a name that is none of the seven of the routes keeps
    its value.  The table stays within its constraint. *)
Theorem credential_routes_never_clear (data : gmap string string)
    (t : Database.Table) (key old : string) :
  Database.get_credential key t = Some old ->
  forall t',
    t' = snd (update_reddit_credentials data t)
    \/ t' = snd (update_openai_credentials data t) ->
    exists value,
      Database.get_credential key t' = Some value
      /\ (PyStr.truthy old = true -> PyStr.truthy value = true)
      /\ (~ In key route_names -> value = old)
      /\ (unique_names t -> unique_names t').
Proof.
  intros H0 t' [->| ->].
  - unfold update_reddit_credentials.
    destruct (decide (data = ∅)) as [_|_]; cbn [snd].
    { exists old. auto. }
    destruct (save_if_given_get data "reddit_client_id" key _ _ H0) as (v1 & H1 & O1).
    destruct (save_if_given_get data "reddit_client_secret" key _ _ H1) as (v2 & H2 & O2).
    destruct (save_if_given_get data "reddit_username" key _ _ H2) as (v3 & H3 & O3).
    destruct (save_if_given_get data "reddit_password" key _ _ H3) as (v4 & H4 & O4).
    destruct (save_if_given_get data "reddit_user_agent" key _ _ H4) as (v5 & H5 & O5).
    exists v5. split; [exact H5|]. split; [|split].
    + intros Hold.
      destruct O5 as [->|[_ ?]]; [|assumption].
      destruct O4 as [->|[_ ?]]; [|assumption].
      destruct O3 as [->|[_ ?]]; [|assumption].
      destruct O2 as [->|[_ ?]]; [|assumption].
      destruct O1 as [->|[_ ?]]; assumption.
    + intros Hnot. unfold route_names in Hnot. simpl in Hnot.
      destruct O5 as [->|[-> _]]; [|tauto].
      destruct O4 as [->|[-> _]]; [|tauto].
      destruct O3 as [->|[-> _]]; [|tauto].
      destruct O2 as [->|[-> _]]; [|tauto].
      destruct O1 as [->|[-> _]]; [reflexivity | tauto].
    + intros Hnd. repeat apply save_if_given_unique. exact Hnd.
  - unfold update_openai_credentials.
    destruct (decide (data = ∅)) as [_|_]; cbn [snd].
    { exists old. auto. }
    destruct (save_if_given_get data "openai_api_key" key _ _ H0) as (v1 & H1 & O1).
    destruct (save_if_given_get data "openai_model" key _ _ H1) as (v2 & H2 & O2).
    exists v2. split; [exact H2|]. split; [|split].
    + intros Hold.
      destruct O2 as [->|[_ ?]]; [|assumption].
      destruct O1 as [->|[_ ?]]; assumption.
    + intros Hnot. unfold route_names in Hnot. simpl in Hnot.
      destruct O2 as [->|[-> _]]; [|tauto].
      destruct O1 as [->|[-> _]]; [reflexivity | tauto].
    + intros Hnd. repeat apply save_if_given_unique. exact Hnd.
Qed.

Lemma credential_routes_never_clear_witness :
  exists value,
    Database.get_credential "reddit_password"
      (snd (update_reddit_credentials sample_request (secret_table "pw")))
    = Some value
    /\ (PyStr.truthy "pw" = true -> PyStr.truthy value = true)
    /\ (~ In "reddit_password" route_names -> value = "pw")
    /\ (unique_names (secret_table "pw") ->
        unique_names (snd (update_reddit_credentials sample_request (secret_table "pw")))).
Proof.
  apply (credential_routes_never_clear sample_request (secret_table "pw")
           "reddit_password" "pw").
  - reflexivity.
  - left. reflexivity.
Defined.

Lemma show_public (t1 t2 : Database.Table) (name : string)
    (d : list (string * string)) :
  Database.get_credential name t1 = Database.get_credential name t2 ->
  show_if_stored t1 name (fun value => value) d
  = show_if_stored t2 name (fun value => value) d.
Proof. unfold show_if_stored. now intros ->. Qed.

Lemma show_secret (t1 t2 : Database.Table) (name : string)
    (d : list (string * string)) :
  PyStr.truthy_opt (Database.get_credential name t1)
  = PyStr.truthy_opt (Database.get_credential name t2) ->
  show_if_stored t1 name (fun _ => mask) d = show_if_stored t2 name (fun _ => mask) d.
Proof.
  unfold show_if_stored.
  destruct (Database.get_credential name t1) as [v1|],
           (Database.get_credential name t2) as [v2|]; simpl; intros H;
    rewrite <- ?H, ?H; reflexivity.
Qed.

(** X27.  The response of [get_credentials] does not depend on the
    stored secrets: two tables that agree on the other names, and that
    hold a client secret, a password and an API key, empty or not, at
    the same time, give the same response. *)
Theorem get_credentials_hides_secrets (t1 t2 : Database.Table) :
  same_outside_secrets t1 t2 ->
  get_credentials t1 = get_credentials t2.
Proof.
  intros Hsame. unfold get_credentials.
  pose proof (Hsame "reddit_client_id") as P1.
  pose proof (Hsame "reddit_client_secret") as S1.
  pose proof (Hsame "reddit_username") as P2.
  pose proof (Hsame "reddit_password") as S2.
  pose proof (Hsame "reddit_user_agent") as P3.
  pose proof (Hsame "openai_api_key") as S3.
  pose proof (Hsame "openai_model") as P4.
  cbv zeta.
  rewrite (show_public t1 t2 "reddit_client_id" _ P1).
  rewrite (show_secret t1 t2 "reddit_client_secret" _ S1).
  rewrite (show_public t1 t2 "reddit_username" _ P2).
  rewrite (show_secret t1 t2 "reddit_password" _ S2).
  rewrite (show_public t1 t2 "reddit_user_agent" _ P3).
  rewrite (show_secret t1 t2 "openai_api_key" _ S3).
  rewrite (show_public t1 t2 "openai_model" _ P4).
  reflexivity.
Qed.

Lemma get_credentials_hides_secrets_witness :
  get_credentials (secret_table "pw") = get_credentials (secret_table "hunter2").
Proof.
  apply get_credentials_hides_secrets. intros name.
  unfold Database.get_credential, secret_table. cbn [Database.select_one].
  destruct (String.eqb_spec "reddit_username" name) as [<-|_]; [reflexivity|].
  destruct (String.eqb_spec "reddit_password" name) as [<-|_]; [reflexivity|].
  destruct (bool_decide (name ∈ secret_names)); reflexivity.
Defined.

(** ** The monitoring thread *)

Lemma monitor_thread_turn_spec (E : Env) (s : St) :
  exists s',
    run (monitor_thread_turn E) s = (Ok tt, s')
    /\ base_view s' = base_view s
    /\ (clock (world s) + 60 <= clock (world s'))%Q
    /\ (active (self s) = false ->
        self s' = self s /\ stats s' = stats s
        /\ net (world s') = net (world s)
        /\ clock (world s') = (clock (world s) + 60)%Q).
Proof.
  assert (forall s0 : St,
            time_sleep 60 s0
            = (Ok tt, {| self := self s0;
                         world := {| clock := (clock (world s0) + inject_Z 60)%Q;
                                     draws := draws (world s0);
                                     net := net (world s0) |};
                         stats := stats s0 |})) as Hsleep by reflexivity.
  unfold monitor_thread_turn, run, mbind, M_bind, get_self, try_except.
  cbv beta iota.
  destruct (active (self s)) eqn:Hact.
  - destruct (monitor_paced E s)
      as (summary & s1 & Hrun & Hn & Hbase & _ & _ & Hclock).
    unfold run in Hrun. rewrite Hrun. unfold mret, M_ret. rewrite Hsleep.
    eexists. split; [reflexivity|].
    cbn [self world stats clock net]. split; [exact Hbase|]. split; [|discriminate].
    rewrite Hclock.
    assert (0 <= inject_Z (summary_comments summary
                           * pacing_delay (comment_rate_limit_seconds (config (self s)))))%Q
      as Hpos.
    { change 0%Q with (inject_Z 0). rewrite <- Zle_Qle.
      apply Z.mul_nonneg_nonneg; [exact Hn|].
      unfold pacing_delay, sleeps.
      destruct (Z.leb_spec 0 (comment_rate_limit_seconds (config (self s))));
        destruct (comment_rate_limit_seconds (config (self s)) <=? sleep_max)%Z;
        simpl; lia. }
    change (inject_Z 60) with 60%Q. lra.
  - unfold mret, M_ret. rewrite Hsleep.
    eexists. split; [reflexivity|]. cbn [self world stats clock net].
    split; [reflexivity|]. split; [change (inject_Z 60) with 60%Q; lra|].
    intros _. repeat split.
Qed.

(** X28.  The monitoring thread never dies: any number of turns of its
    loop returns without an exception and leaves the settings of the bot
    as they were, and each turn takes at least sixty seconds.  While
    the bot is stopped the turns change nothing but the clock. *)
Theorem monitor_thread_keeps_running (E : Env) (turns : nat) (s : St) :
  exists s',
    run (monitor_thread E turns) s = (Ok tt, s')
    /\ base_view s' = base_view s
    /\ (clock (world s) + inject_Z (60 * Z.of_nat turns) <= clock (world s'))%Q
    /\ (active (self s) = false ->
        self s' = self s /\ stats s' = stats s /\ net (world s') = net (world s)).
Proof.
  revert s. induction turns as [|turns IH]; intros s.
  - exists s. split; [reflexivity|]. split; [reflexivity|]. split.
    + change (inject_Z (60 * Z.of_nat 0)) with 0%Q. lra.
    + auto.
  - destruct (monitor_thread_turn_spec E s) as (s1 & Hrun1 & Hb1 & Hc1 & Hoff1).
    destruct (IH s1) as (s2 & Hrun2 & Hb2 & Hc2 & Hoff2).
    exists s2. split; [|split; [|split]].
    + cbn [monitor_thread]. unfold run, mbind, M_bind in *. rewrite Hrun1. exact Hrun2.
    + congruence.
    + replace (60 * Z.of_nat (S turns))%Z with (60 + 60 * Z.of_nat turns)%Z by lia.
      rewrite inject_Z_plus. change (inject_Z 60) with 60%Q. lra.
    + intros Hact. destruct (Hoff1 Hact) as (Hs1 & Ht1 & Hn1 & _).
      assert (active (self s1) = false) as Hact1 by congruence.
      destruct (Hoff2 Hact1) as (Hs2 & Ht2 & Hn2).
      repeat split; congruence.
Qed.
